(** * survey-library: the expression operators, the validator pipeline and the
    survey's value store, embedded in Rocq

    Sources embedded here:
    - [src/expressions/expressions.ts]  (the operand classes and
      [OperandMaker])
    - [src/validator.ts]                ([ValidatorRunner], [RegexValidator],
      [NumericValidator], [TextValidator], [AnswerCountValidator])
    - [src/survey.ts]                   ([SurveyModel]: the value store and
      the variables, triggers and conditions, the current page, completion,
      validation on the server)

    The code is TypeScript, so its meaning rests on a handful of ECMAScript
    built-ins ([Number], [parseFloat], [parseInt], truthiness, [+], [%],
    [String.prototype.indexOf], ...).  Module [JS] gives them an executable
    model; numbers are IEEE 754 binary64, carried by Rocq's primitive floats. *)

From Stdlib Require Import ZArith String Ascii List Bool Lia Floats.
From stdpp Require Import gmap strings.
Import ListNotations.

Local Open Scope string_scope.
Local Open Scope Z_scope.

(* ===================================================================== *)
(** * ECMAScript values and built-ins *)
(* ===================================================================== *)

Module JS.

(** A string is a sequence of UTF-16 code units; the model keeps the code
    units below 256, one [ascii] each. *)

Definition code (c : ascii) : Z := Z.of_N (N_of_ascii c).

Definition charOfCode (n : Z) : ascii := ascii_of_N (Z.to_N n).

(** [WhiteSpace] and [LineTerminator] code units: TAB, LF, VT, FF, CR, SP, NBSP. *)
Definition isWhiteSpace (c : ascii) : bool :=
  let n := code c in
  ((9 <=? n) && (n <=? 13)) || (n =? 32) || (n =? 160).

Fixpoint trimStart (s : string) : string :=
  match s with
  | String c r => if isWhiteSpace c then trimStart r else s
  | EmptyString => EmptyString
  end.

Fixpoint dropWhileWs (l : list ascii) : list ascii :=
  match l with
  | c :: r => if isWhiteSpace c then dropWhileWs r else l
  | [] => []
  end.

Definition trimEnd (s : string) : string :=
  string_of_list_ascii (rev (dropWhileWs (rev (list_ascii_of_string s)))).

Definition trim (s : string) : string := trimEnd (trimStart s).

(** [String.prototype.toLowerCase] on the Latin-1 range. *)
Definition lowerChar (c : ascii) : ascii :=
  let n := code c in
  if ((65 <=? n) && (n <=? 90)) || ((192 <=? n) && (n <=? 222) && negb (n =? 215))
  then charOfCode (n + 32) else c.

Fixpoint toLowerCase (s : string) : string :=
  match s with
  | String c r => String (lowerChar c) (toLowerCase r)
  | EmptyString => EmptyString
  end.

(** [s.indexOf(pat)]: the index of the first occurrence, [-1] when absent. *)
Fixpoint indexOfFrom (pat s : string) (i : Z) : Z :=
  if String.prefix pat s then i
  else match s with
       | String _ r => indexOfFrom pat r (i + 1)
       | EmptyString => -1
       end.

Definition indexOf (s pat : string) : Z := indexOfFrom pat s 0.

(** ** Numbers *)

Definition isNaN (x : float) : bool := PrimFloat.is_nan x.

Definition isFinite (x : float) : bool :=
  negb (PrimFloat.is_nan x || PrimFloat.is_infinity x).

(** The binary64 value nearest to [(-1)^neg * m * 10^e10] (ties to even),
    for [0 <= m]: the rounding every engine applies to a numeric literal. *)
Definition float_of_decimal (neg : bool) (m e10 : Z) : float :=
  if m =? 0 then (if neg then PrimFloat.opp PrimFloat.zero else PrimFloat.zero)
  else if 0 <=? e10
       then SF2Prim (binary_normalize prec emax
                       ((if neg then -1 else 1) * m * 10 ^ e10) 0 false)
       else SF2Prim (SFdiv prec emax
                       (S754_finite neg (Z.to_pos m) 0)
                       (S754_finite false (Z.to_pos (10 ^ (- e10))) 0)).

Definition digitValue (c : ascii) : option Z :=
  let n := code c in
  if (48 <=? n) && (n <=? 57) then Some (n - 48)
  else if (97 <=? n) && (n <=? 122) then Some (n - 87)
  else if (65 <=? n) && (n <=? 90) then Some (n - 55)
  else None.

Definition digitIn (radix : Z) (c : ascii) : option Z :=
  match digitValue c with
  | Some d => if d <? radix then Some d else None
  | None => None
  end.

(** The longest prefix of radix-[radix] digits, and what follows it. *)
Fixpoint spanDigits (radix : Z) (s : string) : list Z * string :=
  match s with
  | String c r =>
      match digitIn radix c with
      | Some d => let (ds, rest) := spanDigits radix r in (d :: ds, rest)
      | None => ([], s)
      end
  | EmptyString => ([], EmptyString)
  end.

Definition digitsToZ (radix : Z) (ds : list Z) : Z :=
  fold_left (fun acc d => acc * radix + d) ds 0.

Inductive numericLiteral :=
| LInfinity (neg : bool)
| LDecimal (neg : bool) (mant exp10 : Z).

Definition literalValue (l : numericLiteral) : float :=
  match l with
  | LInfinity false => PrimFloat.infinity
  | LInfinity true => PrimFloat.neg_infinity
  | LDecimal neg m e => float_of_decimal neg m e
  end.

Definition scanSign (s : string) : bool * string :=
  match s with
  | String "+" r => (false, r)
  | String "-" r => (true, r)
  | _ => (false, s)
  end.

(** [ExponentPart], when one is there in full; otherwise nothing is consumed. *)
Definition scanExponent (s : string) : Z * string :=
  match s with
  | String c r =>
      if (code c =? 101) || (code c =? 69) then
        let (neg, r1) := scanSign r in
        match spanDigits 10 r1 with
        | ([], _) => (0, s)
        | (ds, r2) => ((if neg then - digitsToZ 10 ds else digitsToZ 10 ds), r2)
        end
      else (0, s)
  | EmptyString => (0, s)
  end.

(** The longest prefix that is a [StrUnsignedDecimalLiteral] other than
    [Infinity]: digits, optional fraction, optional exponent. *)
Definition scanUnsignedDecimal (s : string) : option (Z * Z * string) :=
  let (ip, r1) := spanDigits 10 s in
  match r1 with
  | String "." r2 =>
      let (fp, r3) := spanDigits 10 r2 in
      match ip, fp with
      | [], [] => None
      | _, _ =>
          let (e, r4) := scanExponent r3 in
          Some (digitsToZ 10 (ip ++ fp), e - Z.of_nat (List.length fp), r4)
      end
  | _ =>
      match ip with
      | [] => None
      | _ => let (e, r2) := scanExponent r1 in Some (digitsToZ 10 ip, e, r2)
      end
  end.

Fixpoint dropChars (n : nat) (s : string) : string :=
  match n, s with
  | S k, String _ r => dropChars k r
  | _, _ => s
  end.

(** The longest prefix that is a [StrDecimalLiteral]. *)
Definition scanStrDecimalLiteral (s : string) : option (numericLiteral * string) :=
  let (neg, r) := scanSign s in
  if String.prefix "Infinity" r then Some (LInfinity neg, dropChars 8 r)
  else match scanUnsignedDecimal r with
       | Some (m, e, rest) => Some (LDecimal neg m e, rest)
       | None => None
       end.

(** [0x], [0o] and [0b] literals: the whole string, no sign. *)
Definition scanNonDecimal (s : string) : option Z :=
  match s with
  | String "0" (String c r) =>
      let n := code c in
      let radix := if (n =? 120) || (n =? 88) then 16
                   else if (n =? 111) || (n =? 79) then 8
                   else if (n =? 98) || (n =? 66) then 2
                   else 0 in
      if radix =? 0 then None
      else match spanDigits radix r with
           | (d :: ds, EmptyString) => Some (digitsToZ radix (d :: ds))
           | _ => None
           end
  | _ => None
  end.

(** [Number(s)] for a string [s] (StringToNumber). *)
Definition StringToNumber (s : string) : float :=
  match trim s with
  | EmptyString => PrimFloat.zero
  | t =>
      match scanNonDecimal t with
      | Some z => float_of_decimal false z 0
      | None =>
          match scanStrDecimalLiteral t with
          | Some (lit, EmptyString) => literalValue lit
          | _ => PrimFloat.nan
          end
      end
  end.

(** [parseFloat(s)]: leading white space is skipped, the longest decimal
    prefix is read, the rest is ignored. *)
Definition parseFloat (s : string) : float :=
  match scanStrDecimalLiteral (trimStart s) with
  | Some (lit, _) => literalValue lit
  | None => PrimFloat.nan
  end.

(** [parseInt(s)] with no radix argument. *)
Definition parseInt (s : string) : float :=
  let (neg, r) := scanSign (trimStart s) in
  let (radix, body) :=
    match r with
    | String "0" (String c r2) =>
        if (code c =? 120) || (code c =? 88) then (16, r2) else (10, r)
    | _ => (10, r)
    end in
  match spanDigits radix body with
  | ([], _) => PrimFloat.nan
  | (ds, _) => float_of_decimal neg (digitsToZ radix ds) 0
  end.

(** ** Number::toString

    The shortest decimal that reads back as the same binary64 value, laid
    out as ECMAScript prescribes (plain digits up to 21 integer digits, up
    to six leading fractional zeros, exponent form beyond). *)

Fixpoint decimalDigitsAux (fuel : nat) (z : Z) (acc : list Z) : list Z :=
  match fuel with
  | O => z :: acc
  | S f => if z <? 10 then z :: acc
           else decimalDigitsAux f (z / 10) (z mod 10 :: acc)
  end.

Definition decimalDigits (z : Z) : list Z :=
  decimalDigitsAux (Z.to_nat (Z.log2 z)) z [].

Fixpoint digitsString (ds : list Z) : string :=
  match ds with
  | d :: r => String (charOfCode (48 + d)) (digitsString r)
  | [] => EmptyString
  end.

Fixpoint zeros (n : nat) : string :=
  match n with
  | O => EmptyString
  | S k => String "0" (zeros k)
  end.

(** Quotient, remainder and divisor of [m * 2^e / 10^q], over the integers. *)
Definition scaledFloor (m : positive) (e q : Z) : Z * Z * Z :=
  let num := Z.pos m * (if 0 <=? e then 2 ^ e else 1)
                     * (if q <? 0 then 10 ^ (- q) else 1) in
  let den := (if e <? 0 then 2 ^ (- e) else 1)
             * (if 0 <=? q then 10 ^ q else 1) in
  (num / den, num mod den, den).

Fixpoint searchExponent (fuel : nat) (m : positive) (e n : Z) : Z :=
  match fuel with
  | O => n
  | S f => if fst (fst (scaledFloor m e n)) =? 0 then n
           else searchExponent f m e (n + 1)
  end.

(** The [n] with [10^(n-1) <= m * 2^e < 10^n]. *)
Definition decimalExponent (m : positive) (e : Z) : Z :=
  let b := Z.log2 (Z.pos m) + e in
  let low := Z.min (b * 30102) (b * 30103) / 100000 in
  searchExponent 4 m e (low + 1).

(** The least number of digits [k], with its [s], such that [s * 10^(n-k)]
    rounds to [x]; of two such [s] the one nearer to [x]. *)
Fixpoint shortestDigits (fuel : nat) (x : float) (m : positive) (e n k : Z)
  : Z * Z :=
  match fuel with
  | O => (0, 0)
  | S f =>
      let q := n - k in
      let '(lo, r, den) := scaledFloor m e q in
      let okLo := PrimFloat.eqb (float_of_decimal false lo q) x in
      let okHi := PrimFloat.eqb (float_of_decimal false (lo + 1) q) x in
      if okLo && okHi then
        (if (2 * r <? den) || ((2 * r =? den) && Z.even lo)
         then (lo, q) else (lo + 1, q))
      else if okLo then (lo, q)
      else if okHi then (lo + 1, q)
      else shortestDigits f x m e n (k + 1)
  end.

Fixpoint stripZeros (fuel : nat) (s q : Z) : Z * Z :=
  match fuel with
  | O => (s, q)
  | S f => if (0 <? s) && (s mod 10 =? 0) then stripZeros f (s / 10) (q + 1)
           else (s, q)
  end.

Definition formatDigits (ds : list Z) (n : Z) : string :=
  let k := Z.of_nat (List.length ds) in
  if (k <=? n) && (n <=? 21) then
    digitsString ds +:+ zeros (Z.to_nat (n - k))
  else if (0 <? n) && (n <=? 21) then
    digitsString (firstn (Z.to_nat n) ds) +:+ "." +:+
    digitsString (skipn (Z.to_nat n) ds)
  else if (-6 <? n) && (n <=? 0) then
    "0." +:+ zeros (Z.to_nat (- n)) +:+ digitsString ds
  else
    let ex := n - 1 in
    let tail := "e" +:+ (if ex <? 0 then "-" else "+") +:+
                digitsString (decimalDigits (Z.abs ex)) in
    match ds with
    | [d] => digitsString [d] +:+ tail
    | d :: r => digitsString [d] +:+ "." +:+ digitsString r +:+ tail
    | [] => tail
    end.

Definition NumberToString (x : float) : string :=
  match Prim2SF x with
  | S754_nan => "NaN"
  | S754_zero _ => "0"
  | S754_infinity false => "Infinity"
  | S754_infinity true => "-Infinity"
  | S754_finite neg m e =>
      let n := decimalExponent m e in
      let (s0, q0) := shortestDigits 17 (PrimFloat.abs x) m e n 1 in
      let (s, q) := stripZeros 20 s0 q0 in
      let ds := decimalDigits s in
      (if neg then "-" else "") +:+ formatDigits ds (Z.of_nat (List.length ds) + q)
  end.

(** [a % b] on numbers: the remainder of the truncating division, exact,
    with the sign of the dividend. *)
Definition fmod (a b : float) : float :=
  match Prim2SF a, Prim2SF b with
  | S754_nan, _ | _, S754_nan => PrimFloat.nan
  | S754_infinity _, _ => PrimFloat.nan
  | _, S754_zero _ => PrimFloat.nan
  | S754_zero _, _ => a
  | S754_finite _ _ _, S754_infinity _ => a
  | S754_finite sa ma ea, S754_finite _ mb eb =>
      let e := Z.min ea eb in
      let r := (Z.pos ma * 2 ^ (ea - e)) mod (Z.pos mb * 2 ^ (eb - e)) in
      if r =? 0 then (if sa then PrimFloat.opp PrimFloat.zero else PrimFloat.zero)
      else SF2Prim (binary_normalize prec emax (if sa then - r else r) e false)
  end.

(** ** Values

    The values an answer or an operand can take: [undefined], [null],
    booleans, numbers, strings, and arrays of values.  (Plain objects, the
    answers of matrix questions, are not part of this development.) *)

#[warnings="-register-all"]
Inductive value :=
| VUndefined
| VNull
| VBool (b : bool)
| VNum (n : float)
| VStr (s : string)
| VArr (items : list value).

(** Induction over values that reaches into the elements of an array. *)
Fixpoint value_rect' (P : value -> Type) (Q : list value -> Type)
    (Hu : P VUndefined) (Hn : P VNull) (Hb : forall b, P (VBool b))
    (Hf : forall n, P (VNum n)) (Hs : forall s, P (VStr s))
    (Ha : forall l, Q l -> P (VArr l))
    (Hnil : Q []) (Hcons : forall x l, P x -> Q l -> Q (x :: l))
    (v : value) : P v :=
  match v with
  | VUndefined => Hu
  | VNull => Hn
  | VBool b => Hb b
  | VNum n => Hf n
  | VStr s => Hs s
  | VArr l =>
      Ha l ((fix go (l : list value) : Q l :=
               match l with
               | [] => Hnil
               | x :: r => Hcons x r
                             (value_rect' P Q Hu Hn Hb Hf Hs Ha Hnil Hcons x) (go r)
               end) l)
  end.

(** ToBoolean: what [!v], [v && w] and [if (v)] look at. *)
Definition truthy (v : value) : bool :=
  match v with
  | VUndefined | VNull => false
  | VBool b => b
  | VNum n => negb (PrimFloat.eqb n PrimFloat.zero || PrimFloat.is_nan n)
  | VStr EmptyString => false
  | VStr _ => true
  | VArr _ => true
  end.

(** [v == null]. *)
Definition isNullish (v : value) : bool :=
  match v with
  | VUndefined | VNull => true
  | _ => false
  end.

Definition isArray (v : value) : bool :=
  match v with
  | VArr _ => true
  | _ => false
  end.

(** ToString; an array is its elements joined by commas, [null] and
    [undefined] elements contributing nothing. *)
Fixpoint ToString (v : value) : string :=
  match v with
  | VUndefined => "undefined"
  | VNull => "null"
  | VBool true => "true"
  | VBool false => "false"
  | VNum n => NumberToString n
  | VStr s => s
  | VArr l =>
      (fix join (l : list value) : string :=
         match l with
         | [] => EmptyString
         | x :: r =>
             (match x with
              | VUndefined | VNull => EmptyString
              | _ => ToString x
              end) +:+
             (match r with
              | [] => EmptyString
              | _ => "," +:+ join r
              end)
         end) l
  end.

Definition ToPrimitive (v : value) : value :=
  match v with
  | VArr _ => VStr (ToString v)
  | _ => v
  end.

Definition ToNumber (v : value) : float :=
  match v with
  | VUndefined => PrimFloat.nan
  | VNull => PrimFloat.zero
  | VBool true => PrimFloat.one
  | VBool false => PrimFloat.zero
  | VNum n => n
  | VStr s => StringToNumber s
  | VArr _ => StringToNumber (ToString v)
  end.

(** The binary operators [+ - * / %]. *)
Definition add (a b : value) : value :=
  let pa := ToPrimitive a in
  let pb := ToPrimitive b in
  match pa, pb with
  | VStr _, _ | _, VStr _ => VStr (ToString pa +:+ ToString pb)
  | _, _ => VNum (PrimFloat.add (ToNumber pa) (ToNumber pb))
  end.

Definition sub (a b : value) : value :=
  VNum (PrimFloat.sub (ToNumber a) (ToNumber b)).

Definition mul (a b : value) : value :=
  VNum (PrimFloat.mul (ToNumber a) (ToNumber b)).

Definition div (a b : value) : value :=
  VNum (PrimFloat.div (ToNumber a) (ToNumber b)).

Definition rem (a b : value) : value :=
  VNum (fmod (ToNumber a) (ToNumber b)).

(** [==] between two primitives. *)
Definition primitiveEquals (x y : value) : bool :=
  match x, y with
  | (VUndefined | VNull), (VUndefined | VNull) => true
  | (VUndefined | VNull), _ | _, (VUndefined | VNull) => false
  | VStr a, VStr b => String.eqb a b
  | _, _ => PrimFloat.eqb (ToNumber x) (ToNumber y)
  end.

(** [Number(v)]. *)
Definition Number (v : value) : float := ToNumber v.

(** The abstract relational comparison [x < y]; [None] when a side is NaN. *)
Definition lessThan (x y : value) : option bool :=
  match ToPrimitive x, ToPrimitive y with
  | VStr a, VStr b =>
      Some (match String.compare a b with Lt => true | _ => false end)
  | px, py =>
      let nx := ToNumber px in
      let ny := ToNumber py in
      if PrimFloat.is_nan nx || PrimFloat.is_nan ny then None
      else Some (PrimFloat.ltb nx ny)
  end.

Definition isTrue (o : option bool) : bool :=
  match o with Some true => true | _ => false end.

Definition isFalse (o : option bool) : bool :=
  match o with Some false => true | _ => false end.

(** [a[key]] on an object literal [a]: an own property, else a member
    inherited from [Object.prototype], else [undefined]. *)
Inductive property (A : Type) :=
| Own (a : A)
| Inherited
| Absent.
Arguments Own {A} a.
Arguments Inherited {A}.
Arguments Absent {A}.

Definition objectPrototypeMembers : list string :=
  ["constructor"; "hasOwnProperty"; "isPrototypeOf"; "propertyIsEnumerable";
   "toLocaleString"; "toString"; "valueOf"; "__proto__";
   "__defineGetter__"; "__defineSetter__"; "__lookupGetter__"; "__lookupSetter__"].

Fixpoint assoc {A : Type} (key : string) (table : list (string * A)) : option A :=
  match table with
  | (k, a) :: r => if String.eqb k key then Some a else assoc key r
  | [] => None
  end.

Definition getProperty {A : Type} (table : list (string * A)) (key : string)
  : property A :=
  match assoc key table with
  | Some a => Own a
  | None => if existsb (String.eqb key) objectPrototypeMembers
            then Inherited else Absent
  end.

(** What a call returns: a value, or a thrown [Error] with its message. *)
Inductive completion (A : Type) :=
| Return (a : A)
| Throw (message : string).
Arguments Return {A} a.
Arguments Throw {A} message.

End JS.

(* ===================================================================== *)
(** * helpers.ts *)
(* ===================================================================== *)

Module Helpers.
Import JS.

(** Modelled from the spec: [Helpers.isValueEmpty] ([src/helpers.ts] is not
    among the sources).  Section 4.2 speaks of an "empty operand
    (null/undefined/empty)"; empty is read as the empty string and the
    empty sequence.  The number [0] and [false] are values, not absences. *)
Definition isValueEmpty (v : value) : bool :=
  match v with
  | VUndefined | VNull => true
  | VStr EmptyString => true
  | VArr [] => true
  | _ => false
  end.

(** Modelled from the spec: [Helpers.isTwoValueEquals] ([src/helpers.ts] is
    not among the sources).  Section 4.2: "deep, type-normalizing equality
    (numbers/numeric-strings compare by value; ... arrays -- element-wise
    ...)"; section 8: [equal(5, "5") == true], [equal(null, 0) == false]. *)
Fixpoint isTwoValueEquals (x y : value) : bool :=
  match x, y with
  | VArr xs, VArr ys =>
      (fix each (xs ys : list value) : bool :=
         match xs, ys with
         | [], [] => true
         | a :: xs', b :: ys' => isTwoValueEquals a b && each xs' ys'
         | _, _ => false
         end) xs ys
  | VArr _, _ | _, VArr _ => false
  | _, _ => primitiveEquals x y
  end.

(** Modelled from the spec: [Helpers.getUnbindValue] ([src/helpers.ts] is
    not among the sources) hands out a copy detached from the stored
    object; values are immutable here, so the copy is the value. *)
Definition getUnbindValue (v : value) : value := v.

End Helpers.

(* ===================================================================== *)
(** * expressions/expressions.ts *)
(* ===================================================================== *)

Module Expressions.
Import JS Helpers.

(** ** class Const *)

(** [Const.isBooleanValue]. *)
Definition isBooleanValue (value : string) : bool :=
  truthy (VStr value) &&
  (String.eqb (toLowerCase value) "true" || String.eqb (toLowerCase value) "false").

(** [Const.isNumericValue] (and, word for word, [OperandMaker.isNumeric]). *)
Definition isNumericValue (value : string) : bool :=
  if truthy (VStr value) &&
     ((indexOf value "-" >? -1) ||
      (indexOf value "+" >? 1) ||
      (indexOf value "*" >? -1) ||
      (indexOf value "^" >? -1) ||
      (indexOf value "/" >? -1) ||
      (indexOf value "%" >? -1))
  then false
  else
    let val := Number (VStr value) in
    if isNaN val then false else isFinite val.

(** [Const.getCorrectValue]. *)
Definition getCorrectValue (value : JS.value) : JS.value :=
  match value with
  | VStr s =>
      if negb (truthy value) then value
      else if isBooleanValue s then VBool (String.eqb (toLowerCase s) "true")
      else if isNumericValue s then
        (if indexOf s "0x" =? 0 then VNum (parseInt s) else VNum (parseFloat s))
      else value
  | _ => value
  end.

(** ** OperandMaker.unaryFunctions *)

Definition empty (value : JS.value) : bool :=
  if isNullish value then true else negb (truthy value).

Definition notempty (value : JS.value) : bool := negb (empty value).

Definition negate (value : JS.value) : bool := negb (truthy value).

Inductive unaryKey := U_empty | U_notempty | U_negate.

Definition unaryFunctions : list (string * unaryKey) :=
  [("empty", U_empty); ("notempty", U_notempty); ("negate", U_negate)].

(** ** OperandMaker.binaryFunctions *)

Inductive binaryKey :=
| B_arithmeticOp | B_and | B_or | B_plus | B_minus | B_mul | B_div | B_mod
| B_power | B_greater | B_less | B_greaterorequal | B_lessorequal | B_equal
| B_notequal | B_contains | B_notcontains | B_anyof | B_allof | B_containsCore.

Definition binaryFunctions : list (string * binaryKey) :=
  [("arithmeticOp", B_arithmeticOp); ("and", B_and); ("or", B_or);
   ("plus", B_plus); ("minus", B_minus); ("mul", B_mul); ("div", B_div);
   ("mod", B_mod); ("power", B_power); ("greater", B_greater);
   ("less", B_less); ("greaterorequal", B_greaterorequal);
   ("lessorequal", B_lessorequal); ("equal", B_equal);
   ("notequal", B_notequal); ("contains", B_contains);
   ("notcontains", B_notcontains); ("anyof", B_anyof); ("allof", B_allof);
   ("containsCore", B_containsCore)].

Definition and (a b : value) : value := if truthy a then b else a.

Definition or (a b : value) : value := if truthy a then a else b.

Definition plus (a b : value) : value := JS.add a b.

Definition minus (a b : value) : value := JS.sub a b.

Definition mul (a b : value) : value := JS.mul a b.

Definition div (a b : value) : value :=
  if negb (truthy b) then VNull else JS.div a b.

(** [binaryFunctions.mod] ([mod] is a reserved word of the notations). *)
Definition mod_ (a b : value) : value :=
  if negb (truthy b) then VNull else JS.rem a b.

Definition greater (left right : value) : bool :=
  if isNullish left || isNullish right then false
  else isTrue (lessThan right left).

Definition less (left right : value) : bool :=
  if isNullish left || isNullish right then false
  else isTrue (lessThan left right).

Definition greaterorequal (left right : value) : bool :=
  if isNullish left || isNullish right then false
  else isFalse (lessThan left right).

Definition lessorequal (left right : value) : bool :=
  if isNullish left || isNullish right then false
  else isFalse (lessThan right left).

(** [v.length]: defined on strings and arrays, [undefined] elsewhere. *)
Definition lengthOf (v : value) : option nat :=
  match v with
  | VStr s => Some (String.length s)
  | VArr l => Some (List.length l)
  | _ => None
  end.

(** [!v.length]. *)
Definition noLength (v : value) : bool :=
  match lengthOf v with
  | Some (S _) => false
  | _ => true
  end.

(** The inner loop of [containsCore]: the first index [i] at which
    [left[i]] equals [right], or [left.length]. *)
Fixpoint firstEqual (left : list value) (right : value) (i : nat) : nat :=
  match left with
  | x :: rest => if isTwoValueEquals x right then i
                 else firstEqual rest right (S i)
  | [] => i
  end.

(** The outer loop of [containsCore], over [rightArray]. *)
Fixpoint containsLoop (left rightArray : list value) (isContains : bool) : bool :=
  match rightArray with
  | r :: rest =>
      if Nat.eqb (firstEqual left r 0) (List.length left)
      then negb isContains
      else containsLoop left rest isContains
  | [] => isContains
  end.

Definition containsCore (left right : value) (isContains : bool) : bool :=
  if negb (truthy left) then false
  else
    let left := if noLength left then VStr (ToString left) else left in
    match left with
    | VStr l =>
        if negb (truthy right) then false
        else
          let found := indexOf l (ToString right) >? -1 in
          if isContains then found else negb found
    | VArr items =>
        let rightArray := match right with VArr rs => rs | _ => [right] end in
        containsLoop items rightArray isContains
    | _ => isContains
    end.

Definition contains (left right : value) : bool := containsCore left right true.

Definition notcontains (left right : value) : bool :=
  if negb (truthy left) && negb (isValueEmpty right) then true
  else containsCore left right false.

Definition anyof (left right : value) : bool :=
  if negb (truthy left) && isValueEmpty right then true
  else if negb (truthy left) || negb (isArray left) ||
          match lengthOf left with Some O => true | _ => false end
  then false
  else if isValueEmpty right then true
  else match right with
       | VArr rs => existsb (contains left) rs
       | _ => contains left right
       end.

Definition allof (left right : value) : bool :=
  if negb (truthy left) && negb (isValueEmpty right) then false
  else match right with
       | VArr rs => forallb (contains left) rs
       | _ => contains left right
       end.

(** ** Operands and their constructors *)

(** What [BinaryOperand.consumer] holds after construction. *)
Inductive binaryConsumer :=
| ArithmeticClosure (operatorName : string)
| TableEntry (key : binaryKey)
| PrototypeMember (name : string).

#[warnings="-register-all"]
Inductive Operand :=
| Const (value : JS.value)
| Variable_ (variableName : string)
| UnaryOperand (expression : Operand) (operatorName : string)
               (consumer : property unaryKey)
| BinaryOperand (operatorName : string) (left right : option Operand)
                (consumer : binaryConsumer)
| ArrayOperand (values : list Operand)
| FunctionOperand (origionalValue : string) (parameters : Operand).

(** [OperandMaker.throwInvalidOperatorError]. *)
Definition throwInvalidOperatorError {A : Type} (op : string) : completion A :=
  Throw ("Invalid operator: '" +:+ op +:+ "'").

(** [new BinaryOperand(operatorName, left, right, isArithmeticOp)]. *)
Definition newBinaryOperand (operatorName : string) (left right : option Operand)
    (isArithmeticOp : bool) : completion Operand :=
  let consumer :=
    if isArithmeticOp then Some (ArithmeticClosure operatorName)
    else match getProperty binaryFunctions operatorName with
         | Own key => Some (TableEntry key)
         | Inherited => Some (PrototypeMember operatorName)
         | Absent => None
         end in
  match consumer with
  | None => throwInvalidOperatorError operatorName
  | Some c => Return (BinaryOperand operatorName left right c)
  end.

(** [new UnaryOperand(expression, operatorName)]. *)
Definition newUnaryOperand (expression : Operand) (operatorName : string)
  : completion Operand :=
  match getProperty unaryFunctions operatorName with
  | Absent => throwInvalidOperatorError operatorName
  | consumer => Return (UnaryOperand expression operatorName consumer)
  end.

Section Evaluation.

(** [Math.pow] is implementation-approximated, so it stays a parameter.
    [foreignCall name args] stands for calling, as an operator, a table
    entry that is not one: [equal] and [notequal] (their third argument of
    [isTwoValueEquals] is not described by the spec), [arithmeticOp] and
    [containsCore] themselves, and the members of [Object.prototype].
    [hasValue] and [getValue] are those of the [ProcessValue] snapshot, and
    [FunctionFactory_run] is [FunctionFactory.Instance.run] with the
    snapshot's properties; neither file is among the sources. *)
Variable Math_pow : float -> float -> float.
Variable foreignCall : string -> list value -> value.
Variable hasValue : string -> bool.
Variable getValue : string -> value.
Variable FunctionFactory_run : string -> value -> value.

Definition power (a b : value) : value :=
  VNum (Math_pow (ToNumber a) (ToNumber b)).

(** [consumer.call(this, a, b)] for an own entry of [binaryFunctions]. *)
Definition callBinary (consumer : binaryKey) (a b : value) : value :=
  match consumer with
  | B_and => and a b
  | B_or => or a b
  | B_plus => plus a b
  | B_minus => minus a b
  | B_mul => mul a b
  | B_div => div a b
  | B_mod => mod_ a b
  | B_power => power a b
  | B_greater => VBool (greater a b)
  | B_less => VBool (less a b)
  | B_greaterorequal => VBool (greaterorequal a b)
  | B_lessorequal => VBool (lessorequal a b)
  | B_contains => VBool (contains a b)
  | B_notcontains => VBool (notcontains a b)
  | B_anyof => VBool (anyof a b)
  | B_allof => VBool (allof a b)
  | B_equal => foreignCall "equal" [a; b]
  | B_notequal => foreignCall "notequal" [a; b]
  | B_arithmeticOp => foreignCall "arithmeticOp" [a; b]
  | B_containsCore => foreignCall "containsCore" [a; b]
  end.

(** The closure returned by [binaryFunctions.arithmeticOp(operatorName)]. *)
Definition arithmeticOp (operatorName : string) (a b : value) : value :=
  let a := if isValueEmpty a then VNum PrimFloat.zero else a in
  let b := if isValueEmpty b then VNum PrimFloat.zero else b in
  match getProperty binaryFunctions operatorName with
  | Absent => VNull
  | Own consumer => callBinary consumer a b
  | Inherited => foreignCall operatorName [a; b]
  end.

(** [this.consumer.call(this, a, b)] in [BinaryOperand.evaluate]. *)
Definition callConsumer (consumer : binaryConsumer) (a b : value) : value :=
  match consumer with
  | ArithmeticClosure operatorName => arithmeticOp operatorName a b
  | TableEntry key => callBinary key a b
  | PrototypeMember name => foreignCall name [a; b]
  end.

(** [this.consumer.call(this, value)] in [UnaryOperand.evaluate]. *)
Definition callUnary (operatorName : string) (consumer : property unaryKey)
    (value : JS.value) : JS.value :=
  match consumer with
  | Own U_empty => VBool (empty value)
  | Own U_notempty => VBool (notempty value)
  | Own U_negate => VBool (negate value)
  | _ => foreignCall operatorName [value]
  end.

(** [evaluate(processValue)], over the five classes of operand. *)
Fixpoint evaluate (operand : Operand) : value :=
  match operand with
  | Const value => getCorrectValue value
  | Variable_ variableName =>
      let variableName := toLowerCase variableName in
      if hasValue variableName then getCorrectValue (getValue variableName)
      else VNull
  | UnaryOperand expression operatorName consumer =>
      callUnary operatorName consumer (evaluate expression)
  | BinaryOperand _ l r consumer =>
      let evaluateParam (x : option Operand) :=
        match x with
        | Some x => evaluate x
        | None => VNull
        end in
      callConsumer consumer (evaluateParam l) (evaluateParam r)
  | ArrayOperand values => VArr (map evaluate values)
  | FunctionOperand origionalValue parameters =>
      FunctionFactory_run origionalValue (evaluate parameters)
  end.

End Evaluation.

(** ** Vocabulary of the statements about this file *)

(** [c] occurs in [s]; [i] is the index of its first occurrence. *)
Definition occurs (c : ascii) (s : string) : Prop :=
  exists i, String.get i s = Some c.

Definition firstOccurrence (c : ascii) (s : string) (i : nat) : Prop :=
  String.get i s = Some c /\ forall j, (j < i)%nat -> String.get j s <> Some c.

(** The strings [isNumericValue] refuses before it parses them: those with a
    [-], [*], [^], [/] or [%] anywhere, or whose first [+] comes after the
    second character. *)
Definition looksArithmetic (s : string) : Prop :=
  occurs "-" s \/ (exists i, firstOccurrence "+" s i /\ (2 <= i)%nat) \/
  occurs "*" s \/ occurs "^" s \/ occurs "/" s \/ occurs "%" s.

(** The refusing condition in the words of the specification: an arithmetic
    glyph anywhere but at position 0. *)
Definition isGlyph (c : ascii) : bool :=
  existsb (Ascii.eqb c) ["-"; "+"; "*"; "^"; "/"; "%"]%char.

Definition glyphOutsideSign (s : string) : bool :=
  match s with
  | String _ rest => existsb isGlyph (list_ascii_of_string rest)
  | EmptyString => false
  end.

(** The number is [0], [-0] or [NaN]: the falsy numbers. *)
Definition isZeroOrNaN (n : float) : bool :=
  PrimFloat.eqb n PrimFloat.zero || PrimFloat.is_nan n.

(** The right operand of [anyof] and [allof] as a sequence: itself, or the
    singleton of it. *)
Definition elements (right : value) : list value :=
  match right with
  | VArr rs => rs
  | _ => [right]
  end.

(** An empty operand counts as the number 0. *)
Definition zeroIfEmpty (v : value) : value :=
  if isValueEmpty v then VNum PrimFloat.zero else v.

(** ** [setVariables] and [hasFunction] *)

(** [setVariables(variables)]: the array after the call; every class pushes
    onto the array it is handed, in the order the operands are visited. *)
Fixpoint setVariables (operand : Operand) (variables : list string) : list string :=
  match operand with
  | Const _ => variables
  | Variable_ variableName => (variables ++ [variableName])%list
  | UnaryOperand expression _ _ => setVariables expression variables
  | BinaryOperand _ l r _ =>
      let variables := match l with
                       | Some x => setVariables x variables
                       | None => variables
                       end in
      match r with
      | Some x => setVariables x variables
      | None => variables
      end
  | ArrayOperand values =>
      fold_left (fun variables el => setVariables el variables) values variables
  | FunctionOperand _ parameters => setVariables parameters variables
  end.

(** [hasFunction()]: [Const], [Variable] and [UnaryOperand] do not override
    the method of [Operand], which answers [false]. *)
Fixpoint hasFunction (operand : Operand) : bool :=
  match operand with
  | BinaryOperand _ l r _ =>
      (match l with Some x => hasFunction x | None => false end) ||
      (match r with Some x => hasFunction x | None => false end)
  | ArrayOperand values => existsb hasFunction values
  | FunctionOperand _ _ => true
  | Const _ | Variable_ _ | UnaryOperand _ _ _ => false
  end.

(** Induction over operands that reaches into both sides of a binary
    operand and into the elements of an array. *)
Fixpoint Operand_ind' (P : Operand -> Prop)
    (HC : forall v, P (Const v))
    (HV : forall n, P (Variable_ n))
    (HU : forall e n c, P e -> P (UnaryOperand e n c))
    (HB : forall n l r c,
        match l with Some x => P x | None => True end ->
        match r with Some x => P x | None => True end ->
        P (BinaryOperand n l r c))
    (HA : forall vs, Forall P vs -> P (ArrayOperand vs))
    (HF : forall f p, P p -> P (FunctionOperand f p))
    (operand : Operand) : P operand :=
  let rec := Operand_ind' P HC HV HU HB HA HF in
  match operand with
  | Const v => HC v
  | Variable_ n => HV n
  | UnaryOperand e n c => HU e n c (rec e)
  | BinaryOperand n l r c =>
      HB n l r c
         (match l return match l with Some x => P x | None => True end with
          | Some y => rec y
          | None => I
          end)
         (match r return match r with Some x => P x | None => True end with
          | Some y => rec y
          | None => I
          end)
  | ArrayOperand vs =>
      HA vs ((fix all (l : list Operand) : Forall P l :=
                match l with
                | [] => @List.Forall_nil _ P
                | x :: rest => @List.Forall_cons _ P x rest (rec x) (all rest)
                end) vs)
  | FunctionOperand f p => HF f p (rec p)
  end.

(** ** OperandMaker: printing a value as an operand *)

Module OperandMaker.

(** [OperandMaker.isNumeric]. *)
Definition isNumeric (value : string) : bool :=
  if truthy (VStr value) &&
     ((indexOf value "-" >? -1) ||
      (indexOf value "+" >? 1) ||
      (indexOf value "*" >? -1) ||
      (indexOf value "^" >? -1) ||
      (indexOf value "/" >? -1) ||
      (indexOf value "%" >? -1))
  then false
  else
    let val := Number (VStr value) in
    if isNaN val then false else isFinite val.

(** [OperandMaker.isBooleanValue]. *)
Definition isBooleanValue (value : string) : bool :=
  truthy (VStr value) &&
  (String.eqb (toLowerCase value) "true" || String.eqb (toLowerCase value) "false").

(** [OperandMaker.toOperandString]. *)
Definition toOperandString (value : string) : string :=
  if truthy (VStr value) && (negb (isNumeric value) && negb (isBooleanValue value))
  then "'" +:+ value +:+ "'"
  else value.

End OperandMaker.

(** ** More vocabulary *)

(** No [UnaryOperand] occurs in the operand. *)
Fixpoint unaryFree (operand : Operand) : bool :=
  match operand with
  | Const _ | Variable_ _ => true
  | UnaryOperand _ _ _ => false
  | BinaryOperand _ l r _ =>
      (match l with Some x => unaryFree x | None => true end) &&
      (match r with Some x => unaryFree x | None => true end)
  | ArrayOperand values => forallb unaryFree values
  | FunctionOperand _ parameters => unaryFree parameters
  end.

(** Two snapshots agree on the variable [name], which operands look up in
    lower case: both lack it, or both hold the same value for it. *)
Definition sameVariable (hasValue1 : string -> bool) (getValue1 : string -> value)
    (hasValue2 : string -> bool) (getValue2 : string -> value) (name : string) : Prop :=
  hasValue1 (toLowerCase name) = hasValue2 (toLowerCase name) /\
  (hasValue1 (toLowerCase name) = true ->
   getValue1 (toLowerCase name) = getValue2 (toLowerCase name)).

(** A non-empty array: the left operands that [containsCore] searches
    element by element. *)
Definition isSequence (v : value) : bool :=
  match v with
  | VArr (_ :: _) => true
  | _ => false
  end.

End Expressions.

(* ===================================================================== *)
(** * validator.ts *)
(* ===================================================================== *)

Module Validator.
Import JS Helpers.

(** [SurveyError]; the validators of this file build [CustomError]s, which
    carry their text. *)
Inductive SurveyError :=
| CustomError (text : string).

(** [class ValidatorResult]: [error] is [null] when the value passed. *)
Record ValidatorResult := {
  result_value : value;
  result_error : option SurveyError
}.

Section Pipeline.

(** The snapshot of all answers and the ambient properties handed to a
    whole-dataset validator; the runner only passes them on. *)
Variables Values Properties : Type.

(** [class SurveyValidator], by its overridable members; a call returns a
    result or [null], unless the validator raises. *)
Record SurveyValidator := {
  isValidateAllValues : bool;
  validate : value -> string -> completion (option ValidatorResult);
  validateAllValues :
    value -> Values -> Properties -> string -> completion (option ValidatorResult)
}.

(** [interface IValidatorOwner]. *)
Record IValidatorOwner := {
  validators : list SurveyValidator;
  validatedValue : value;
  getValidatorTitle : string;
  getDataFilteredValues : Values;
  getDataFilteredProperties : Properties
}.

(** Which method of which validator (by position) [run] called. *)
Inductive validatorCall :=
| Called_validate (index : nat)
| Called_validateAllValues (index : nat).

(** The body of the loop of [ValidatorRunner.run] for [owner.validators[i]];
    [run] has no handler, so what a validator raises goes through. *)
Definition runStep (owner : IValidatorOwner) (i : nat) (validator : SurveyValidator)
    (res : list SurveyError) (log : list validatorCall)
  : completion (list SurveyError * list validatorCall) :=
  let (outcome, call) :=
    if negb (isValidateAllValues validator) then
      (validate validator (validatedValue owner) (getValidatorTitle owner),
       Called_validate i)
    else
      (validateAllValues validator (validatedValue owner)
         (getDataFilteredValues owner) (getDataFilteredProperties owner)
         (getValidatorTitle owner),
       Called_validateAllValues i) in
  match outcome with
  | Throw message => Throw message
  | Return validatorResult =>
      Return (match validatorResult with
              | Some {| result_error := Some error |} =>
                  ((res ++ [error])%list, (log ++ [call])%list)
              | _ => (res, (log ++ [call])%list)
              end)
  end.

Fixpoint runLoop (owner : IValidatorOwner) (rest : list SurveyValidator) (i : nat)
    (res : list SurveyError) (log : list validatorCall)
  : completion (list SurveyError * list validatorCall) :=
  match rest with
  | validator :: rest' =>
      match runStep owner i validator res log with
      | Throw message => Throw message
      | Return (res', log') => runLoop owner rest' (S i) res' log'
      end
  | [] => Return (res, log)
  end.

(** [ValidatorRunner.run], with the calls it made. *)
Definition runTraced (owner : IValidatorOwner)
  : completion (list SurveyError * list validatorCall) :=
  runLoop owner (validators owner) 0 [] [].

(** [ValidatorRunner.run]. *)
Definition run (owner : IValidatorOwner) : completion (list SurveyError) :=
  match runTraced owner with
  | Return (res, _) => Return res
  | Throw message => Throw message
  end.

(** ** Vocabulary of the statements about [run] *)

(** The call [run] makes to one validator, by its shape. *)
Definition invoke (owner : IValidatorOwner) (v : SurveyValidator)
  : completion (option ValidatorResult) :=
  if negb (isValidateAllValues v)
  then validate v (validatedValue owner) (getValidatorTitle owner)
  else validateAllValues v (validatedValue owner) (getDataFilteredValues owner)
         (getDataFilteredProperties owner) (getValidatorTitle owner).

Definition errorOf (r : option ValidatorResult) : list SurveyError :=
  match r with
  | Some {| result_error := Some e |} => [e]
  | _ => []
  end.

(** The calls [run] is expected to make, numbering the validators from [i]. *)
Fixpoint callsFrom (i : nat) (vs : list SurveyValidator) : list validatorCall :=
  match vs with
  | v :: rest =>
      (if isValidateAllValues v then Called_validateAllValues i else Called_validate i)
      :: callsFrom (S i) rest
  | [] => []
  end.

End Pipeline.

Arguments isValidateAllValues {Values Properties} _.
Arguments validate {Values Properties} _ _ _.
Arguments validateAllValues {Values Properties} _ _ _ _ _.
Arguments validators {Values Properties} _.
Arguments validatedValue {Values Properties} _.
Arguments getValidatorTitle {Values Properties} _.
Arguments getDataFilteredValues {Values Properties} _.
Arguments getDataFilteredProperties {Values Properties} _.
Arguments runStep {Values Properties} owner i validator res log.
Arguments runLoop {Values Properties} owner rest i res log.
Arguments run {Values Properties} owner.
Arguments runTraced {Values Properties} owner.
Arguments invoke {Values Properties} owner v.
Arguments callsFrom {Values Properties} i vs.

Section Regex.

(** [new RegExp(pattern)]: a [SyntaxError] for a malformed pattern, else an
    object whose [test] is a predicate on strings (no flags are passed, so
    [test] keeps no state between calls). *)
Variable RegExp : string -> completion (string -> bool).

(** [class RegexValidator]: [text] is inherited from [SurveyValidator]. *)
Record RegexValidator := {
  text : string;
  regex : option string
}.

(** [SurveyValidator.getErrorText]; [RegexValidator] keeps the base
    [getDefaultErrorText], which returns the empty string. *)
Definition getErrorText (v : RegexValidator) (name : string) : string :=
  if truthy (VStr (text v)) then text v else "".

(** [SurveyValidator.createCustomError]. *)
Definition createCustomError (v : RegexValidator) (name : string) : SurveyError :=
  CustomError (getErrorText v name).

(** [RegexValidator.hasError]. *)
Definition hasError (v : RegexValidator) (re : string -> bool) (value : JS.value)
    (name : string) : option ValidatorResult :=
  if re (ToString value) then None
  else Some {| result_value := value; result_error := Some (createCustomError v name) |}.

(** The [for] loop of [RegexValidator.validate] over the elements. *)
Fixpoint firstElementError (v : RegexValidator) (re : string -> bool)
    (items : list value) (name : string) : option ValidatorResult :=
  match items with
  | x :: rest =>
      match hasError v re x name with
      | Some res => Some res
      | None => firstElementError v re rest name
      end
  | [] => None
  end.

(** [RegexValidator.validate]. *)
Definition regexValidate (v : RegexValidator) (value : JS.value) (name : string)
  : completion (option ValidatorResult) :=
  let pattern := match regex v with Some p => p | None => "" end in
  if negb (truthy (VStr pattern)) || isValueEmpty value then Return None
  else
    match RegExp pattern with
    | Throw msg => Throw msg
    | Return re =>
        match (match value with
               | VArr items => firstElementError v re items name
               | _ => None
               end) with
        | Some res => Return (Some res)
        | None => Return (hasError v re value name)
        end
    end.

End Regex.

(** ** Sample validators *)

(** A compiler of patterns whose every pattern accepts the one string
    ["a"], as [/^a$/] does. *)
Definition onlyA (pattern : string) : completion (string -> bool) :=
  Return (String.eqb "a").

(** A single-value validator that rejects every value with [msg]. *)
Definition failing (msg : string) : SurveyValidator unit unit :=
  {| isValidateAllValues := false;
     validate := fun value _ =>
       Return (Some {| result_value := value;
                       result_error := Some (CustomError msg) |});
     validateAllValues := fun _ _ _ _ => Return None |}.

Definition twoFailures : IValidatorOwner unit unit :=
  {| validators := [failing "first"; failing "second"];
     validatedValue := VStr "x"; getValidatorTitle := "q";
     getDataFilteredValues := tt; getDataFilteredProperties := tt |}.

(** ** class NumericValidator *)

Module Numeric.

(** What a numeric validator reports: [RequreNumericError], or the
    [CustomError] of [createCustomError]. *)
Inductive NumericError :=
| RequreNumericError
| Custom (error : SurveyError).

(** The [ValidatorResult] of a numeric validator. *)
Record NumericResult := {
  numeric_value : value;
  numeric_error : option NumericError
}.

(** [class NumericValidator]: [text] is inherited; a bound is a number or
    [null]. *)
Record NumericValidator := {
  text : string;
  minValue : option float;
  maxValue : option float
}.

Section Localized.

(** [surveyLocalization.getString(key)], and the [format] method that the
    library gives to strings; [src/surveyStrings.ts] is not among the
    sources. *)
Variable getString : string -> string.
Variable format : string -> list value -> string.

(** [NumericValidator.getDefaultErrorText]. *)
Definition getDefaultErrorText (v : NumericValidator) (name : string) : string :=
  let vName := if truthy (VStr name) then name else getString "value" in
  match minValue v, maxValue v with
  | Some lo, Some hi =>
      format (getString "numericMinMax") [VStr vName; VNum lo; VNum hi]
  | Some lo, None => format (getString "numericMin") [VStr vName; VNum lo]
  | None, Some hi => format (getString "numericMax") [VStr vName; VNum hi]
  | None, None => format (getString "numericMax") [VStr vName; VNull]
  end.

(** [SurveyValidator.getErrorText]. *)
Definition getErrorText (v : NumericValidator) (name : string) : string :=
  if truthy (VStr (text v)) then text v else getDefaultErrorText v name.

(** [SurveyValidator.createCustomError]. *)
Definition createCustomError (v : NumericValidator) (name : string) : SurveyError :=
  CustomError (getErrorText v name).

(** [NumericValidator.isNumber]: [parseFloat] reads its argument as a
    string, the global [isFinite] as a number. *)
Definition isNumber (value : JS.value) : bool :=
  negb (isNaN (parseFloat (ToString value))) && isFinite (ToNumber value).

(** [NumericValidator.validate]; [None] is [null]. *)
Definition validate (v : NumericValidator) (value : JS.value) (name : string)
  : option NumericResult :=
  if isValueEmpty value then None
  else if negb (isNumber value)
  then Some {| numeric_value := VNull; numeric_error := Some RequreNumericError |}
  else
    let result := parseFloat (ToString value) in
    if match minValue v with
       | Some lo => PrimFloat.ltb result lo
       | None => false
       end
    then Some {| numeric_value := VNum result;
                 numeric_error := Some (Custom (createCustomError v name)) |}
    else if match maxValue v with
            | Some hi => PrimFloat.ltb hi result
            | None => false
            end
    then Some {| numeric_value := VNum result;
                 numeric_error := Some (Custom (createCustomError v name)) |}
    else match value with
         | VNum _ => None
         | _ => Some {| numeric_value := VNum result; numeric_error := None |}
         end.

End Localized.

(** The number [x] is within the bounds the validator has. *)
Definition inRange (v : NumericValidator) (x : float) : Prop :=
  (forall lo, minValue v = Some lo -> PrimFloat.ltb x lo = false) /\
  (forall hi, maxValue v = Some hi -> PrimFloat.ltb hi x = false).

End Numeric.

(** ** class TextValidator *)

Module Text.

(** [class TextValidator]: [text] is inherited. *)
Record TextValidator := {
  text : string;
  minLength : float;
  maxLength : float;
  allowDigits : bool
}.

(** The regular expression [/^[A-Za-z\s]*$/]: letters and white space
    only, from the first character to the last. *)
Definition isLetter (c : ascii) : bool :=
  let n := code c in
  ((65 <=? n) && (n <=? 90)) || ((97 <=? n) && (n <=? 122)).

Definition reg_test (s : string) : bool :=
  forallb (fun c => isLetter c || isWhiteSpace c) (list_ascii_of_string s).

(** A length as a number. *)
Definition numberOfNat (n : nat) : float :=
  PrimFloat.of_uint63 (Uint63.of_Z (Z.of_nat n)).

(** [value.length < bound] and [value.length > bound]; a value without a
    [length] has [undefined] there, and both comparisons are false. *)
Definition lengthBelow (value : JS.value) (bound : float) : bool :=
  match Expressions.lengthOf value with
  | Some n => PrimFloat.ltb (numberOfNat n) bound
  | None => false
  end.

Definition lengthAbove (value : JS.value) (bound : float) : bool :=
  match Expressions.lengthOf value with
  | Some n => PrimFloat.ltb bound (numberOfNat n)
  | None => false
  end.

Section Localized.

Variable getString : string -> string.
Variable format : string -> list value -> string.

(** [TextValidator.getDefaultErrorText]. *)
Definition getDefaultErrorText (v : TextValidator) (name : string) : string :=
  if PrimFloat.ltb 0 (minLength v) && PrimFloat.ltb 0 (maxLength v)
  then format (getString "textMinMaxLength") [VNum (minLength v); VNum (maxLength v)]
  else if PrimFloat.ltb 0 (minLength v)
  then format (getString "textMinLength") [VNum (minLength v)]
  else format (getString "textMaxLength") [VNum (maxLength v)].

(** [SurveyValidator.getErrorText]. *)
Definition getErrorText (v : TextValidator) (name : string) : string :=
  if truthy (VStr (text v)) then text v else getDefaultErrorText v name.

(** [SurveyValidator.createCustomError]. *)
Definition createCustomError (v : TextValidator) (name : string) : SurveyError :=
  CustomError (getErrorText v name).

(** [TextValidator.validate]; [None] is [null]. *)
Definition validate (v : TextValidator) (value : JS.value) (name : string)
  : option ValidatorResult :=
  let failure := Some {| result_value := VNull;
                         result_error := Some (createCustomError v name) |} in
  if negb (match value with VStr EmptyString => true | _ => false end) &&
     isValueEmpty value
  then None
  else if negb (allowDigits v) && negb (reg_test (ToString value)) then failure
  else if PrimFloat.ltb 0 (minLength v) && lengthBelow value (minLength v) then failure
  else if PrimFloat.ltb 0 (maxLength v) && lengthAbove value (maxLength v) then failure
  else None.

End Localized.

End Text.

(** ** class AnswerCountValidator *)

Module AnswerCount.

(** [class AnswerCountValidator]: [text] is inherited; a bound is a number
    or [null]. *)
Record AnswerCountValidator := {
  text : string;
  minCount : option float;
  maxCount : option float
}.

(** [this.minCount && ...]: the bound is set, and is neither 0 nor [NaN]. *)
Definition isSet (bound : option float) : bool :=
  match bound with
  | Some b => truthy (VNum b)
  | None => false
  end.

Section Localized.

Variable getString : string -> string.
Variable format : string -> list value -> string.

(** [AnswerCountValidator.getDefaultErrorText] hands its argument back. *)
Definition getDefaultErrorText (v : AnswerCountValidator) (name : string) : string :=
  name.

(** [SurveyValidator.getErrorText]. *)
Definition getErrorText (v : AnswerCountValidator) (name : string) : string :=
  if truthy (VStr (text v)) then text v else getDefaultErrorText v name.

(** [SurveyValidator.createCustomError]. *)
Definition createCustomError (v : AnswerCountValidator) (name : string) : SurveyError :=
  CustomError (getErrorText v name).

(** [AnswerCountValidator.validate]; [None] is [null]. *)
Definition validate (v : AnswerCountValidator) (value : JS.value) (name : string)
  : option ValidatorResult :=
  match value with
  | VArr items =>
      let count := Text.numberOfNat (List.length items) in
      if isSet (minCount v) &&
         match minCount v with
         | Some lo => PrimFloat.ltb count lo
         | None => false
         end
      then Some {| result_value := VNull;
                   result_error :=
                     Some (createCustomError v
                             (format (getString "minSelectError")
                                     [match minCount v with
                                      | Some lo => VNum lo
                                      | None => VNull
                                      end])) |}
      else if isSet (maxCount v) &&
              match maxCount v with
              | Some hi => PrimFloat.ltb hi count
              | None => false
              end
      then Some {| result_value := VNull;
                   result_error :=
                     Some (createCustomError v
                             (format (getString "maxSelectError")
                                     [match maxCount v with
                                      | Some hi => VNum hi
                                      | None => VNull
                                      end])) |}
      else None
  | _ => None
  end.

End Localized.

End AnswerCount.

End Validator.

(* ===================================================================== *)
(** * survey.ts *)
(* ===================================================================== *)

Module Survey.
Import JS Helpers.

(** What [SurveyModel] reads of a question and of a page. *)
Record Question := {
  question_name : string;
  question_valueName : string;
  question_visible : bool
}.

Record PageModel := {
  page_isVisible : bool;
  page_questions : list Question
}.

Record SurveyTrigger := {
  trigger_id : nat;
  trigger_isOnNextPage : bool
}.

(** The calls [SurveyModel] makes to its collaborators (triggers, pages,
    questions, event handlers, the browser), and to those of its own methods
    that are not embedded here.  A page is named by its index in [pages]. *)
Inductive ExternalCall :=
| Trigger_checkExpression (trigger : SurveyTrigger) (key values : gmap string value)
| Page_runCondition (page : nat) (values : gmap string value)
| Page_onFirstRendering (page : nat)
| Page_updateCustomWidgets (page : nat)
| Page_setWasShown (page : nat) (val : bool)
| Question_addError (questionName text : string)
| OnCurrentPageChanged_fire (newCurrentPage oldCurrentPage : option nat)
| OnComplete_fire
| OnServerValidateQuestions_fire (data : gmap string value)
| LocStrsChanged
| StopTimer
| ClearUnusedValues
| SetCookie
| SendResult (isPartialCompleted : bool)
| UpdateQuestionValue (valueName : string) (newValue : value)
| NotifyQuestionOnValueChanged (valueName : string) (newValue : value)
| TryGoNextPageAutomatic (name : string).

(** The state of a [SurveyModel]; [calls] is the record of the external
    calls made so far, oldest first. *)
Record SurveyModel := {
  valuesHash : gmap string value;
  variablesHash : gmap string value;
  conditionVersion : float;
  isCompleted : bool;
  isValidatingOnServer : bool;
  isDesignMode : bool;
  isEndLoadingFromJson : option string;
  sendResultOnPageNext : bool;
  surveyPostId : string;
  pages : list PageModel;
  currentPageValue : option nat;
  triggers : list SurveyTrigger;
  calls : list ExternalCall
}.

Definition set_valuesHash (h : gmap string value) (s : SurveyModel) : SurveyModel :=
  {| valuesHash := h; variablesHash := variablesHash s;
     conditionVersion := conditionVersion s; isCompleted := isCompleted s;
     isValidatingOnServer := isValidatingOnServer s; isDesignMode := isDesignMode s;
     isEndLoadingFromJson := isEndLoadingFromJson s;
     sendResultOnPageNext := sendResultOnPageNext s; surveyPostId := surveyPostId s;
     pages := pages s; currentPageValue := currentPageValue s;
     triggers := triggers s; calls := calls s |}.

Definition set_conditionVersion (v : float) (s : SurveyModel) : SurveyModel :=
  {| valuesHash := valuesHash s; variablesHash := variablesHash s;
     conditionVersion := v; isCompleted := isCompleted s;
     isValidatingOnServer := isValidatingOnServer s; isDesignMode := isDesignMode s;
     isEndLoadingFromJson := isEndLoadingFromJson s;
     sendResultOnPageNext := sendResultOnPageNext s; surveyPostId := surveyPostId s;
     pages := pages s; currentPageValue := currentPageValue s;
     triggers := triggers s; calls := calls s |}.

Definition set_isCompleted (b : bool) (s : SurveyModel) : SurveyModel :=
  {| valuesHash := valuesHash s; variablesHash := variablesHash s;
     conditionVersion := conditionVersion s; isCompleted := b;
     isValidatingOnServer := isValidatingOnServer s; isDesignMode := isDesignMode s;
     isEndLoadingFromJson := isEndLoadingFromJson s;
     sendResultOnPageNext := sendResultOnPageNext s; surveyPostId := surveyPostId s;
     pages := pages s; currentPageValue := currentPageValue s;
     triggers := triggers s; calls := calls s |}.

Definition set_isValidatingOnServer (b : bool) (s : SurveyModel) : SurveyModel :=
  {| valuesHash := valuesHash s; variablesHash := variablesHash s;
     conditionVersion := conditionVersion s; isCompleted := isCompleted s;
     isValidatingOnServer := b; isDesignMode := isDesignMode s;
     isEndLoadingFromJson := isEndLoadingFromJson s;
     sendResultOnPageNext := sendResultOnPageNext s; surveyPostId := surveyPostId s;
     pages := pages s; currentPageValue := currentPageValue s;
     triggers := triggers s; calls := calls s |}.

Definition set_currentPageValue (p : option nat) (s : SurveyModel) : SurveyModel :=
  {| valuesHash := valuesHash s; variablesHash := variablesHash s;
     conditionVersion := conditionVersion s; isCompleted := isCompleted s;
     isValidatingOnServer := isValidatingOnServer s; isDesignMode := isDesignMode s;
     isEndLoadingFromJson := isEndLoadingFromJson s;
     sendResultOnPageNext := sendResultOnPageNext s; surveyPostId := surveyPostId s;
     pages := pages s; currentPageValue := p;
     triggers := triggers s; calls := calls s |}.

Definition set_calls (l : list ExternalCall) (s : SurveyModel) : SurveyModel :=
  {| valuesHash := valuesHash s; variablesHash := variablesHash s;
     conditionVersion := conditionVersion s; isCompleted := isCompleted s;
     isValidatingOnServer := isValidatingOnServer s; isDesignMode := isDesignMode s;
     isEndLoadingFromJson := isEndLoadingFromJson s;
     sendResultOnPageNext := sendResultOnPageNext s; surveyPostId := surveyPostId s;
     pages := pages s; currentPageValue := currentPageValue s;
     triggers := triggers s; calls := l |}.

(** The world around the survey.  Event handlers and collaborators may do
    anything to the survey, so each is a function on its state; the
    handlers of the events whose options the survey reads back return what
    they left in them. *)
Record Collaborators := {
  (** the handlers of [onValueChanging], in subscription order: from the
      value name, [options.value] and [options.oldValue] to the
      [options.value] they leave *)
  onValueChanging : list (string -> value -> value -> SurveyModel -> value * SurveyModel);
  (** [onServerValidateQuestions.isEmpty] *)
  onServerValidateQuestions_isEmpty : bool;
  (** [onCurrentPageChanging.fire], returning [options.allowChanging] *)
  onCurrentPageChanging : option nat -> option nat -> SurveyModel -> bool * SurveyModel;
  (** [onCompleting.fire], returning [options.allowComplete] *)
  onCompleting : SurveyModel -> bool * SurveyModel;
  (** [hasCookie], which reads [document.cookie] *)
  hasCookie : SurveyModel -> bool;
  (** what an external call does to the survey *)
  effect : ExternalCall -> SurveyModel -> SurveyModel
}.

(** An external call is recorded, then takes effect. *)
Definition external (E : Collaborators) (c : ExternalCall) (s : SurveyModel)
  : SurveyModel :=
  effect E c (set_calls (calls s ++ [c])%list s).

(** ** The value store *)

Definition getDataValueCore (valuesHash : gmap string value) (key : string) : value :=
  match valuesHash !! key with
  | Some v => v
  | None => VUndefined
  end.

Definition setDataValueCore (key : string) (value : JS.value) (s : SurveyModel)
  : SurveyModel :=
  set_valuesHash (<[key := value]> (valuesHash s)) s.

Definition deleteDataValueCore (key : string) (s : SurveyModel) : SurveyModel :=
  set_valuesHash (delete key (valuesHash s)) s.

(** [getValue]. *)
Definition getValue (name : string) (s : SurveyModel) : value :=
  if negb (truthy (VStr name)) || (String.length name =? 0)%nat then VNull
  else getUnbindValue (getDataValueCore (valuesHash s) name).

(** [getFilteredValues]: variables, overridden by values, and the version
    counter, incremented by the call. *)
Definition getFilteredValues (s : SurveyModel) : gmap string value * SurveyModel :=
  let version := PrimFloat.add (conditionVersion s) PrimFloat.one in
  (<["conditionVersion" := VNum version]> (valuesHash s ∪ variablesHash s),
   set_conditionVersion version s).

(** The first lines of [isValueEqual]: [""] and [undefined] count as [null]. *)
Definition blankToNull (v : value) : value :=
  match v with
  | VStr EmptyString | VUndefined => VNull
  | _ => v
  end.

(** [isValueEqual]. *)
Definition isValueEqual (name : string) (newValue : value) (s : SurveyModel) : bool :=
  let newValue := blankToNull newValue in
  let oldValue := blankToNull (getValue name s) in
  match newValue, oldValue with
  | VNull, VNull => true
  | VNull, _ | _, VNull => false
  | _, _ => isTwoValueEquals newValue oldValue
  end.

(** [questionOnValueChanging]. *)
Definition questionOnValueChanging (E : Collaborators) (valueName : string)
    (newValue : value) (s : SurveyModel) : value * SurveyModel :=
  match onValueChanging E with
  | [] => (newValue, s)
  | handlers =>
      let oldValue := getValue valueName s in
      fold_left (fun (acc : value * SurveyModel) handler =>
                   handler valueName (fst acc) oldValue (snd acc))
                handlers (newValue, s)
  end.

(** ** Triggers and conditions *)

(** [checkTriggers]; the loop runs over the triggers the survey holds when
    it starts. *)
Definition checkTriggers (E : Collaborators) (key : gmap string value)
    (isOnNextPage : bool) (s : SurveyModel) : SurveyModel :=
  if isCompleted s || (List.length (triggers s) =? 0)%nat then s
  else
    let (values, s) := getFilteredValues s in
    fold_left (fun (st : SurveyModel) trigger =>
                 if Bool.eqb (trigger_isOnNextPage trigger) isOnNextPage
                 then external E (Trigger_checkExpression trigger key values) st
                 else st)
              (triggers s) s.

(** [runConditions]. *)
Definition runConditions (E : Collaborators) (s : SurveyModel) : SurveyModel :=
  if isCompleted s ||
     match isEndLoadingFromJson s with
     | Some state => String.eqb state "processing"
     | None => false
     end
  then s
  else
    let (values, s) := getFilteredValues s in
    fold_left (fun (st : SurveyModel) i => external E (Page_runCondition i values) st)
              (seq 0 (List.length (pages s))) s.

(** [setValue].  [updateQuestionValue], [notifyQuestionOnValueChanged] and
    [tryGoNextPageAutomatic] are methods of [SurveyModel] that are left as
    external calls. *)
Definition setValue (E : Collaborators) (name : string) (newQuestionValue : value)
    (locNotification : bool) (s : SurveyModel) : SurveyModel :=
  let (newValue, s) := questionOnValueChanging E name newQuestionValue s in
  if isValueEqual name newValue s && isTwoValueEquals newValue newQuestionValue
  then s
  else
    let (newValue, s) :=
      if isValueEmpty newValue then (newValue, deleteDataValueCore name s)
      else (getUnbindValue newValue,
            setDataValueCore name (getUnbindValue newValue) s) in
    let s := external E (UpdateQuestionValue name newValue) s in
    if locNotification then s
    else
      let triggerKeys : gmap string value := {[ name := newValue ]} in
      let s := checkTriggers E triggerKeys false s in
      let s := runConditions E s in
      let s := external E (NotifyQuestionOnValueChanged name newValue) s in
      external E (TryGoNextPageAutomatic name) s.

(** ** Pages *)

(** [visiblePages], as indices into [pages]. *)
Definition visiblePages (s : SurveyModel) : list nat :=
  if isDesignMode s then seq 0 (List.length (pages s))
  else List.filter (fun i => match nth_error (pages s) i with
                        | Some page => page_isVisible page
                        | None => false
                        end)
              (seq 0 (List.length (pages s))).

Fixpoint indexOfFrom (l : list nat) (x : nat) (i : Z) : Z :=
  match l with
  | y :: rest => if Nat.eqb y x then i else indexOfFrom rest x (i + 1)
  | [] => -1
  end.

(** [vPages.indexOf(page)]; [null] is in no list of pages. *)
Definition indexOf (vPages : list nat) (page : option nat) : Z :=
  match page with
  | Some p => indexOfFrom vPages p 0
  | None => -1
  end.

(** [vPages[i]]; [None] stands for [undefined]. *)
Definition at_ (vPages : list nat) (i : Z) : option nat :=
  if i <? 0 then None else nth_error vPages (Z.to_nat i).

Definition samePage (a b : option nat) : bool :=
  match a, b with
  | Some x, Some y => Nat.eqb x y
  | None, None => true
  | _, _ => false
  end.

(** [set currentPage(value)], for [value] a page, [null] or [undefined]
    ([getPageByObject] returns such a [value] as it is, [null] for
    [undefined]). *)
Definition set_currentPage (E : Collaborators) (value : option nat) (s : SurveyModel)
  : SurveyModel :=
  let newPage := value in
  let vPages := visiblePages s in
  if match newPage with Some _ => indexOf vPages newPage <? 0 | None => false end
  then s
  else if samePage newPage (currentPageValue s) then s
  else
    let oldValue := currentPageValue s in
    let (allowChanging, s) := onCurrentPageChanging E newPage oldValue s in
    if negb allowChanging then s
    else
      let s := match newPage with
               | Some p => external E (Page_onFirstRendering p) s
               | None => s
               end in
      let s := set_currentPageValue newPage s in
      let s := match newPage with
               | Some p => external E (Page_setWasShown p true)
                             (external E (Page_updateCustomWidgets p) s)
               | None => s
               end in
      let s := external E LocStrsChanged s in
      external E (OnCurrentPageChanged_fire newPage oldValue) s.

(** [get currentPage]: the getter repairs [currentPageValue] first. *)
Definition get_currentPage (E : Collaborators) (s : SurveyModel)
  : option nat * SurveyModel :=
  let vPages := visiblePages s in
  let s := match currentPageValue s with
           | Some _ => if indexOf vPages (currentPageValue s) <? 0
                       then set_currentPage E None s else s
           | None => s
           end in
  let s := match currentPageValue s with
           | None => if (0 <? List.length vPages)%nat
                     then set_currentPage E (at_ vPages 0) s else s
           | Some _ => s
           end in
  (currentPageValue s, s).

(** [get isLastPage]. *)
Definition isLastPage (E : Collaborators) (s : SurveyModel) : bool * SurveyModel :=
  let (page, s) := get_currentPage E s in
  match page with
  | None => (true, s)
  | Some _ =>
      let vPages := visiblePages s in
      let (page, s) := get_currentPage E s in
      (indexOf vPages page =? Z.of_nat (List.length vPages) - 1, s)
  end.

Definition questionsOfPage (page : nat) (s : SurveyModel) : list Question :=
  match nth_error (pages s) page with
  | Some p => page_questions p
  | None => []
  end.

(** [getCurrentPageQuestions]. *)
Definition getCurrentPageQuestions (E : Collaborators) (s : SurveyModel)
  : list Question * SurveyModel :=
  let (page, s) := get_currentPage E s in
  match page with
  | None => ([], s)
  | Some p =>
      (List.filter (fun question => question_visible question
                               && truthy (VStr (question_name question)))
              (questionsOfPage p s), s)
  end.

(** [checkOnPageTriggers]. *)
Definition checkOnPageTriggers (E : Collaborators) (s : SurveyModel) : SurveyModel :=
  let (questions, s) := getCurrentPageQuestions E s in
  let values : gmap string value :=
    fold_left (fun (values : gmap string value) question =>
                 let name := question_valueName question in
                 <[name := getValue name s]> values)
              questions ∅ in
  checkTriggers E values true s.

(** [setCompleted]. *)
Definition setCompleted (s : SurveyModel) : SurveyModel := set_isCompleted true s.

(** [doComplete]; [stopTimer], [clearUnusedValues], [setCookie] and
    [sendResult] are left as external calls. *)
Definition doComplete (E : Collaborators) (s : SurveyModel) : SurveyModel :=
  let (allowComplete, s) := onCompleting E s in
  if negb allowComplete then s
  else
    let previousCookie := hasCookie E s in
    let s := external E StopTimer s in
    let s := setCompleted s in
    let s := external E ClearUnusedValues s in
    let s := external E SetCookie s in
    let s := external E OnComplete_fire s in
    if negb previousCookie && truthy (VStr (surveyPostId s))
    then external E (SendResult false) s
    else s.

(** [doNextPage]. *)
Definition doNextPage (E : Collaborators) (s : SurveyModel) : SurveyModel :=
  let s := checkOnPageTriggers E s in
  if negb (isCompleted s) then
    let s := if sendResultOnPageNext s then external E (SendResult true) s else s in
    let vPages := visiblePages s in
    let (page, s) := get_currentPage E s in
    let index := indexOf vPages page in
    set_currentPage E (at_ vPages (index + 1)) s
  else doComplete E s.

(** ** Validation on the server *)

(** [setIsValidatingOnServer]; [onIsValidatingOnServerChanged] is empty. *)
Definition setIsValidatingOnServer (val : bool) (s : SurveyModel) : SurveyModel :=
  if Bool.eqb val (isValidatingOnServer s) then s
  else set_isValidatingOnServer val s.

(** [getQuestionByName]: the first question registered under the name. *)
Definition getQuestionByName (name : string) (s : SurveyModel) : option Question :=
  List.find (fun question => String.eqb (question_name question) name)
       (concat (map page_questions (pages s))).

(** [completeServerValidation(options)]: [errors] is [options.errors], a
    text for each question name, in insertion order; [options.survey] is the
    survey itself, and a question always has its [errors] array. *)
Definition completeServerValidation (E : Collaborators)
    (errors : list (string * string)) (s : SurveyModel) : SurveyModel :=
  let s := setIsValidatingOnServer false s in
  let (hasErrors, s) :=
    fold_left (fun (acc : bool * SurveyModel) (entry : string * string) =>
                 match getQuestionByName (fst entry) (snd acc) with
                 | Some _ =>
                     (true, external E (Question_addError (fst entry) (snd entry))
                                       (snd acc))
                 | None => acc
                 end)
              errors (false, s) in
  if negb hasErrors then
    let (last, s) := isLastPage E s in
    if last then doComplete E s else doNextPage E s
  else s.

(** [options.complete], the callback [doServerValidation] hands to the
    handlers: it closes over the options object, whose [errors] the handler
    has filled by the time it calls back. *)
Definition complete (E : Collaborators) (errors : list (string * string))
  : SurveyModel -> SurveyModel :=
  completeServerValidation E errors.

(** [doServerValidation]: [true] when the handlers were called, with the
    data it collected for them; reading [questions] of a missing current
    page is a [TypeError].  The loop reads [this.currentPage] at every
    turn; nothing changes the survey in between, so it is read once here. *)
Definition doServerValidation (E : Collaborators) (s : SurveyModel)
  : completion (bool * SurveyModel) :=
  if onServerValidateQuestions_isEmpty E then Return (false, s)
  else
    let (page, s) := get_currentPage E s in
    match page with
    | None => Throw "TypeError: Cannot read property 'questions' of null"
    | Some p =>
        let data : gmap string value :=
          fold_left (fun (data : gmap string value) question =>
                       if negb (question_visible question) then data
                       else
                         let value := getValue (question_valueName question) s in
                         if negb (isValueEmpty value)
                         then <[question_valueName question := value]> data
                         else data)
                    (questionsOfPage p s) ∅ in
        let s := setIsValidatingOnServer true s in
        Return (true, external E (OnServerValidateQuestions_fire data) s)
    end.

(** Collaborators that leave the survey alone: no handler subscribed to
    [onValueChanging], page changes and completion allowed, no cookie, and
    external calls without effect on the survey. *)
Definition inert : Collaborators :=
  {| onValueChanging := [];
     onServerValidateQuestions_isEmpty := false;
     onCurrentPageChanging := fun _ _ s => (true, s);
     onCompleting := fun s => (true, s);
     hasCookie := fun _ => false;
     effect := fun _ s => s |}.

(** ** Vocabulary of the statements about this file *)

(** The survey as far as page navigation reads it. *)
Definition sameSurvey (s s' : SurveyModel) : Prop :=
  pages s' = pages s /\ isDesignMode s' = isDesignMode s /\
  triggers s' = triggers s /\ valuesHash s' = valuesHash s.

(** The [addError] calls one invocation of the completion callback makes:
    one for each entry of [options.errors] whose name is that of a question
    of the survey. *)
Definition attachedErrors (errors : list (string * string)) (s : SurveyModel)
  : list ExternalCall :=
  map (fun e => Question_addError (fst e) (snd e))
      (List.filter (fun e => match getQuestionByName (fst e) s with
                             | Some _ => true
                             | None => false
                             end) errors).

Definition keepsFlag (f : SurveyModel -> SurveyModel) : Prop :=
  forall s, isValidatingOnServer (f s) = isValidatingOnServer s.

(** The trigger evaluations on record. *)
Definition isTriggerCall (c : ExternalCall) : bool :=
  match c with
  | Trigger_checkExpression _ _ _ => true
  | _ => false
  end.

Definition triggerEvaluations (s : SurveyModel) : list ExternalCall :=
  List.filter isTriggerCall (calls s).

(** From [s] to [s'] no trigger was evaluated and completion did not change. *)
Definition noTriggerRun (s s' : SurveyModel) : Prop :=
  isCompleted s' = isCompleted s /\ triggerEvaluations s' = triggerEvaluations s.

(** ** Sample surveys *)

Definition question (name : string) : Question :=
  {| question_name := name; question_valueName := name; question_visible := true |}.

(** Three visible pages of one question each, the first one current, a
    server validation pending, one trigger declared, and [q1] answered. *)
Definition threePages : SurveyModel :=
  {| valuesHash := {[ "q1" := VStr "yes" ]};
     variablesHash := ∅;
     conditionVersion := PrimFloat.zero;
     isCompleted := false;
     isValidatingOnServer := true;
     isDesignMode := false;
     isEndLoadingFromJson := None;
     sendResultOnPageNext := false;
     surveyPostId := "";
     pages := [ {| page_isVisible := true; page_questions := [question "q1"] |};
                {| page_isVisible := true; page_questions := [question "q2"] |};
                {| page_isVisible := true; page_questions := [question "q3"] |} ];
     currentPageValue := Some 0%nat;
     triggers := [];
     calls := [] |}.

(** The same survey on its last page but one. *)
Definition onSecondPage : SurveyModel := set_currentPageValue (Some 1%nat) threePages.

(** A completed survey that still holds a trigger. *)
Definition completedSurvey : SurveyModel :=
  {| valuesHash := {[ "q1" := VStr "yes" ]};
     variablesHash := ∅;
     conditionVersion := PrimFloat.zero;
     isCompleted := true;
     isValidatingOnServer := false;
     isDesignMode := false;
     isEndLoadingFromJson := None;
     sendResultOnPageNext := false;
     surveyPostId := "";
     pages := [ {| page_isVisible := true; page_questions := [question "q1"] |} ];
     currentPageValue := Some 0%nat;
     triggers := [ {| trigger_id := 0; trigger_isOnNextPage := false |} ];
     calls := [] |}.

(** ** Variables *)

Definition set_variablesHash (h : gmap string value) (s : SurveyModel) : SurveyModel :=
  {| valuesHash := valuesHash s; variablesHash := h;
     conditionVersion := conditionVersion s; isCompleted := isCompleted s;
     isValidatingOnServer := isValidatingOnServer s; isDesignMode := isDesignMode s;
     isEndLoadingFromJson := isEndLoadingFromJson s;
     sendResultOnPageNext := sendResultOnPageNext s; surveyPostId := surveyPostId s;
     pages := pages s; currentPageValue := currentPageValue s;
     triggers := triggers s; calls := calls s |}.

(** [getVariable]. *)
Definition getVariable (name : string) (s : SurveyModel) : value :=
  if negb (truthy (VStr name)) then VNull
  else
    let name := toLowerCase name in
    match variablesHash s !! name with
    | Some v => v
    | None => VUndefined
    end.

Section Elements.

(** [PageModel.onAnyValueChanged(name)] of the page at an index:
    [src/page.ts] is not among the sources, and the page may do anything to
    the survey. *)
Variable Page_onAnyValueChanged : nat -> string -> SurveyModel -> SurveyModel.

(** [notifyElementsOnAnyValueOrVariableChanged]; the loop runs over the
    pages the survey holds when it starts. *)
Definition notifyElementsOnAnyValueOrVariableChanged (E : Collaborators)
    (name : string) (s : SurveyModel) : SurveyModel :=
  if match isEndLoadingFromJson s with
     | Some state => String.eqb state "processing"
     | None => false
     end
  then s
  else
    let s := fold_left (fun (st : SurveyModel) i => Page_onAnyValueChanged i name st)
                       (seq 0 (List.length (pages s))) s in
    if negb (match isEndLoadingFromJson s with
             | Some state => truthy (VStr state)
             | None => false
             end)
    then external E LocStrsChanged s
    else s.

(** [setVariable]. *)
Definition setVariable (E : Collaborators) (name : string) (newValue : value)
    (s : SurveyModel) : SurveyModel :=
  if negb (truthy (VStr name)) then s
  else
    let name := toLowerCase name in
    let s := set_variablesHash (<[name := newValue]> (variablesHash s)) s in
    let s := notifyElementsOnAnyValueOrVariableChanged E name s in
    runConditions E s.

End Elements.

(** ** Going back *)

(** [get currentPageNo]. *)
Definition get_currentPageNo (E : Collaborators) (s : SurveyModel) : Z * SurveyModel :=
  let vPages := visiblePages s in
  let (page, s) := get_currentPage E s in
  (indexOf vPages page, s).

(** [get isFirstPage]. *)
Definition isFirstPage (E : Collaborators) (s : SurveyModel) : bool * SurveyModel :=
  let (page, s) := get_currentPage E s in
  match page with
  | None => (true, s)
  | Some _ =>
      let vPages := visiblePages s in
      let (page, s) := get_currentPage E s in
      (indexOf vPages page =? 0, s)
  end.

(** [prevPage]: [false] on the first page; otherwise the method ends
    without a [return], and the caller gets [undefined]. *)
Definition prevPage (E : Collaborators) (s : SurveyModel) : value * SurveyModel :=
  let (first, s) := isFirstPage E s in
  if first then (VBool false, s)
  else
    let vPages := visiblePages s in
    let (page, s) := get_currentPage E s in
    let index := indexOf vPages page in
    (VUndefined, set_currentPage E (at_ vPages (index - 1)) s).

(** ** More vocabulary *)

(** The page held as current is one of the visible pages. *)
Definition currentIsVisible (s : SurveyModel) : bool :=
  match currentPageValue s with
  | Some p => existsb (Nat.eqb p) (visiblePages s)
  | None => false
  end.

(** The store is a plain object: a name is a key of its own when it is not
    a member of [Object.prototype]. *)
Definition ownKey (name : string) : Prop := ~ In name objectPrototypeMembers.

(** What [SurveyModel] holds besides the value store, the version counter
    and the record of calls is the same in [s] and [s']. *)
Definition sameRest (s s' : SurveyModel) : Prop :=
  variablesHash s' = variablesHash s /\
  isCompleted s' = isCompleted s /\
  isValidatingOnServer s' = isValidatingOnServer s /\
  isDesignMode s' = isDesignMode s /\
  isEndLoadingFromJson s' = isEndLoadingFromJson s /\
  sendResultOnPageNext s' = sendResultOnPageNext s /\
  surveyPostId s' = surveyPostId s /\
  pages s' = pages s /\
  currentPageValue s' = currentPageValue s /\
  triggers s' = triggers s.

(** The trigger evaluations [checkTriggers] asks for: one for each trigger
    of the phase, in the order of declaration, all with the same snapshot. *)
Definition triggerCalls (key values : gmap string value) (isOnNextPage : bool)
    (s : SurveyModel) : list ExternalCall :=
  map (fun trigger => Trigger_checkExpression trigger key values)
      (List.filter (fun trigger => Bool.eqb (trigger_isOnNextPage trigger) isOnNextPage)
                   (triggers s)).

(** The condition runs [runConditions] asks for: one for each page, in
    order, all with the same snapshot. *)
Definition conditionCalls (values : gmap string value) (s : SurveyModel)
  : list ExternalCall :=
  map (fun i => Page_runCondition i values) (seq 0 (List.length (pages s))).

(** Collaborators that never write the variables of the survey. *)
Definition keepVariables (E : Collaborators)
    (onAnyValueChanged : nat -> string -> SurveyModel -> SurveyModel) : Prop :=
  (forall c s, variablesHash (effect E c s) = variablesHash s) /\
  (forall i name s, variablesHash (onAnyValueChanged i name s) = variablesHash s).

(** The survey after [setValue] has written or deleted the value. *)
Definition written (name : string) (v : value) (s : SurveyModel) : SurveyModel :=
  if isValueEmpty v then deleteDataValueCore name s else setDataValueCore name v s.


(** A survey that is running and holds one trigger for value changes. *)
Definition runningSurvey : SurveyModel := set_isCompleted false completedSurvey.

End Survey.

(* ===================================================================== *)
(** * The built-ins on sample inputs *)
(* ===================================================================== *)

Module JSSpec.
Import JS.

Example StringToNumber_numbers :
  map StringToNumber
      ["-5"; " +5 "; "+1e+5"; ""; "  "; "0x1F"; "0X1f"; "0b11"; "0o17"; "5."; ".5";
       "5.e3"; "00012"; "123.456e2"; "0.1"] =
  [-5; 5; 100000; 0; 0; 31; 31; 3; 15; 5; 0.5; 5000; 12; PrimFloat.div 123456 10;
   PrimFloat.div 1 10]%float.
Proof. vm_compute. reflexivity. Qed.

Example StringToNumber_not_numbers :
  map (fun s => isNaN (StringToNumber s))
      ["."; "1e"; "3-5 years"; "12px"; "0x"; "-0x10"; "1 2"; "1_000"; "true"; "infinity"] =
  [true; true; true; true; true; true; true; true; true; true].
Proof. vm_compute. reflexivity. Qed.

Example StringToNumber_infinite :
  map (fun s => isFinite (StringToNumber s)) ["Infinity"; "-Infinity"; "1e400"; "1e308"] =
  [false; false; false; true].
Proof. vm_compute. reflexivity. Qed.

Example parseFloat_samples :
  map parseFloat ["12px"; " 3.5abc"; "5e"; ".5.5"; "-.5"; "0x1F"; "0b11"; "1e3x"] =
  [12; 3.5; 5; 0.5; -0.5; 0; 0; 1000]%float /\
  map (fun s => isNaN (parseFloat s)) ["  "; "abc"; ""] = [true; true; true].
Proof. split; vm_compute; reflexivity. Qed.

Example parseInt_samples :
  map parseInt ["0x1F"; "0X10"; "12.5"; " 42abc"; "-0x10"] = [31; 16; 12; 42; -16]%float /\
  map (fun s => isNaN (parseInt s)) ["0x"; "abc"; ""] = [true; true; true].
Proof. split; vm_compute; reflexivity. Qed.

Example NumberToString_samples :
  map NumberToString
      [1; 123456789; 100; -2.5; 0.5; 1e21; 1e20; 9007199254740992; PrimFloat.div 1 1000000;
       PrimFloat.div 1 10; PrimFloat.div 1 3; PrimFloat.div 1 10000000;
       PrimFloat.add (PrimFloat.div 1 10) (PrimFloat.div 2 10);
       -0; PrimFloat.nan; PrimFloat.neg_infinity]%float =
  ["1"; "123456789"; "100"; "-2.5"; "0.5"; "1e+21"; "100000000000000000000";
   "9007199254740992"; "0.000001"; "0.1"; "0.3333333333333333"; "1e-7";
   "0.30000000000000004"; "0"; "NaN"; "-Infinity"].
Proof. vm_compute. reflexivity. Qed.

Example ToString_array :
  ToString (VArr [VNum 1; VNull; VArr [VStr "x"; VNum 2]; VUndefined]) = "1,,x,2,".
Proof. vm_compute. reflexivity. Qed.

Example operators_samples :
  add (VArr [VNum 1; VNum 2]) (VNum 3) = VStr "1,23" /\
  add (VStr "a") (VNum 1.5) = VStr "a1.5" /\
  add VNull (VNum 3) = VNum 3 /\
  sub (VStr "5") (VNum 2) = VNum 3 /\
  div (VNum 10) (VNum 0) = VNum PrimFloat.infinity /\
  rem (VNum 7) (VNum 3) = VNum 1 /\
  rem (VNum (-7)) (VNum 3) = VNum (-1) /\
  rem (VNum 5.5) (VNum 2) = VNum 1.5.
Proof. repeat split; vm_compute; reflexivity. Qed.

End JSSpec.

(* ===================================================================== *)
(** * Properties of expressions.ts *)
(* ===================================================================== *)

Module ExpressionsSpec.
Import JS Helpers Expressions.

(** ** [indexOf] of a single character *)

Lemma prefix_char (c : ascii) (s : string) :
  String.prefix (String c EmptyString) s = true <-> String.get 0 s = Some c.
Proof.
  destruct s as [|a s]; cbn.
  - split; discriminate.
  - destruct (ascii_dec c a) as [->|Hne].
    + destruct s; split; reflexivity.
    + split; [discriminate|]. intros [= ->]. contradiction.
Qed.

Lemma indexOfFrom_char (c : ascii) (s : string) (k : Z) :
  (JS.indexOfFrom (String c EmptyString) s k = -1 /\ ~ occurs c s) \/
  (exists i, JS.indexOfFrom (String c EmptyString) s k = k + Z.of_nat i /\
             firstOccurrence c s i).
Proof.
  revert k. induction s as [|a s IH]; intros k.
  - left. split; [reflexivity|]. intros [i Hi]. destruct i; discriminate.
  - cbn [JS.indexOfFrom].
    destruct (String.prefix (String c EmptyString) (String a s)) eqn:Hp.
    + right. exists 0%nat. split; [lia|]. split.
      * now apply prefix_char.
      * intros j Hj. lia.
    + assert (Hac : String.get 0 (String a s) <> Some c).
      { intros H. apply prefix_char in H. congruence. }
      destruct (IH (k + 1)) as [[Hr Hno]|(i & Hr & Hget & Hmin)].
      * left. split; [exact Hr|]. intros [[|i] Hi]; [contradiction|].
        apply Hno. exists i. exact Hi.
      * right. exists (S i). split; [lia|]. split; [exact Hget|].
        intros [|j] Hj; [exact Hac|]. cbn. apply Hmin. lia.
Qed.

Lemma firstOccurrence_occurs c s i : firstOccurrence c s i -> occurs c s.
Proof. intros [H _]. now exists i. Qed.

Lemma firstOccurrence_unique c s i j :
  firstOccurrence c s i -> firstOccurrence c s j -> i = j.
Proof.
  intros [Hi Hmi] [Hj Hmj].
  destruct (Nat.lt_trichotomy i j) as [H|[H|H]]; [|exact H|].
  - exfalso. now apply (Hmj i).
  - exfalso. now apply (Hmi j).
Qed.

Lemma indexOf_char_found (c : ascii) (s : string) :
  (JS.indexOf s (String c EmptyString) >? -1) = true <-> occurs c s.
Proof.
  unfold JS.indexOf.
  destruct (indexOfFrom_char c s 0) as [[-> Hno]|(i & -> & Hf)].
  - split; [discriminate | contradiction].
  - split; intros _.
    + eapply firstOccurrence_occurs; eauto.
    + apply Z.gtb_lt. lia.
Qed.

Lemma indexOf_char_late (c : ascii) (s : string) :
  (JS.indexOf s (String c EmptyString) >? 1) = true <->
  exists i, firstOccurrence c s i /\ (2 <= i)%nat.
Proof.
  unfold JS.indexOf.
  destruct (indexOfFrom_char c s 0) as [[-> Hno]|(i & -> & Hf)].
  - split; [discriminate|]. intros (i & Hf & _). exfalso. apply Hno.
    eapply firstOccurrence_occurs; eauto.
  - split.
    + intros H. apply Z.gtb_lt in H. exists i. split; [exact Hf | lia].
    + intros (j & Hj & Hle). rewrite (firstOccurrence_unique _ _ _ _ Hf Hj).
      apply Z.gtb_lt. lia.
Qed.

Lemma guard_looksArithmetic (s : string) :
  ((JS.indexOf s "-" >? -1) || (JS.indexOf s "+" >? 1) || (JS.indexOf s "*" >? -1) ||
   (JS.indexOf s "^" >? -1) || (JS.indexOf s "/" >? -1) || (JS.indexOf s "%" >? -1)) = true
  <-> looksArithmetic s.
Proof.
  unfold looksArithmetic.
  rewrite !orb_true_iff, !indexOf_char_found, indexOf_char_late. tauto.
Qed.

Lemma indexOfFrom_range (pat s : string) (k : Z) :
  JS.indexOfFrom pat s k = -1 \/ k <= JS.indexOfFrom pat s k.
Proof.
  revert k. induction s as [|a s IH]; intros k; cbn [JS.indexOfFrom].
  - destruct (String.prefix pat EmptyString); [right; lia | now left].
  - destruct (String.prefix pat (String a s)); [right; lia|].
    destruct (IH (k + 1)); [now left | right; lia].
Qed.

Lemma indexOf_zero_prefix (s pat : string) :
  (JS.indexOf s pat =? 0) = String.prefix pat s.
Proof.
  unfold JS.indexOf. destruct s as [|a s]; cbn [JS.indexOfFrom].
  - destruct (String.prefix pat EmptyString); reflexivity.
  - destruct (String.prefix pat (String a s)); [reflexivity|].
    destruct (indexOfFrom_range pat s (0 + 1)) as [->|H]; [reflexivity|].
    apply Z.eqb_neq. lia.
Qed.

(** ** [true] and [false] in any case are not numbers *)

Lemma lowerChar_cases (c : ascii) :
  c = lowerChar c \/ c = charOfCode (code (lowerChar c) - 32).
Proof.
  destruct c as [[] [] [] [] [] [] [] []]; vm_compute; auto.
Qed.

Lemma lowerChar_eq (c x : ascii) :
  lowerChar c = x -> c = x \/ c = charOfCode (code x - 32).
Proof. intros <-. apply lowerChar_cases. Qed.

Ltac split_lower H :=
  apply lowerChar_eq in H; cbv in H; destruct H as [-> | ->].

Lemma boolean_not_finite (s : string) :
  isBooleanValue s = true -> isFinite (Number (VStr s)) = false.
Proof.
  unfold isBooleanValue. intros H.
  apply andb_true_iff in H as [_ H]. apply orb_true_iff in H.
  destruct H as [H|H]; apply String.eqb_eq in H.
  - destruct s as [|c1 [|c2 [|c3 [|c4 [|c5 s]]]]]; try discriminate H.
    cbn in H. injection H as H1 H2 H3 H4.
    split_lower H1; split_lower H2; split_lower H3; split_lower H4;
      vm_compute; reflexivity.
  - destruct s as [|c1 [|c2 [|c3 [|c4 [|c5 [|c6 s]]]]]]; try discriminate H.
    cbn in H. injection H as H1 H2 H3 H4 H5.
    split_lower H1; split_lower H2; split_lower H3; split_lower H4; split_lower H5;
      vm_compute; reflexivity.
Qed.

Lemma finite_not_nan (x : float) : isFinite x = true -> isNaN x = false.
Proof.
  unfold isFinite, isNaN. intros H. apply negb_true_iff, orb_false_iff in H. tauto.
Qed.

Lemma isNumericValue_spec (s : string) :
  s <> EmptyString ->
  isNumericValue s = true <->
  (~ looksArithmetic s /\ isFinite (Number (VStr s)) = true).
Proof.
  intros Hne. unfold isNumericValue.
  assert (Ht : truthy (VStr s) = true) by (destruct s; [contradiction | reflexivity]).
  rewrite Ht. cbn [andb].
  destruct ((JS.indexOf s "-" >? -1) || (JS.indexOf s "+" >? 1) || (JS.indexOf s "*" >? -1) ||
            (JS.indexOf s "^" >? -1) || (JS.indexOf s "/" >? -1) || (JS.indexOf s "%" >? -1))
    eqn:Hg.
  - apply guard_looksArithmetic in Hg. split; [discriminate | tauto].
  - assert (Hn : ~ looksArithmetic s).
    { intros H. apply guard_looksArithmetic in H. congruence. }
    cbv zeta. destruct (isNaN (Number (VStr s))) eqn:Hnan.
    + split; [discriminate|]. intros [_ Hf]. apply finite_not_nan in Hf. congruence.
    + tauto.
Qed.

(** C1 (amended).  A string is promoted to a number exactly when it is not
    empty, has no [-], [*], [^], [/] or [%] at any position, has its first
    [+] (if any) at index 0 or 1, and [Number] reads it as a finite number;
    a promoted string that begins with [0x] is read by [parseInt], any other
    by [parseFloat].  A leading minus sign is refused: ["-5"] stays the
    string ["-5"], while ["5"] becomes the number 5. *)
Theorem getCorrectValue_promotes_to_number :
  (forall s : string,
     (exists n, getCorrectValue (VStr s) = VNum n) <->
     (s <> EmptyString /\ ~ looksArithmetic s /\ isFinite (Number (VStr s)) = true)) /\
  (forall (s : string) (n : float),
     getCorrectValue (VStr s) = VNum n ->
     n = if String.prefix "0x" s then parseInt s else parseFloat s) /\
  getCorrectValue (VStr "-5") = VStr "-5" /\
  getCorrectValue (VStr "5") = VNum 5.
Proof.
  split; [|split; [|split; reflexivity]].
  - intros s. destruct s as [|a s].
    { split; [intros [n H]; discriminate | intros [H _]; contradiction]. }
    set (t := String a s). assert (Hne : t <> EmptyString) by discriminate.
    unfold getCorrectValue. fold t.
    change (truthy (VStr t)) with true. cbn [negb].
    destruct (isBooleanValue t) eqn:Hb.
    { split; [intros [n H]; discriminate|].
      intros (_ & _ & Hf). rewrite (boolean_not_finite _ Hb) in Hf. discriminate. }
    destruct (isNumericValue t) eqn:Hnum.
    + apply (isNumericValue_spec t Hne) in Hnum. split; [tauto|]. intros _.
      destruct (JS.indexOf t "0x" =? 0); eauto.
    + split; [intros [n H]; discriminate|].
      intros (_ & H1 & H2).
      assert (isNumericValue t = true) by (apply isNumericValue_spec; tauto).
      congruence.
  - intros s n. unfold getCorrectValue.
    destruct (negb (truthy (VStr s))); [discriminate|].
    destruct (isBooleanValue s); [discriminate|].
    destruct (isNumericValue s); [|discriminate].
    rewrite indexOf_zero_prefix.
    destruct (String.prefix "0x" s); intros [= <-]; reflexivity.
Qed.

(** The hexadecimal literal ["0x1F"] is promoted, and read by [parseInt]. *)
Lemma getCorrectValue_promotes_to_number_witness :
  JS.parseInt "0x1F" = if String.prefix "0x" "0x1F" then parseInt "0x1F" else parseFloat "0x1F".
Proof.
  apply (proj1 (proj2 getCorrectValue_promotes_to_number) "0x1F" (JS.parseInt "0x1F")).
  vm_compute. reflexivity.
Defined.

(** C1, the claim refuted.  ["-5"] has no glyph outside position 0 and
    [Number("-5")] is finite, yet it is not promoted; ["+1e+5"] has a [+]
    outside position 0, yet it is promoted. *)
Lemma leading_minus_not_promoted :
  glyphOutsideSign "-5" = false /\
  isFinite (Number (VStr "-5")) = true /\
  getCorrectValue (VStr "-5") = VStr "-5" /\
  glyphOutsideSign "+1e+5" = true /\
  getCorrectValue (VStr "+1e+5") = VNum 100000.
Proof. repeat split; vm_compute; reflexivity. Qed.

(** ** empty, notempty, negate *)

Lemma empty_is_falsy (v : value) : empty v = negb (truthy v).
Proof. destruct v; reflexivity. Qed.

(** C4 (amended).  [empty] is true exactly of the falsy values: [undefined],
    [null], [false], the empty string and the numbers [0], [-0] and [NaN];
    of an array, the empty one included, it is false.  [notempty] is its
    negation, and [negate] is logical NOT. *)
Theorem unary_empty_semantics :
  (forall v, empty v = true <->
     (v = VUndefined \/ v = VNull \/ v = VBool false \/ v = VStr "" \/
      exists n, v = VNum n /\ isZeroOrNaN n = true)) /\
  (forall items, empty (VArr items) = false) /\
  (forall v, notempty v = negb (empty v)) /\
  (forall v, negate v = negb (truthy v)).
Proof.
  repeat split.
  - destruct v as [| |b|n|s|l]; cbn; intros H.
    + auto.
    + auto.
    + destruct b; [discriminate|]. auto.
    + right; right; right; right. exists n. split; [reflexivity|].
      unfold isZeroOrNaN. now apply negb_true_iff, negb_false_iff in H.
    + destruct s; [auto | discriminate].
    + discriminate.
  - intros [->|[->|[->|[->|(n & -> & H)]]]]; try reflexivity.
    cbn. unfold isZeroOrNaN in H. now rewrite H.
Qed.

(** C4, the claim refuted: the empty array is not empty for [empty], and
    [false], which the claim does not list, is. *)
Lemma empty_array_is_not_empty :
  empty (VArr []) = false /\ notempty (VArr []) = true /\ empty (VBool false) = true.
Proof. repeat split; reflexivity. Qed.

(** ** anyof, allof *)

Lemma firstEqual_none (l : list value) (r : value) (i : nat) :
  Nat.eqb (firstEqual l r i) (i + List.length l) =
  negb (existsb (fun x => isTwoValueEquals x r) l).
Proof.
  revert i. induction l as [|x l IH]; intros i; cbn.
  - rewrite Nat.add_0_r. apply Nat.eqb_refl.
  - destruct (isTwoValueEquals x r); cbn.
    + apply Nat.eqb_neq. lia.
    + rewrite <- (IH (S i)). f_equal. lia.
Qed.

Lemma containsLoop_true (l rs : list value) :
  containsLoop l rs true =
  forallb (fun r => existsb (fun x => isTwoValueEquals x r) l) rs.
Proof.
  induction rs as [|r rs IH]; cbn; [reflexivity|].
  pose proof (firstEqual_none l r 0) as H. rewrite Nat.add_0_l in H. rewrite H.
  destruct (existsb (fun x => isTwoValueEquals x r) l); cbn; [exact IH | reflexivity].
Qed.

Lemma contains_in_array (x : value) (xs : list value) (r : value) :
  isArray r = false ->
  contains (VArr (x :: xs)) r = existsb (fun y => isTwoValueEquals y r) (x :: xs).
Proof.
  intros Hr. unfold contains, containsCore. cbn [truthy negb noLength lengthOf List.length].
  replace (match r with VArr rs => rs | _ => [r] end) with [r]
    by (destruct r; try reflexivity; discriminate).
  rewrite containsLoop_true. cbn [forallb]. apply andb_true_r.
Qed.

(** C3 (amended).  [anyof] is true when left is falsy and right is empty;
    it is false when left is falsy and right is not empty, and when left is
    truthy but not a non-empty array; for a non-empty array on the left it
    is true when right is empty and otherwise true iff left contains one
    element of right.  [allof] is false when left is falsy and right is not
    empty, and otherwise true iff left contains every element of right.  A
    right side that is not an array counts as the singleton of it, and a
    non-empty array contains a non-array value iff one of its elements
    equals it. *)
Theorem anyof_allof_truth_table :
  (forall l r, truthy l = false -> isValueEmpty r = true -> anyof l r = true) /\
  (forall l r, truthy l = false -> isValueEmpty r = false -> anyof l r = false) /\
  (forall l r, truthy l = true -> isArray l = false \/ l = VArr [] -> anyof l r = false) /\
  (forall x xs r, isValueEmpty r = true -> anyof (VArr (x :: xs)) r = true) /\
  (forall x xs r, isValueEmpty r = false ->
     anyof (VArr (x :: xs)) r = existsb (contains (VArr (x :: xs))) (elements r)) /\
  (forall l r, truthy l = false -> isValueEmpty r = false -> allof l r = false) /\
  (forall l r, truthy l = true \/ isValueEmpty r = true ->
     allof l r = forallb (contains l) (elements r)) /\
  (forall x xs r, isArray r = false ->
     contains (VArr (x :: xs)) r = existsb (fun y => isTwoValueEquals y r) (x :: xs)) /\
  anyof (VArr []) (VStr "x") = false /\
  anyof (VArr [VNum 1; VNum 2]) (VArr [VNum 2; VNum 3]) = true /\
  allof (VArr [VNum 1; VNum 2]) (VArr [VNum 1; VNum 2; VNum 3]) = false /\
  allof (VArr [VNum 1; VNum 2; VNum 3]) (VArr [VNum 1; VNum 2]) = true.
Proof.
  repeat match goal with |- _ /\ _ => split end;
    try (match goal with |- forall _, _ => fail 1 | _ => vm_compute; reflexivity end).
  - intros l r Hl Hr. unfold anyof. now rewrite Hl, Hr.
  - intros l r Hl Hr. unfold anyof. now rewrite Hl, Hr.
  - intros l r Hl [Ha| ->]; unfold anyof.
    + rewrite Hl, Ha. reflexivity.
    + reflexivity.
  - intros x xs r Hr. unfold anyof. cbn. now rewrite Hr.
  - intros x xs r Hr. unfold anyof.
    cbn [truthy negb andb orb isArray lengthOf List.length].
    rewrite Hr. destruct r; cbn [elements existsb]; try rewrite orb_false_r; reflexivity.
  - intros l r Hl Hr. unfold allof. now rewrite Hl, Hr.
  - intros l r H. unfold allof.
    replace (negb (truthy l) && negb (isValueEmpty r)) with false.
    + destruct r; cbn [elements forallb]; try rewrite andb_true_r; reflexivity.
    + destruct H as [-> | ->]; [reflexivity | apply eq_sym, andb_false_r].
  - apply contains_in_array.
Qed.

Lemma anyof_allof_truth_table_witness :
  anyof VNull (VArr []) = true /\
  anyof (VStr "") (VNum 1) = false /\
  anyof (VNum 5) (VNum 5) = false /\
  anyof (VArr [VNum 1]) VNull = true /\
  anyof (VArr [VNum 1]) (VNum 1) = existsb (contains (VArr [VNum 1])) [VNum 1] /\
  allof VNull (VNum 1) = false /\
  allof (VArr [VNum 1]) (VNum 1) = forallb (contains (VArr [VNum 1])) [VNum 1] /\
  contains (VArr [VNum 1]) (VNum 1) = existsb (fun y => isTwoValueEquals y (VNum 1)) [VNum 1].
Proof.
  destruct anyof_allof_truth_table
    as (H1 & H2 & H3 & H4 & H5 & H6 & H7 & H8 & _).
  split; [apply H1; reflexivity|].
  split; [apply H2; reflexivity|].
  split; [apply H3; [reflexivity | left; reflexivity]|].
  split; [apply H4; reflexivity|].
  split; [apply (H5 (VNum 1) [] (VNum 1)); reflexivity|].
  split; [apply H6; reflexivity|].
  split; [apply (H7 (VArr [VNum 1]) (VNum 1)); left; reflexivity|].
  apply (H8 (VNum 1) [] (VNum 1)); reflexivity.
Defined.

(** C3, the claim refuted: with an empty left side [anyof] is true, not
    false, when the right side is empty as well. *)
Lemma anyof_empty_left_true :
  anyof VNull VNull = true /\ anyof (VStr "") (VArr []) = true /\
  anyof (VNum 0) VUndefined = true.
Proof. repeat split; reflexivity. Qed.

(** ** The arithmetic operators and the constructors *)

Section Arithmetic.
Variable Math_pow : float -> float -> float.
Variable foreignCall : string -> list value -> value.
Variable hasValue : string -> bool.
Variable getValue : string -> value.
Variable FunctionFactory_run : string -> value -> value.

Local Abbreviation arithmeticOp := (arithmeticOp Math_pow foreignCall).
Local Abbreviation evaluate :=
  (evaluate Math_pow foreignCall hasValue getValue FunctionFactory_run).

(** C5.  Each arithmetic operator is applied to its operands with the empty
    ones replaced by 0; [div] and [mod] return [null] when the right operand
    is zero or empty (and when it is [NaN] or [false]), never a number. *)
Theorem arithmeticOp_empty_as_zero :
  (forall a b, arithmeticOp "plus" a b = JS.add (zeroIfEmpty a) (zeroIfEmpty b)) /\
  (forall a b, arithmeticOp "minus" a b = JS.sub (zeroIfEmpty a) (zeroIfEmpty b)) /\
  (forall a b, arithmeticOp "mul" a b = JS.mul (zeroIfEmpty a) (zeroIfEmpty b)) /\
  (forall a b, arithmeticOp "power" a b =
     VNum (Math_pow (ToNumber (zeroIfEmpty a)) (ToNumber (zeroIfEmpty b)))) /\
  (forall a b, arithmeticOp "div" a b =
     if truthy (zeroIfEmpty b) then JS.div (zeroIfEmpty a) (zeroIfEmpty b) else VNull) /\
  (forall a b, arithmeticOp "mod" a b =
     if truthy (zeroIfEmpty b) then JS.rem (zeroIfEmpty a) (zeroIfEmpty b) else VNull) /\
  (forall a b, isValueEmpty b = true \/ b = VNum 0 \/ b = VNum (-0) ->
     arithmeticOp "div" a b = VNull /\ arithmeticOp "mod" a b = VNull) /\
  arithmeticOp "div" (VNum 10) (VNum 0) = VNull /\
  arithmeticOp "mod" (VNum 7) (VNum 0) = VNull /\
  arithmeticOp "plus" VNull (VNum 3) = VNum 3.
Proof.
  assert (Hdiv : forall a b, arithmeticOp "div" a b =
     if truthy (zeroIfEmpty b) then JS.div (zeroIfEmpty a) (zeroIfEmpty b) else VNull).
  { intros a b. unfold Expressions.arithmeticOp. cbn. unfold div, zeroIfEmpty.
    destruct (truthy (if isValueEmpty b then VNum PrimFloat.zero else b)); reflexivity. }
  assert (Hmod : forall a b, arithmeticOp "mod" a b =
     if truthy (zeroIfEmpty b) then JS.rem (zeroIfEmpty a) (zeroIfEmpty b) else VNull).
  { intros a b. unfold Expressions.arithmeticOp. cbn. unfold mod_, zeroIfEmpty.
    destruct (truthy (if isValueEmpty b then VNum PrimFloat.zero else b)); reflexivity. }
  repeat match goal with |- _ /\ _ => split end;
    try exact Hdiv; try exact Hmod; try reflexivity.
  intros a b H. rewrite Hdiv, Hmod. unfold zeroIfEmpty.
  destruct H as [-> | [-> | ->]]; split; reflexivity.
Qed.

(** C2, at the failing input.  With the arithmetic flag set, construction
    succeeds for a name that is no entry of the table, where the same name
    without the flag (and as a unary operator) is refused with "Invalid
    operator"; the operand so built evaluates to [null]. *)
Theorem arithmetic_operand_defers_unknown_operator :
  let l := Some (Const (VNum 1)) in
  let r := Some (Const (VNum 2)) in
  getProperty binaryFunctions "foo" = Absent /\
  newBinaryOperand "foo" l r false = Throw "Invalid operator: 'foo'" /\
  newUnaryOperand (Const (VNum 1)) "foo" = Throw "Invalid operator: 'foo'" /\
  newBinaryOperand "foo" l r true =
    Return (BinaryOperand "foo" l r (ArithmeticClosure "foo")) /\
  evaluate (BinaryOperand "foo" l r (ArithmeticClosure "foo")) = VNull /\
  (forall name l r, exists operand, newBinaryOperand name l r true = Return operand) /\
  (forall name a b, getProperty binaryFunctions name = Absent ->
     arithmeticOp name a b = VNull).
Proof.
  cbv zeta. repeat match goal with |- _ /\ _ => split end; try reflexivity.
  - intros name l r. eexists. reflexivity.
  - intros name a b H. unfold Expressions.arithmeticOp. now rewrite H.
Qed.

End Arithmetic.

Lemma arithmeticOp_empty_as_zero_witness :
  Expressions.arithmeticOp (fun _ _ => PrimFloat.nan) (fun _ _ => VUndefined)
    "div" (VNum 10) (VStr "") = VNull /\
  Expressions.arithmeticOp (fun _ _ => PrimFloat.nan) (fun _ _ => VUndefined)
    "mod" (VNum 10) (VStr "") = VNull.
Proof.
  apply (arithmeticOp_empty_as_zero (fun _ _ => PrimFloat.nan) (fun _ _ => VUndefined)).
  left. reflexivity.
Defined.

Lemma arithmetic_operand_defers_unknown_operator_witness :
  Expressions.arithmeticOp (fun _ _ => PrimFloat.nan) (fun _ _ => VUndefined)
    "foo" VNull (VNum 3) = VNull.
Proof.
  apply (arithmetic_operand_defers_unknown_operator
           (fun _ _ => PrimFloat.nan) (fun _ _ => VUndefined)
           (fun _ => false) (fun _ => VUndefined) (fun _ _ => VUndefined)).
  reflexivity.
Defined.

End ExpressionsSpec.

(* ===================================================================== *)
(** * Properties of validator.ts *)
(* ===================================================================== *)

Module ValidatorSpec.
Import JS Helpers Validator.

Section Runner.
Variables Values Properties : Type.
Implicit Types (owner : IValidatorOwner Values Properties)
               (v : SurveyValidator Values Properties).

Lemma runLoop_spec owner vs results i res log :
  Forall2 (fun v r => invoke owner v = Return r) vs results ->
  runLoop owner vs i res log =
  Return ((res ++ flat_map errorOf results)%list, (log ++ callsFrom i vs)%list).
Proof.
  intros H. revert i res log.
  induction H as [|v r vs results Hv _ IH]; intros i res log; cbn [runLoop].
  - cbn. now rewrite !app_nil_r.
  - assert (Hstep : runStep owner i v res log =
                    Return ((res ++ errorOf r)%list,
                            (log ++ [if isValidateAllValues v
                                     then Called_validateAllValues i
                                     else Called_validate i])%list)).
    { unfold runStep. unfold invoke in Hv.
      destruct (isValidateAllValues v); cbn [negb] in Hv |- *; rewrite Hv;
        destruct r as [[val [e|]]|]; cbn [errorOf]; rewrite ?app_nil_r; reflexivity. }
    rewrite Hstep, IH. cbn [flat_map callsFrom]. now rewrite <- !app_assoc.
Qed.

Lemma callsFrom_length i (vs : list (SurveyValidator Values Properties)) :
  List.length (callsFrom i vs) = List.length vs.
Proof. revert i. induction vs; intros i; cbn; [reflexivity | now rewrite IHvs]. Qed.

(** C7.  When the validators return, each with a result or [null], [run]
    returns too: it has called every validator once, in registration order,
    each by the method its shape asks for, whatever the earlier ones
    reported, and its result is the list of the non-null errors of all of
    them, in that order.  A reported failure is an element of that list; it
    never makes [run] raise. *)
Theorem run_collects_every_error owner results :
  Forall2 (fun v r => invoke owner v = Return r) (validators owner) results ->
  run owner = Return (flat_map errorOf results) /\
  runTraced owner = Return (flat_map errorOf results, callsFrom 0 (validators owner)) /\
  List.length (callsFrom 0 (validators owner)) = List.length (validators owner) /\
  (forall val e, In (Some {| result_value := val; result_error := Some e |}) results ->
     In e (flat_map errorOf results)).
Proof.
  intros H. unfold run, runTraced. rewrite (runLoop_spec owner _ results 0 [] [] H).
  cbn [app]. repeat split.
  - apply callsFrom_length.
  - intros val e Hin. apply in_flat_map. eexists. split; [exact Hin|]. now left.
Qed.

End Runner.

(** Of two failing validators both are run and both errors are returned. *)
Lemma run_collects_every_error_witness :
  run twoFailures = Return [CustomError "first"; CustomError "second"].
Proof.
  apply (run_collects_every_error unit unit twoFailures
           [Some {| result_value := VStr "x"; result_error := Some (CustomError "first") |};
            Some {| result_value := VStr "x"; result_error := Some (CustomError "second") |}]).
  repeat constructor.
Defined.

Section RegexSpec.
Variable RegExp : string -> completion (string -> bool).

(** C6, as the code has it.  For a pattern that compiles and a non-empty
    array, the first element the pattern rejects is reported; when every
    element passes, the array itself, rendered as a string, is tested too,
    and reported when the pattern rejects that. *)
Theorem regexValidate_array (v : RegexValidator) (pattern : string)
    (re : string -> bool) (items : list value) (name : string) :
  regex v = Some pattern -> pattern <> EmptyString -> items <> [] ->
  RegExp pattern = Return re ->
  regexValidate RegExp v (VArr items) name =
  Return (match List.find (fun x => negb (re (ToString x))) items with
          | Some x => Some {| result_value := x;
                              result_error := Some (createCustomError v name) |}
          | None => hasError v re (VArr items) name
          end).
Proof.
  intros Hv Hp Hi Hre. unfold regexValidate. rewrite Hv.
  assert (Ht : truthy (VStr pattern) = true)
    by (destruct pattern; [contradiction|reflexivity]).
  assert (He : isValueEmpty (VArr items) = false)
    by (destruct items; [contradiction|reflexivity]).
  rewrite Ht, He, Hre. cbn [negb orb]. clear He Hi.
  assert (Hloop : firstElementError v re items name =
                  match List.find (fun x => negb (re (ToString x))) items with
                  | Some x => Some {| result_value := x;
                                      result_error := Some (createCustomError v name) |}
                  | None => None
                  end).
  { induction items as [|x items IH]; cbn; [reflexivity|].
    unfold hasError at 1. destruct (re (ToString x)); cbn; [exact IH | reflexivity]. }
  rewrite Hloop. destruct (List.find _ items); reflexivity.
Qed.

End RegexSpec.

(** The failing input of C6: every element of [["a", "a"]] matches [^a$],
    and the validator still reports an error, for the array ["a,a"]. *)
Lemma regexValidate_array_witness :
  regexValidate onlyA {| text := ""; regex := Some "^a$" |} (VArr [VStr "a"; VStr "a"]) "q" =
  Return (Some {| result_value := VArr [VStr "a"; VStr "a"];
                  result_error := Some (CustomError "") |}).
Proof.
  apply (regexValidate_array onlyA {| text := ""; regex := Some "^a$" |} "^a$"
           (String.eqb "a") [VStr "a"; VStr "a"] "q");
    [reflexivity | discriminate | discriminate | reflexivity].
Defined.

End ValidatorSpec.

(* ===================================================================== *)
(** * Properties of survey.ts *)
(* ===================================================================== *)

Module SurveySpec.
Import JS Helpers Survey.

(** ** A value equal to another equals itself *)

Lemma float_eqb_self (a b : float) :
  PrimFloat.eqb a b = true -> PrimFloat.eqb a a = true.
Proof.
  rewrite !FloatAxioms.eqb_spec. unfold SFeqb.
  destruct (Prim2SF a) as [s| s| |s m e]; cbn; try discriminate; intros _.
  - reflexivity.
  - destruct s; reflexivity.
  - destruct s; rewrite Z.compare_refl, Pos.compare_cont_refl; reflexivity.
Qed.

Lemma primitiveEquals_self (x y : value) :
  isArray x = false -> primitiveEquals x y = true -> primitiveEquals x x = true.
Proof.
  intros Hx. destruct x as [| |b|n|s|l]; try discriminate Hx; cbn.
  - reflexivity.
  - reflexivity.
  - intros _. destruct b; reflexivity.
  - destruct y; try discriminate; apply float_eqb_self.
  - intros _. apply String.eqb_refl.
Qed.

Lemma isTwoValueEquals_self (x y : value) :
  isTwoValueEquals x y = true -> isTwoValueEquals x x = true.
Proof.
  revert y.
  refine (value_rect'
            (fun x => forall y, isTwoValueEquals x y = true -> isTwoValueEquals x x = true)
            (fun l => forall l', isTwoValueEquals (VArr l) (VArr l') = true ->
                                 isTwoValueEquals (VArr l) (VArr l) = true)
            _ _ _ _ _ _ _ _ x).
  - intros y _. reflexivity.
  - intros y _. reflexivity.
  - intros b y _. destruct b; reflexivity.
  - intros n y H. destruct y; try discriminate H;
      apply (primitiveEquals_self (VNum n) _ eq_refl H).
  - intros s y _. cbn. apply String.eqb_refl.
  - intros l IH y H. destruct y as [| | | | |l']; try discriminate H. eauto.
  - intros l' _. reflexivity.
  - intros a l IHa IHl l' H. destruct l' as [|b l']; [discriminate H|].
    cbn in H |- *. apply andb_true_iff in H as [H1 H2].
    rewrite (IHa b H1). cbn. apply (IHl l'). exact H2.
Qed.

Lemma isValueEqual_self (name : string) (v : value) (s : SurveyModel) :
  isValueEqual name v s = true -> isTwoValueEquals v v = true.
Proof.
  unfold isValueEqual. generalize (blankToNull (getValue name s)). intros o H.
  destruct v as [| |b|n|[|c str]|l]; try reflexivity.
  - destruct b; reflexivity.
  - destruct o; try discriminate H; eapply isTwoValueEquals_self; exact H.
  - cbn. rewrite Ascii.eqb_refl. apply String.eqb_refl.
  - destruct o; try discriminate H; eapply isTwoValueEquals_self; exact H.
Qed.

(** C10.  When the value [setValue] is given equals the stored one, and the
    value-changing hook hands it back unchanged, [setValue] returns without
    touching the survey: the state is the one the hook left, which is the
    initial state when no handler is subscribed; the value store is not
    written and no external call (trigger, condition, notification) is
    made. *)
Theorem setValue_same_value_changes_nothing :
  (forall E name v locNotification s s',
     questionOnValueChanging E name v s = (v, s') ->
     isValueEqual name v s' = true ->
     setValue E name v locNotification s = s') /\
  (forall E name v locNotification s,
     onValueChanging E = [] ->
     isValueEqual name v s = true ->
     setValue E name v locNotification s = s /\
     valuesHash (setValue E name v locNotification s) = valuesHash s /\
     calls (setValue E name v locNotification s) = calls s).
Proof.
  assert (H1 : forall E name v locNotification s s',
     questionOnValueChanging E name v s = (v, s') ->
     isValueEqual name v s' = true ->
     setValue E name v locNotification s = s').
  { intros E name v loc s s' Hq Heq. unfold setValue. rewrite Hq, Heq.
    now rewrite (isValueEqual_self _ _ _ Heq). }
  split; [exact H1|].
  intros E name v loc s Hh Heq.
  assert (setValue E name v loc s = s) as ->.
  { apply H1; [|exact Heq]. unfold questionOnValueChanging. now rewrite Hh. }
  auto.
Qed.

(** Setting [q1] to the answer it has leaves [threePages] as it is. *)
Lemma setValue_same_value_changes_nothing_witness :
  setValue inert "q1" (VStr "yes") false threePages = threePages.
Proof.
  apply (proj1 setValue_same_value_changes_nothing inert "q1" (VStr "yes") false
           threePages threePages); reflexivity.
Defined.

(** ** No trigger runs in a completed survey *)

Lemma noTriggerRun_refl s : noTriggerRun s s.
Proof. split; reflexivity. Qed.

Lemma noTriggerRun_trans s1 s2 s3 :
  noTriggerRun s1 s2 -> noTriggerRun s2 s3 -> noTriggerRun s1 s3.
Proof. intros [H1 H2] [H3 H4]. split; congruence. Qed.

Lemma external_noTriggerRun (c : ExternalCall) (s : SurveyModel) :
  isTriggerCall c = false -> noTriggerRun s (external inert c s).
Proof.
  intros Hc. split; [reflexivity|].
  unfold triggerEvaluations. cbn. rewrite List.filter_app. cbn. rewrite Hc.
  apply app_nil_r.
Qed.

Lemma set_currentPage_noTriggerRun v s : noTriggerRun s (set_currentPage inert v s).
Proof.
  unfold set_currentPage.
  destruct (match v with Some _ => _ | None => _ end); [apply noTriggerRun_refl|].
  destruct (samePage v (currentPageValue s)); [apply noTriggerRun_refl|].
  cbn [inert onCurrentPageChanging negb].
  destruct v as [p|].
  - split; [reflexivity|]. unfold triggerEvaluations. cbn.
    rewrite <- !app_assoc, List.filter_app. cbn. apply app_nil_r.
  - split; [reflexivity|]. unfold triggerEvaluations. cbn.
    rewrite <- !app_assoc, List.filter_app. cbn. apply app_nil_r.
Qed.

Lemma get_currentPage_noTriggerRun s : noTriggerRun s (snd (get_currentPage inert s)).
Proof.
  unfold get_currentPage. cbn [snd].
  set (s1 := match currentPageValue s with
             | Some _ => if Survey.indexOf (visiblePages s) (currentPageValue s) <? 0
                         then set_currentPage inert None s else s
             | None => s
             end).
  assert (H1 : noTriggerRun s s1).
  { unfold s1. destruct (currentPageValue s); [|apply noTriggerRun_refl].
    destruct (_ <? 0); [apply set_currentPage_noTriggerRun | apply noTriggerRun_refl]. }
  destruct (currentPageValue s1); [exact H1|].
  destruct (0 <? _)%nat; [|exact H1].
  eapply noTriggerRun_trans; [exact H1 | apply set_currentPage_noTriggerRun].
Qed.

Lemma checkTriggers_completed E key b s :
  isCompleted s = true -> checkTriggers E key b s = s.
Proof. intros H. unfold checkTriggers. now rewrite H. Qed.

Lemma runConditions_completed E s : isCompleted s = true -> runConditions E s = s.
Proof. intros H. unfold runConditions. now rewrite H. Qed.

Lemma setValue_noTriggerRun name v loc s :
  isCompleted s = true -> noTriggerRun s (setValue inert name v loc s).
Proof.
  intros Hc. unfold setValue, questionOnValueChanging. cbn [inert onValueChanging].
  destruct (isValueEqual name v s && isTwoValueEquals v v); [apply noTriggerRun_refl|].
  set (w := if isValueEmpty v then _ else _).
  assert (Hw : noTriggerRun s (snd w) /\ isCompleted (snd w) = true).
  { unfold w. destruct (isValueEmpty v); cbn [snd]; (split; [split; reflexivity | exact Hc]). }
  destruct w as [newValue s1]. cbn [snd] in Hw. destruct Hw as [H1 Hc1].
  set (s2 := external inert (UpdateQuestionValue name newValue) s1).
  assert (H2 : noTriggerRun s s2)
    by (eapply noTriggerRun_trans; [exact H1 | now apply external_noTriggerRun]).
  destruct loc; [exact H2|].
  assert (Hc2 : isCompleted s2 = true) by exact Hc1.
  rewrite (checkTriggers_completed _ _ _ _ Hc2), (runConditions_completed _ _ Hc2).
  eapply noTriggerRun_trans; [exact H2|].
  eapply noTriggerRun_trans; now apply external_noTriggerRun.
Qed.

Lemma doComplete_noTriggerRun s :
  isCompleted s = true -> noTriggerRun s (doComplete inert s).
Proof.
  intros Hc. unfold doComplete. cbn [inert onCompleting hasCookie negb andb].
  split.
  - destruct (truthy _); cbn; now rewrite Hc.
  - unfold triggerEvaluations.
    destruct (truthy _); cbn; rewrite <- !app_assoc, List.filter_app; cbn;
      apply app_nil_r.
Qed.

Lemma doNextPage_noTriggerRun s :
  isCompleted s = true -> noTriggerRun s (doNextPage inert s).
Proof.
  intros Hc. unfold doNextPage, checkOnPageTriggers, getCurrentPageQuestions.
  pose proof (get_currentPage_noTriggerRun s) as H0.
  destruct (get_currentPage inert s) as [page s0]. cbn [snd] in H0.
  assert (Hc0 : isCompleted s0 = true) by (destruct H0; congruence).
  assert (Hs1 : forall values,
             (let (questions, s) :=
                match page with
                | Some p =>
                    (List.filter (fun question => question_visible question
                                    && truthy (VStr (question_name question)))
                       (questionsOfPage p s0), s0)
                | None => ([], s0)
                end in
              checkTriggers inert (values questions s) true s) = s0).
  { intros values. destruct page; now rewrite checkTriggers_completed. }
  rewrite (Hs1 (fun questions s =>
                  fold_left (fun (values : gmap string value) question =>
                               let name := question_valueName question in
                               <[name := getValue name s]> values) questions ∅)).
  rewrite Hc0. cbn [negb].
  eapply noTriggerRun_trans; [exact H0 | now apply doComplete_noTriggerRun].
Qed.

(** C9.  In a completed survey [checkTriggers] returns at once, whatever the
    collaborators: the state, its version counter and its record of
    external calls are as before, so no trigger has been evaluated, for a
    value change and for a page advance alike (the two values of
    [isOnNextPage]).  Hence, with collaborators that leave the survey alone,
    neither [setValue] nor [doNextPage] adds a trigger evaluation to the
    record of a completed survey. *)
Theorem checkTriggers_completed_does_nothing :
  (forall E key isOnNextPage s,
     isCompleted s = true ->
     checkTriggers E key isOnNextPage s = s /\
     calls (checkTriggers E key isOnNextPage s) = calls s /\
     conditionVersion (checkTriggers E key isOnNextPage s) = conditionVersion s) /\
  (forall name v locNotification s,
     isCompleted s = true ->
     triggerEvaluations (setValue inert name v locNotification s) = triggerEvaluations s) /\
  (forall s,
     isCompleted s = true ->
     triggerEvaluations (doNextPage inert s) = triggerEvaluations s).
Proof.
  repeat match goal with |- _ /\ _ => split end.
  - intros E key b s H. rewrite (checkTriggers_completed E key b s H). auto.
  - intros name v loc s H. apply (setValue_noTriggerRun name v loc s H).
  - intros s H. apply (doNextPage_noTriggerRun s H).
Qed.

Lemma checkTriggers_completed_does_nothing_witness :
  checkTriggers inert {[ "q1" := VStr "no" ]} false completedSurvey = completedSurvey /\
  triggerEvaluations (setValue inert "q1" (VStr "no") false completedSurvey) = [] /\
  triggerEvaluations (doNextPage inert completedSurvey) = [].
Proof.
  destruct checkTriggers_completed_does_nothing as (H1 & H2 & H3).
  split; [apply (H1 inert {[ "q1" := VStr "no" ]} false completedSurvey); reflexivity|].
  split; [apply (H2 "q1" (VStr "no") false completedSurvey); reflexivity|].
  apply (H3 completedSurvey); reflexivity.
Defined.

(** ** Repeated completion *)

Lemma external_inert (c : ExternalCall) (s : SurveyModel) :
  external inert c s = set_calls (calls s ++ [c])%list s.
Proof. reflexivity. Qed.

Lemma indexOfFrom_nth (l : list nat) (k p : nat) (i : Z) :
  List.NoDup l -> nth_error l k = Some p -> Survey.indexOfFrom l p i = i + Z.of_nat k.
Proof.
  revert k i. induction l as [|y l IH]; intros k i Hnd Hk.
  - destruct k; discriminate.
  - inversion Hnd as [|? ? Hy Hl]; subst. destruct k as [|k]; cbn in Hk |- *.
    + injection Hk as ->. rewrite Nat.eqb_refl. lia.
    + assert (Hne : Nat.eqb y p = false).
      { apply Nat.eqb_neq. intros ->. apply Hy. eapply nth_error_In; eauto. }
      rewrite Hne, (IH k (i + 1) Hl Hk). lia.
Qed.

Lemma visiblePages_NoDup (s : SurveyModel) : List.NoDup (visiblePages s).
Proof.
  unfold visiblePages. destruct (isDesignMode s).
  - apply List.seq_NoDup.
  - apply List.NoDup_filter, List.seq_NoDup.
Qed.

Lemma indexOf_visible (s : SurveyModel) (k p : nat) :
  nth_error (visiblePages s) k = Some p ->
  Survey.indexOf (visiblePages s) (Some p) = Z.of_nat k.
Proof.
  intros H. unfold Survey.indexOf.
  now rewrite (indexOfFrom_nth _ k p 0 (visiblePages_NoDup s) H).
Qed.

Lemma sameSurvey_visiblePages s s' : sameSurvey s s' -> visiblePages s' = visiblePages s.
Proof. intros (Hp & Hd & _). unfold visiblePages. now rewrite Hp, Hd. Qed.

Lemma get_currentPage_visible (s : SurveyModel) (k p : nat) :
  currentPageValue s = Some p ->
  nth_error (visiblePages s) k = Some p ->
  get_currentPage inert s = (Some p, s).
Proof.
  intros Hc Hk. unfold get_currentPage. rewrite Hc, (indexOf_visible s k p Hk).
  replace (Z.of_nat k <? 0) with false by (symmetry; apply Z.ltb_ge; lia).
  rewrite Hc. cbv beta iota zeta. now rewrite Hc.
Qed.

Lemma isLastPage_visible (s : SurveyModel) (k p : nat) :
  currentPageValue s = Some p ->
  nth_error (visiblePages s) k = Some p ->
  isLastPage inert s = (Nat.eqb (S k) (List.length (visiblePages s)), s).
Proof.
  intros Hc Hk. unfold isLastPage.
  rewrite !(get_currentPage_visible s k p Hc Hk), (indexOf_visible s k p Hk).
  f_equal. destruct (Nat.eqb_spec (S k) (List.length (visiblePages s))) as [H|H].
  - apply Z.eqb_eq. lia.
  - apply Z.eqb_neq. lia.
Qed.

Lemma checkOnPageTriggers_no_triggers (s : SurveyModel) (k p : nat) :
  triggers s = [] ->
  currentPageValue s = Some p ->
  nth_error (visiblePages s) k = Some p ->
  checkOnPageTriggers inert s = s.
Proof.
  intros Ht Hc Hk. unfold checkOnPageTriggers, getCurrentPageQuestions.
  rewrite (get_currentPage_visible s k p Hc Hk). unfold checkTriggers.
  rewrite Ht. cbn. now rewrite orb_true_r.
Qed.

Lemma doNextPage_advances (s : SurveyModel) (k p q : nat) :
  isCompleted s = false ->
  triggers s = [] ->
  currentPageValue s = Some p ->
  nth_error (visiblePages s) k = Some p ->
  nth_error (visiblePages s) (S k) = Some q ->
  currentPageValue (doNextPage inert s) = Some q /\
  isCompleted (doNextPage inert s) = false /\
  isValidatingOnServer (doNextPage inert s) = isValidatingOnServer s /\
  sameSurvey s (doNextPage inert s).
Proof.
  intros Hcomp Ht Hc Hk Hq. unfold doNextPage.
  rewrite (checkOnPageTriggers_no_triggers s k p Ht Hc Hk), Hcomp. cbn [negb].
  set (s1 := if sendResultOnPageNext s then external inert (SendResult true) s else s).
  assert (Hs1 : sameSurvey s s1 /\ currentPageValue s1 = Some p /\
                isCompleted s1 = false /\ isValidatingOnServer s1 = isValidatingOnServer s).
  { unfold s1. destruct (sendResultOnPageNext s); repeat split; assumption. }
  destruct Hs1 as (Hsame & Hc1 & Hcomp1 & Hv1).
  pose proof (sameSurvey_visiblePages _ _ Hsame) as Hvis.
  rewrite <- Hvis in Hk, Hq.
  rewrite (get_currentPage_visible s1 k p Hc1 Hk), (indexOf_visible s1 k p Hk).
  unfold at_. replace (Z.of_nat k + 1 <? 0) with false by (symmetry; apply Z.ltb_ge; lia).
  replace (Z.to_nat (Z.of_nat k + 1)) with (S k) by lia. rewrite Hq.
  unfold set_currentPage. rewrite (indexOf_visible s1 (S k) q Hq).
  replace (Z.of_nat (S k) <? 0) with false by (symmetry; apply Z.ltb_ge; lia).
  rewrite Hc1.
  assert (Hne : Nat.eqb q p = false).
  { apply Nat.eqb_neq. intros ->.
    pose proof (proj1 (List.NoDup_nth_error (visiblePages s1)) (visiblePages_NoDup s1) k (S k)) as Hnd.
    assert (k = S k); [|lia]. apply Hnd; [|congruence].
    apply nth_error_Some. congruence. }
  cbn [samePage]. rewrite Hne. cbn.
  destruct Hsame as (H1 & H2 & H3 & H4). repeat split; assumption.
Qed.

Lemma attachedErrors_same errors s s' :
  pages s' = pages s -> attachedErrors errors s' = attachedErrors errors s.
Proof.
  intros H. unfold attachedErrors, getQuestionByName. now rewrite H.
Qed.

Lemma set_calls_set_calls l l' s : set_calls l (set_calls l' s) = set_calls l s.
Proof. reflexivity. Qed.

Lemma set_calls_id s : set_calls (calls s) s = s.
Proof. now destruct s. Qed.

Lemma fold_errors_inert errors s h :
  fold_left (fun (acc : bool * SurveyModel) (entry : string * string) =>
               match getQuestionByName (fst entry) (snd acc) with
               | Some _ =>
                   (true, external inert (Question_addError (fst entry) (snd entry))
                                   (snd acc))
               | None => acc
               end) errors (h, s) =
  (h || match attachedErrors errors s with [] => false | _ => true end,
   set_calls (calls s ++ attachedErrors errors s)%list s).
Proof.
  revert s h. induction errors as [|e errors IH]; intros s h.
  - cbn. now rewrite orb_false_r, app_nil_r, set_calls_id.
  - cbn [fold_left snd]. unfold attachedErrors. cbn [List.filter].
    destruct (getQuestionByName (fst e) s) eqn:Hq.
    + rewrite external_inert, IH. cbn [map].
      rewrite (attachedErrors_same errors s (set_calls _ s) eq_refl).
      cbn [calls set_calls]. rewrite set_calls_set_calls, <- app_assoc.
      cbn. now rewrite orb_true_r.
    + apply IH.
Qed.

Lemma setIsValidatingOnServer_same s :
  sameSurvey s (setIsValidatingOnServer false s) /\
  currentPageValue (setIsValidatingOnServer false s) = currentPageValue s /\
  isCompleted (setIsValidatingOnServer false s) = isCompleted s /\
  calls (setIsValidatingOnServer false s) = calls s /\
  isValidatingOnServer (setIsValidatingOnServer false s) = false.
Proof.
  unfold setIsValidatingOnServer, sameSurvey.
  destruct (isValidatingOnServer s) eqn:H; cbn; rewrite ?H; auto 10.
Qed.

Lemma complete_with_errors errors s :
  attachedErrors errors s <> [] ->
  complete inert errors s =
  set_calls (calls s ++ attachedErrors errors s)%list (setIsValidatingOnServer false s).
Proof.
  intros Ha. unfold complete, completeServerValidation.
  destruct (setIsValidatingOnServer_same s) as ((Hp & _) & _ & _ & Hcalls & _).
  rewrite fold_errors_inert, (attachedErrors_same errors _ _ Hp), Hcalls.
  destruct (attachedErrors errors s); [contradiction | reflexivity].
Qed.

Lemma complete_without_errors errors s :
  attachedErrors errors s = [] ->
  complete inert errors s =
  let s := setIsValidatingOnServer false s in
  let (last, s) := isLastPage inert s in
  if last then doComplete inert s else doNextPage inert s.
Proof.
  intros Ha. unfold complete, completeServerValidation.
  destruct (setIsValidatingOnServer_same s) as ((Hp & _) & _ & _ & Hcalls & _).
  rewrite fold_errors_inert, (attachedErrors_same errors _ _ Hp), Ha.
  now rewrite app_nil_r, set_calls_id.
Qed.

Lemma complete_advances errors s k p q :
  attachedErrors errors s = [] ->
  isCompleted s = false ->
  triggers s = [] ->
  currentPageValue s = Some p ->
  nth_error (visiblePages s) k = Some p ->
  nth_error (visiblePages s) (S k) = Some q ->
  currentPageValue (complete inert errors s) = Some q /\
  isCompleted (complete inert errors s) = false /\
  isValidatingOnServer (complete inert errors s) = false /\
  sameSurvey s (complete inert errors s).
Proof.
  intros Ha Hcomp Ht Hc Hk Hq. rewrite (complete_without_errors _ _ Ha). cbv zeta.
  destruct (setIsValidatingOnServer_same s) as (Hsame & Hc' & Hcomp' & _ & Hv).
  set (s1 := setIsValidatingOnServer false s) in *.
  pose proof (sameSurvey_visiblePages _ _ Hsame) as Hvis.
  rewrite <- Hvis in Hk, Hq. rewrite Hc in Hc'. rewrite Hcomp in Hcomp'.
  rewrite (isLastPage_visible s1 k p Hc' Hk).
  assert (Hlt : (S k < List.length (visiblePages s1))%nat)
    by (apply nth_error_Some; congruence).
  replace (Nat.eqb (S k) (List.length (visiblePages s1))) with false
    by (symmetry; apply Nat.eqb_neq; lia).
  destruct Hsame as (H1 & H2 & H3 & H4).
  destruct (doNextPage_advances s1 k p q Hcomp' (eq_trans H3 Ht) Hc' Hk Hq)
    as (G1 & G2 & G3 & (G4 & G5 & G6 & G7)).
  repeat split; try congruence.
Qed.

Lemma doComplete_inert s : isCompleted (doComplete inert s) = true.
Proof.
  unfold doComplete. cbn.
  destruct (match surveyPostId s with EmptyString => false | _ => true end); reflexivity.
Qed.

Lemma complete_on_last_page errors s k p :
  attachedErrors errors s = [] ->
  currentPageValue s = Some p ->
  nth_error (visiblePages s) k = Some p ->
  List.length (visiblePages s) = S k ->
  isCompleted (complete inert errors s) = true.
Proof.
  intros Ha Hc Hk Hlen. rewrite (complete_without_errors _ _ Ha). cbv zeta.
  destruct (setIsValidatingOnServer_same s) as (Hsame & Hc' & _).
  set (s1 := setIsValidatingOnServer false s) in *.
  pose proof (sameSurvey_visiblePages _ _ Hsame) as Hvis.
  rewrite <- Hvis in Hk, Hlen. rewrite Hc in Hc'.
  rewrite (isLastPage_visible s1 k p Hc' Hk), Hlen, Nat.eqb_refl.
  apply doComplete_inert.
Qed.


Lemma set_currentPage_flag v : keepsFlag (set_currentPage inert v).
Proof.
  intros s. unfold set_currentPage.
  destruct (match v with Some _ => _ | None => _ end); [reflexivity|].
  destruct (samePage v (currentPageValue s)); [reflexivity|].
  destruct v; reflexivity.
Qed.

Lemma get_currentPage_flag : keepsFlag (fun s => snd (get_currentPage inert s)).
Proof.
  intros s. unfold get_currentPage. cbn [snd].
  set (s1 := match currentPageValue s with
             | Some _ => if Survey.indexOf (visiblePages s) (currentPageValue s) <? 0
                         then set_currentPage inert None s else s
             | None => s
             end).
  assert (H1 : isValidatingOnServer s1 = isValidatingOnServer s).
  { unfold s1. destruct (currentPageValue s); [|reflexivity].
    destruct (_ <? 0); [apply set_currentPage_flag | reflexivity]. }
  destruct (currentPageValue s1); [exact H1|].
  destruct (0 <? _)%nat; [|exact H1]. now rewrite set_currentPage_flag.
Qed.

Lemma checkTriggers_flag key b : keepsFlag (checkTriggers inert key b).
Proof.
  intros s. unfold checkTriggers.
  destruct (isCompleted s || _); [reflexivity|]. cbn [getFilteredValues].
  set (values := <[_ := _]> _). set (s1 := set_conditionVersion _ s).
  change (isValidatingOnServer s) with (isValidatingOnServer s1).
  generalize (triggers s1) as l. generalize s1 as s0. clear. intros s0 l. revert s0.
  induction l as [|t l IH]; intros st; cbn [fold_left]; [reflexivity|].
  rewrite IH. destruct (Bool.eqb _ _); reflexivity.
Qed.

Lemma doComplete_flag : keepsFlag (doComplete inert).
Proof.
  intros s. unfold doComplete. cbn.
  destruct (match surveyPostId s with EmptyString => false | _ => true end); reflexivity.
Qed.

Lemma checkOnPageTriggers_flag : keepsFlag (checkOnPageTriggers inert).
Proof.
  intros s. unfold checkOnPageTriggers, getCurrentPageQuestions.
  pose proof (get_currentPage_flag s) as H0. cbv beta in H0.
  destruct (get_currentPage inert s) as [page s0]. cbn [snd] in H0.
  destruct page; cbv beta iota zeta; rewrite checkTriggers_flag; exact H0.
Qed.

Lemma doNextPage_flag : keepsFlag (doNextPage inert).
Proof.
  intros s. unfold doNextPage.
  pose proof (checkOnPageTriggers_flag s) as H1.
  set (s1 := checkOnPageTriggers inert s) in *.
  destruct (negb (isCompleted s1)); [|now rewrite doComplete_flag].
  set (s2 := if sendResultOnPageNext s1 then _ else s1).
  assert (H2 : isValidatingOnServer s2 = isValidatingOnServer s).
  { unfold s2. destruct (sendResultOnPageNext s1); exact H1. }
  pose proof (get_currentPage_flag s2) as H3. cbv beta in H3.
  destruct (get_currentPage inert s2) as [page2 s3]. cbn [snd] in H3.
  rewrite set_currentPage_flag. congruence.
Qed.

Lemma isLastPage_flag : keepsFlag (fun s => snd (isLastPage inert s)).
Proof.
  intros s. unfold isLastPage.
  pose proof (get_currentPage_flag s) as H0. cbv beta in H0.
  destruct (get_currentPage inert s) as [page s0]. cbn [snd] in H0.
  destruct page; [|exact H0].
  pose proof (get_currentPage_flag s0) as H1. cbv beta in H1.
  destruct (get_currentPage inert s0) as [page s1]. cbn [snd] in H1 |- *. congruence.
Qed.

Lemma complete_flag errors s : isValidatingOnServer (complete inert errors s) = false.
Proof.
  unfold complete, completeServerValidation.
  destruct (setIsValidatingOnServer_same s) as (_ & _ & _ & _ & Hv).
  rewrite fold_errors_inert. cbn [orb].
  set (s1 := set_calls _ _).
  assert (H1 : isValidatingOnServer s1 = false) by exact Hv.
  destruct (attachedErrors errors (setIsValidatingOnServer false s)); cbn [negb].
  - pose proof (isLastPage_flag s1) as H2. cbv beta in H2.
    destruct (isLastPage inert s1) as [last s2]. cbn [snd] in H2.
    destruct last; [rewrite doComplete_flag | rewrite doNextPage_flag]; congruence.
  - exact H1.
Qed.

(** C8 (amended).  The completion callback is not guarded against a second
    use: with collaborators that leave the survey alone, every invocation
    processes the options again.  When [options.errors] names a question,
    each invocation attaches the errors once more and keeps the page, so two
    invocations attach them twice.  When it names none, an invocation on a
    page that is not the last visible one moves to the next visible page,
    so two invocations move two pages on, and an invocation on the last
    visible page completes the survey.  The pending flag alone is not
    affected by the repetition: it is off after every invocation. *)
Theorem completion_callback_repeats :
  (forall errors s,
     attachedErrors errors s <> [] ->
     calls (complete inert errors (complete inert errors s)) =
       (calls s ++ attachedErrors errors s ++ attachedErrors errors s)%list /\
     currentPageValue (complete inert errors (complete inert errors s)) =
       currentPageValue s) /\
  (forall errors s k p q r,
     attachedErrors errors s = [] ->
     isCompleted s = false -> triggers s = [] ->
     currentPageValue s = Some p ->
     nth_error (visiblePages s) k = Some p ->
     nth_error (visiblePages s) (S k) = Some q ->
     nth_error (visiblePages s) (S (S k)) = Some r ->
     currentPageValue (complete inert errors s) = Some q /\
     currentPageValue (complete inert errors (complete inert errors s)) = Some r) /\
  (forall errors s k p q,
     attachedErrors errors s = [] ->
     isCompleted s = false -> triggers s = [] ->
     currentPageValue s = Some p ->
     nth_error (visiblePages s) k = Some p ->
     nth_error (visiblePages s) (S k) = Some q ->
     List.length (visiblePages s) = S (S k) ->
     isCompleted (complete inert errors s) = false /\
     isCompleted (complete inert errors (complete inert errors s)) = true) /\
  (forall errors s, isValidatingOnServer (complete inert errors s) = false).
Proof.
  repeat match goal with |- _ /\ _ => split end.
  - intros errors s Ha.
    destruct (setIsValidatingOnServer_same s) as ((Hp & _) & Hc & _ & Hcalls & Hv).
    rewrite (complete_with_errors errors s Ha).
    set (s1 := set_calls _ _).
    assert (Ha1 : attachedErrors errors s1 = attachedErrors errors s)
      by (apply attachedErrors_same; exact Hp).
    rewrite (complete_with_errors errors s1) by (rewrite Ha1; exact Ha).
    rewrite Ha1. cbn [calls set_calls]. unfold s1. cbn [calls set_calls].
    split; [now rewrite <- app_assoc|].
    unfold setIsValidatingOnServer at 1. cbn [isValidatingOnServer set_calls].
    rewrite Hv. cbn. exact Hc.
  - intros errors s k p q r Ha Hcomp Ht Hc Hk Hq Hr.
    destruct (complete_advances errors s k p q Ha Hcomp Ht Hc Hk Hq)
      as (G1 & G2 & G3 & Hsame).
    split; [exact G1|].
    pose proof (sameSurvey_visiblePages _ _ Hsame) as Hvis.
    destruct Hsame as (H1 & H2 & H3 & H4).
    apply (complete_advances errors _ (S k) q r); try congruence.
    rewrite (attachedErrors_same errors s _ H1). exact Ha.
  - intros errors s k p q Ha Hcomp Ht Hc Hk Hq Hlen.
    destruct (complete_advances errors s k p q Ha Hcomp Ht Hc Hk Hq)
      as (G1 & G2 & G3 & Hsame).
    split; [exact G2|].
    pose proof (sameSurvey_visiblePages _ _ Hsame) as Hvis.
    destruct Hsame as (H1 & H2 & H3 & H4).
    apply (complete_on_last_page errors _ (S k) q); try congruence.
    rewrite (attachedErrors_same errors s _ H1). exact Ha.
  - apply complete_flag.
Qed.

(** On [threePages], with no error reported, two invocations lead from the
    first page to the third. *)
Lemma completion_callback_repeats_witness :
  currentPageValue (complete inert [] threePages) = Some 1%nat /\
  currentPageValue (complete inert [] (complete inert [] threePages)) = Some 2%nat.
Proof.
  apply (proj1 (proj2 completion_callback_repeats) [] threePages 0%nat 0%nat 1%nat 2%nat);
    reflexivity.
Defined.

(** C8, the claim refuted.  After a first invocation of the callback a
    second one is not a no-op: on [threePages] it moves one more page on; on
    the last page but one it completes the survey that the first invocation
    had only moved to its last page; and with an error for [q1] it attaches
    that error a second time. *)
Lemma second_completion_is_not_a_noop :
  currentPageValue (complete inert [] threePages) = Some 1%nat /\
  currentPageValue (complete inert [] (complete inert [] threePages)) = Some 2%nat /\
  complete inert [] (complete inert [] threePages) <> complete inert [] threePages /\
  isCompleted (complete inert [] onSecondPage) = false /\
  isCompleted (complete inert [] (complete inert [] onSecondPage)) = true /\
  calls (complete inert [("q1", "taken")] threePages) =
    [Question_addError "q1" "taken"] /\
  calls (complete inert [("q1", "taken")] (complete inert [("q1", "taken")] threePages)) =
    [Question_addError "q1" "taken"; Question_addError "q1" "taken"].
Proof.
  repeat split; try (vm_compute; reflexivity).
  intros H. apply (f_equal currentPageValue) in H. vm_compute in H. discriminate H.
Qed.

End SurveySpec.

(* ===================================================================== *)
(** * More properties of expressions/expressions.ts *)
(* ===================================================================== *)

Module OperandSpec.
Import JS Helpers Expressions.

(** ** The variables of an operand *)

Lemma setVariables_app (operand : Operand) :
  forall variables,
    setVariables operand variables = (variables ++ setVariables operand [])%list.
Proof.
  induction operand as [v|n|e n c IH|n l r c IHl IHr|vs IH|f p IH] using Operand_ind';
    intros variables; cbn [setVariables].
  - now rewrite app_nil_r.
  - reflexivity.
  - apply IH.
  - destruct l as [x|], r as [y|]; cbn in IHl, IHr.
    + rewrite (IHr (setVariables x variables)), (IHr (setVariables x [])), (IHl variables).
      now rewrite app_assoc.
    + apply IHl.
    + apply IHr.
    + now rewrite app_nil_r.
  - revert variables. induction IH as [|x rest Hx _ IHrest]; intros variables; cbn [fold_left].
    + now rewrite app_nil_r.
    + rewrite IHrest, (IHrest (setVariables x [])), (Hx variables).
      now rewrite app_assoc.
  - apply IH.
Qed.

Lemma setVariables_binary n l r c :
  setVariables (BinaryOperand n l r c) [] =
  ((match l with Some x => setVariables x [] | None => [] end) ++
   (match r with Some x => setVariables x [] | None => [] end))%list.
Proof.
  cbn [setVariables]. destruct l as [x|], r as [y|]; cbn.
  - apply setVariables_app.
  - now rewrite app_nil_r.
  - reflexivity.
  - reflexivity.
Qed.

Lemma setVariables_array vs :
  setVariables (ArrayOperand vs) [] = flat_map (fun el => setVariables el []) vs.
Proof.
  cbn [setVariables].
  assert (H : forall acc,
             fold_left (fun variables el => setVariables el variables) vs acc =
             (acc ++ flat_map (fun el => setVariables el []) vs)%list).
  { induction vs as [|x rest IH]; intros acc; cbn [fold_left flat_map].
    - now rewrite app_nil_r.
    - rewrite IH, (setVariables_app x acc). now rewrite app_assoc. }
  apply (H []).
Qed.

Section Snapshots.
Variable Math_pow : float -> float -> float.
Variable foreignCall : string -> list value -> value.
Variable FunctionFactory_run : string -> value -> value.

(** X1.  Evaluation reads a snapshot only at the variables that
    [setVariables] collects, each looked up in lower case: over two
    snapshots that agree on them an operand evaluates to the same value,
    whatever else the snapshots hold (the functions it calls being the
    same). *)
Theorem evaluate_reads_only_its_variables
    (hasValue1 : string -> bool) (getValue1 : string -> value)
    (hasValue2 : string -> bool) (getValue2 : string -> value)
    (operand : Operand) :
  (forall name, In name (setVariables operand []) ->
     sameVariable hasValue1 getValue1 hasValue2 getValue2 name) ->
  evaluate Math_pow foreignCall hasValue1 getValue1 FunctionFactory_run operand =
  evaluate Math_pow foreignCall hasValue2 getValue2 FunctionFactory_run operand.
Proof.
  induction operand as [v|n|e n c IH|n l r c IHl IHr|vs IH|f p IH] using Operand_ind';
    intros H.
  - reflexivity.
  - cbn [evaluate]. destruct (H n) as [H1 H2]; [now left|].
    rewrite <- H1. destruct (hasValue1 (toLowerCase n)); [|reflexivity].
    now rewrite H2.
  - cbn [evaluate]. f_equal. apply IH. exact H.
  - rewrite setVariables_binary in H. cbn [evaluate]. f_equal.
    + destruct l as [x|]; [|reflexivity]. apply IHl.
      intros name Hin. apply H, in_or_app. now left.
    + destruct r as [x|]; [|reflexivity]. apply IHr.
      intros name Hin. apply H, in_or_app. now right.
  - rewrite setVariables_array in H. cbn [evaluate]. f_equal.
    induction IH as [|x rest Hx _ IHrest]; [reflexivity|].
    cbn [map]. f_equal.
    + apply Hx. intros name Hin. apply H. cbn [flat_map]. apply in_or_app. now left.
    + apply IHrest. intros name Hin. apply H. cbn [flat_map]. apply in_or_app. now right.
  - cbn [evaluate]. f_equal. apply IH. exact H.
Qed.

End Snapshots.

(** [{Age} + 1] over two snapshots that hold the same age and differ on
    [name]. *)
Lemma evaluate_reads_only_its_variables_witness :
  let operand := BinaryOperand "plus" (Some (Variable_ "Age")) (Some (Const (VNum 1)))
                   (TableEntry B_plus) in
  let has1 := fun k => String.eqb k "age" || String.eqb k "name" in
  let get1 := fun k => if String.eqb k "age" then VStr "41" else VStr "Ann" in
  let has2 := fun k => String.eqb k "age" in
  let get2 := fun k => if String.eqb k "age" then VStr "41" else VUndefined in
  evaluate (fun _ _ => PrimFloat.nan) (fun _ _ => VUndefined) has1 get1
           (fun _ _ => VUndefined) operand =
  evaluate (fun _ _ => PrimFloat.nan) (fun _ _ => VUndefined) has2 get2
           (fun _ _ => VUndefined) operand.
Proof.
  cbv zeta. apply evaluate_reads_only_its_variables.
  intros name [<- | []]. split; reflexivity.
Defined.

(** ** Functions inside an operand *)

Section Functions.
Variable Math_pow : float -> float -> float.
Variable foreignCall : string -> list value -> value.
Variable hasValue : string -> bool.
Variable getValue : string -> value.

(** X2.  [hasFunction] answers for the operand tree down to its unary
    operands: when it answers [false] for an operand without unary operands,
    no function is called, so the value does not depend on what the function
    factory holds.  A unary operand always answers [false], also over a
    function call, which its evaluation does make. *)
Theorem hasFunction_false_calls_no_function :
  (forall operand F1 F2,
     hasFunction operand = false -> unaryFree operand = true ->
     evaluate Math_pow foreignCall hasValue getValue F1 operand =
     evaluate Math_pow foreignCall hasValue getValue F2 operand) /\
  (forall expression operatorName consumer,
     hasFunction (UnaryOperand expression operatorName consumer) = false) /\
  (forall F f parameters,
     evaluate Math_pow foreignCall hasValue getValue F
       (UnaryOperand (FunctionOperand f parameters) "negate" (Own U_negate)) =
     VBool (negate (F f (evaluate Math_pow foreignCall hasValue getValue F parameters)))).
Proof.
  split; [|split; reflexivity].
  intros operand F1 F2.
  induction operand as [v|n|e n c IH|n l r c IHl IHr|vs IH|f p IH] using Operand_ind';
    cbn [hasFunction unaryFree]; intros Hf Hu; try discriminate; try reflexivity.
  - apply orb_false_iff in Hf as [Hf1 Hf2]. apply andb_true_iff in Hu as [Hu1 Hu2].
    cbn [evaluate]. f_equal.
    + destruct l as [x|]; [|reflexivity]. now apply IHl.
    + destruct r as [x|]; [|reflexivity]. now apply IHr.
  - cbn [evaluate]. f_equal.
    induction IH as [|x rest Hx _ IHrest]; [reflexivity|].
    cbn [existsb forallb] in Hf, Hu.
    apply orb_false_iff in Hf as [Hf1 Hf2]. apply andb_true_iff in Hu as [Hu1 Hu2].
    cbn [map]. f_equal; [now apply Hx | now apply IHrest].
Qed.

End Functions.

(** [{a} > 1] over two function factories. *)
Lemma hasFunction_false_calls_no_function_witness :
  let operand := BinaryOperand "greater" (Some (Variable_ "a")) (Some (Const (VNum 1)))
                   (TableEntry B_greater) in
  evaluate (fun _ _ => PrimFloat.nan) (fun _ _ => VUndefined) (fun _ => true)
           (fun _ => VNum 2) (fun _ _ => VNull) operand =
  evaluate (fun _ _ => PrimFloat.nan) (fun _ _ => VUndefined) (fun _ => true)
           (fun _ => VNum 2) (fun _ _ => VNum 7) operand.
Proof.
  cbv zeta.
  apply (proj1 (hasFunction_false_calls_no_function
                  (fun _ _ => PrimFloat.nan) (fun _ _ => VUndefined) (fun _ => true)
                  (fun _ => VNum 2))); reflexivity.
Defined.

(** ** Constants read twice, and printed *)

(** X3.  [getCorrectValue] is idempotent: what it returns it would return
    unchanged, so a snapshot that already holds converted values is read as
    it is. *)
Theorem getCorrectValue_idempotent (v : value) :
  getCorrectValue (getCorrectValue v) = getCorrectValue v.
Proof.
  destruct v as [| |b|n|s|l]; try reflexivity.
  destruct (getCorrectValue (VStr s)) as [| |b|n|t|l] eqn:E; try reflexivity.
  - assert (t = s) as ->; [|exact E].
    unfold getCorrectValue in E.
    destruct (negb (truthy (VStr s))); [congruence|].
    destruct (isBooleanValue s); [discriminate|].
    destruct (isNumericValue s); [|congruence].
    destruct (JS.indexOf s "0x" =? 0); discriminate.
Qed.

(** X4.  [toOperandString] puts quotes around exactly the non-empty strings
    that a [Const] evaluates to themselves; a string that a [Const] would
    read as a boolean or as a number, and the empty string, are left bare. *)
Theorem toOperandString_quotes_strings (s : string) :
  OperandMaker.toOperandString s =
  match s, getCorrectValue (VStr s) with
  | EmptyString, _ => s
  | _, VStr _ => "'" +:+ s +:+ "'"
  | _, _ => s
  end.
Proof.
  destruct s as [|a s]; [reflexivity|].
  set (t := String a s).
  unfold OperandMaker.toOperandString, getCorrectValue.
  change (OperandMaker.isNumeric t) with (isNumericValue t).
  change (OperandMaker.isBooleanValue t) with (isBooleanValue t).
  change (truthy (VStr t)) with true. cbn [negb andb].
  destruct (isBooleanValue t); cbn [negb andb].
  - now rewrite andb_false_r.
  - destruct (isNumericValue t); cbn [negb andb]; [|reflexivity].
    destruct (JS.indexOf t "0x" =? 0); reflexivity.
Qed.

(** ** contains and notcontains *)

Lemma containsLoop_false (l rs : list value) :
  containsLoop l rs false =
  negb (forallb (fun r => existsb (fun x => isTwoValueEquals x r) l) rs).
Proof.
  induction rs as [|r rs IH]; cbn; [reflexivity|].
  pose proof (ExpressionsSpec.firstEqual_none l r 0) as H.
  rewrite Nat.add_0_l in H. rewrite H.
  destruct (existsb (fun x => isTwoValueEquals x r) l); cbn; [exact IH | reflexivity].
Qed.

(** What [containsCore] searches when the left operand is not a non-empty
    array: the operand printed as a string. *)
Lemma containsCore_text (l r : value) (isContains : bool) :
  truthy l = true -> isSequence l = false ->
  containsCore l r isContains =
  if negb (truthy r) then false
  else if isContains then JS.indexOf (ToString l) (ToString r) >? -1
       else negb (JS.indexOf (ToString l) (ToString r) >? -1).
Proof.
  intros Ht Hs. unfold containsCore. rewrite Ht. cbn [negb].
  destruct l as [| |b|n|s|[|x xs]]; try discriminate; try reflexivity.
  destruct s; [discriminate|reflexivity].
Qed.

(** X5.  [contains] by the shape of its left operand.  A non-empty array
    contains the right operand when each element of it (the operand itself
    when it is not an array) equals some element of the array; so it
    contains the empty array.  Any other left operand is searched as text:
    it must be truthy, the right operand too, and the right operand printed
    as a string must occur in the left one printed as a string; so the
    number 123 contains the number 2. *)
Theorem contains_by_shape :
  (forall x xs r,
     contains (VArr (x :: xs)) r =
     forallb (fun y => existsb (fun z => isTwoValueEquals z y) (x :: xs)) (elements r)) /\
  (forall l r,
     isSequence l = false ->
     contains l r =
     truthy l && truthy r && (JS.indexOf (ToString l) (ToString r) >? -1)).
Proof.
  split.
  - intros x xs r. unfold contains, containsCore.
    cbn [truthy negb noLength lengthOf List.length].
    rewrite ExpressionsSpec.containsLoop_true. destruct r; reflexivity.
  - intros l r Hs. unfold contains. destruct (truthy l) eqn:Ht.
    + rewrite (containsCore_text l r true Ht Hs). destruct (truthy r); reflexivity.
    + unfold containsCore. now rewrite Ht.
Qed.

Lemma contains_by_shape_witness :
  contains (VNum 123) (VNum 2) =
  truthy (VNum 123) && truthy (VNum 2) &&
  (JS.indexOf (ToString (VNum 123)) (ToString (VNum 2)) >? -1).
Proof. apply (proj2 contains_by_shape (VNum 123) (VNum 2)). reflexivity. Defined.

(** X6.  [notcontains] is not the negation of [contains].  The two are never
    both true, and they are both false in two cases: the left operand is
    falsy and the right one is empty; or the left operand is truthy and not
    a non-empty array, and the right one is falsy.  In every other case
    exactly one of them holds. *)
Theorem notcontains_is_not_the_negation :
  (forall l r, contains l r = true -> notcontains l r = false) /\
  (forall l r,
     contains l r = false ->
     (notcontains l r = false <->
      (truthy l = false /\ isValueEmpty r = true) \/
      (truthy l = true /\ isSequence l = false /\ truthy r = false))).
Proof.
  assert (Hseq : forall x xs r,
             notcontains (VArr (x :: xs)) r = negb (contains (VArr (x :: xs)) r)).
  { intros x xs r. unfold notcontains, contains, containsCore.
    cbn [truthy negb andb noLength lengthOf List.length].
    now rewrite containsLoop_false, ExpressionsSpec.containsLoop_true. }
  split; intros l r Hc.
  - destruct (isSequence l) eqn:Hs.
    + destruct l as [| |b|n|s|[|x xs]]; try discriminate.
      rewrite Hseq, Hc. reflexivity.
    + destruct (truthy l) eqn:Ht.
      * unfold notcontains. rewrite Ht. cbn [negb andb].
        unfold contains in Hc. rewrite (containsCore_text l r _ Ht Hs) in Hc.
        rewrite (containsCore_text l r _ Ht Hs).
        destruct (negb (truthy r)); [discriminate|]. now rewrite Hc.
      * unfold contains, containsCore in Hc. rewrite Ht in Hc. discriminate.
  - destruct (isSequence l) eqn:Hs.
    + destruct l as [| |b|n|s|[|x xs]]; try discriminate.
      rewrite Hseq, Hc. cbn. split; [discriminate|].
      intros [[H _] | (_ & H & _)]; discriminate.
    + destruct (truthy l) eqn:Ht.
      * unfold notcontains. rewrite Ht. cbn [negb andb].
        unfold contains in Hc. rewrite (containsCore_text l r _ Ht Hs) in Hc.
        rewrite (containsCore_text l r _ Ht Hs).
        destruct (truthy r); cbn [negb] in *.
        -- rewrite Hc. cbn. split; [discriminate|].
           intros [[H _] | (_ & _ & H)]; discriminate.
        -- split; [intros _; right; auto | reflexivity].
      * unfold notcontains, containsCore. rewrite Ht. cbn [negb andb].
        destruct (isValueEmpty r); cbn [negb].
        -- split; [intros _; left; auto | reflexivity].
        -- split; [discriminate|].
           intros [[_ H] | (H & _)]; discriminate.
Qed.

(** Against [null] both [contains] and [notcontains] of a string are false. *)
Lemma notcontains_is_not_the_negation_witness :
  notcontains (VStr "abc") VNull = false <->
  (truthy (VStr "abc") = false /\ isValueEmpty VNull = true) \/
  (truthy (VStr "abc") = true /\ isSequence (VStr "abc") = false /\ truthy VNull = false).
Proof.
  apply (proj2 notcontains_is_not_the_negation (VStr "abc") VNull). reflexivity.
Defined.

(** ** The order comparisons *)

Lemma SFcompare_antisym (x y : spec_float) :
  SFcompare y x = match SFcompare x y with
                  | Some c => Some (CompOpp c)
                  | None => None
                  end.
Proof.
  destruct x as [sx|sx| |sx mx ex], y as [sy|sy| |sy my ey]; cbn;
    try reflexivity; try (destruct sx; reflexivity); try (destruct sy; reflexivity);
    try (destruct sx, sy; reflexivity).
  destruct sx, sy; try reflexivity.
  - rewrite (Z.compare_antisym ex ey). destruct (ex ?= ey)%Z eqn:He; cbn; try reflexivity.
    change (PosDef.Pos.compare_cont Eq my mx) with (Pos.compare my mx).
    change (PosDef.Pos.compare_cont Eq mx my) with (Pos.compare mx my).
    now rewrite (Pos.compare_antisym mx my).
  - rewrite (Z.compare_antisym ex ey). destruct (ex ?= ey)%Z eqn:He; cbn; try reflexivity.
    change (PosDef.Pos.compare_cont Eq my mx) with (Pos.compare my mx).
    change (PosDef.Pos.compare_cont Eq mx my) with (Pos.compare mx my).
    now rewrite (Pos.compare_antisym mx my).
Qed.

Lemma ltb_asym (a b : float) : PrimFloat.ltb a b = true -> PrimFloat.ltb b a = false.
Proof.
  rewrite !FloatAxioms.ltb_spec. unfold SFltb.
  rewrite (SFcompare_antisym (Prim2SF a) (Prim2SF b)).
  destruct (SFcompare (Prim2SF a) (Prim2SF b)) as [[| |]|]; cbn; congruence.
Qed.

Lemma numbers_asym (x y : float) :
  (if PrimFloat.is_nan x || PrimFloat.is_nan y then None
   else Some (PrimFloat.ltb x y)) = Some true ->
  (if PrimFloat.is_nan y || PrimFloat.is_nan x then None
   else Some (PrimFloat.ltb y x)) = Some false.
Proof.
  rewrite (orb_comm (PrimFloat.is_nan y)).
  destruct (PrimFloat.is_nan x || PrimFloat.is_nan y); [discriminate|].
  intros [= H]. now rewrite (ltb_asym _ _ H).
Qed.

Lemma numbers_undefined (x y : float) :
  (if PrimFloat.is_nan x || PrimFloat.is_nan y then None
   else Some (PrimFloat.ltb x y)) = None ->
  (if PrimFloat.is_nan y || PrimFloat.is_nan x then @None bool
   else Some (PrimFloat.ltb y x)) = None.
Proof.
  rewrite (orb_comm (PrimFloat.is_nan y)).
  destruct (PrimFloat.is_nan x || PrimFloat.is_nan y); [reflexivity | discriminate].
Qed.

Lemma lessThan_asym (a b : value) :
  lessThan a b = Some true -> lessThan b a = Some false.
Proof.
  unfold lessThan.
  destruct (ToPrimitive a) as [| |x|x|x|x], (ToPrimitive b) as [| |y|y|y|y];
    cbv zeta; try apply numbers_asym.
  intros [= H]. rewrite (String.compare_antisym y x).
  destruct (String.compare x y)%string; cbn; try discriminate; reflexivity.
Qed.

Lemma lessThan_undefined (a b : value) : lessThan a b = None -> lessThan b a = None.
Proof.
  unfold lessThan.
  destruct (ToPrimitive a) as [| |x|x|x|x], (ToPrimitive b) as [| |y|y|y|y];
    cbv zeta; try apply numbers_undefined.
  discriminate.
Qed.

(** X7.  The four order comparisons.  With [null] or [undefined] on either
    side all four are false, [lessorequal(null, null)] included.  So are
    they when the comparison is undefined, one side reading as [NaN].
    Otherwise [less] and [greater] are never both true, [lessorequal] is the
    negation of [greater], and [greaterorequal] the negation of [less]. *)
Theorem order_comparisons :
  (forall a b,
     isNullish a || isNullish b = true ->
     less a b = false /\ greater a b = false /\
     lessorequal a b = false /\ greaterorequal a b = false) /\
  (forall a b,
     lessThan a b = None ->
     less a b = false /\ greater a b = false /\
     lessorequal a b = false /\ greaterorequal a b = false) /\
  (forall a b, less a b = true -> greater a b = false) /\
  (forall a b,
     isNullish a || isNullish b = false -> lessThan a b <> None ->
     lessorequal a b = negb (greater a b) /\ greaterorequal a b = negb (less a b)).
Proof.
  repeat match goal with |- _ /\ _ => split end.
  - intros a b H. unfold less, greater, lessorequal, greaterorequal. now rewrite H.
  - intros a b H. pose proof (lessThan_undefined a b H) as H'.
    unfold less, greater, lessorequal, greaterorequal. rewrite H, H'.
    destruct (isNullish a || isNullish b); auto.
  - intros a b. unfold less, greater.
    destruct (isNullish a || isNullish b); [discriminate|].
    destruct (lessThan a b) as [[|]|] eqn:H; try discriminate.
    intros _. now rewrite (lessThan_asym a b H).
  - intros a b Hn Hd. unfold less, greater, lessorequal, greaterorequal. rewrite Hn.
    split.
    + destruct (lessThan b a) as [[|]|] eqn:H; try reflexivity.
      exfalso. apply Hd. now apply lessThan_undefined.
    + destruct (lessThan a b) as [[|]|] eqn:H; try reflexivity. contradiction.
Qed.

Lemma order_comparisons_witness :
  less VNull VNull = false /\ greater VNull VNull = false /\
  lessorequal VNull VNull = false /\ greaterorequal VNull VNull = false.
Proof. apply (proj1 order_comparisons VNull VNull). reflexivity. Defined.

(** ** Which operator names the constructors accept *)

Lemma assoc_some_iff {A : Type} (key : string) (table : list (string * A)) :
  (exists a, assoc key table = Some a) <-> In key (map fst table).
Proof.
  induction table as [|[k a] rest IH]; cbn.
  - split; [intros [a H]; discriminate | contradiction].
  - destruct (String.eqb k key) eqn:He.
    + apply String.eqb_eq in He. split; [now left | eauto].
    + apply String.eqb_neq in He. rewrite IH. split; [now right|].
      intros [H | H]; [contradiction | exact H].
Qed.

Lemma getProperty_absent_iff {A : Type} (table : list (string * A)) (key : string) :
  getProperty table key = Absent <->
  ~ (In key (map fst table) \/ In key objectPrototypeMembers).
Proof.
  unfold getProperty. pose proof (assoc_some_iff key table) as Ha.
  destruct (assoc key table) as [a|].
  - split; [discriminate|]. intros H. exfalso. apply H. left. apply Ha. eauto.
  - assert (Hn : ~ In key (map fst table)).
    { intros H. apply Ha in H as [a H]. discriminate. }
    destruct (existsb (String.eqb key) objectPrototypeMembers) eqn:He.
    + split; [discriminate|]. intros H. exfalso. apply H. right.
      apply existsb_exists in He as (x & Hx & Heq). apply String.eqb_eq in Heq.
      now subst.
    + split; [|reflexivity]. intros _ [H | H]; [contradiction|].
      assert (existsb (String.eqb key) objectPrototypeMembers = true); [|congruence].
      apply existsb_exists. exists key. split; [exact H | apply String.eqb_refl].
Qed.

(** X8.  The constructors look the operator name up in an object literal, so
    they accept the keys of the table and also every member the table
    inherits from [Object.prototype]:  [new UnaryOperand(e, "toString")] and
    [new BinaryOperand("constructor", l, r)] are built, and so is a binary
    operand named [arithmeticOp] or [containsCore].  Any other name is
    refused with "Invalid operator". *)
Theorem constructors_accept_inherited_members :
  (forall name l r,
     (In name (map fst binaryFunctions) \/ In name objectPrototypeMembers ->
      exists consumer,
        newBinaryOperand name l r false = Return (BinaryOperand name l r consumer)) /\
     (~ (In name (map fst binaryFunctions) \/ In name objectPrototypeMembers) ->
      newBinaryOperand name l r false = Throw ("Invalid operator: '" +:+ name +:+ "'"))) /\
  (forall expression name,
     (In name ["empty"; "notempty"; "negate"] \/ In name objectPrototypeMembers ->
      exists consumer,
        newUnaryOperand expression name = Return (UnaryOperand expression name consumer)) /\
     (~ (In name ["empty"; "notempty"; "negate"] \/ In name objectPrototypeMembers) ->
      newUnaryOperand expression name = Throw ("Invalid operator: '" +:+ name +:+ "'"))).
Proof.
  split.
  - intros name l r. unfold newBinaryOperand.
    pose proof (getProperty_absent_iff binaryFunctions name) as H.
    destruct (getProperty binaryFunctions name) as [key| |].
    + split; [eauto|]. intros Hn. exfalso. apply H in Hn. discriminate.
    + split; [eauto|]. intros Hn. exfalso. apply H in Hn. discriminate.
    + split; [|reflexivity]. intros Hin. exfalso. now apply (proj1 H).
  - intros expression name. unfold newUnaryOperand.
    pose proof (getProperty_absent_iff unaryFunctions name) as H.
    change (map fst unaryFunctions) with ["empty"; "notempty"; "negate"] in H.
    destruct (getProperty unaryFunctions name) as [key| |].
    + split; [eauto|]. intros Hn. exfalso. apply H in Hn. discriminate.
    + split; [eauto|]. intros Hn. exfalso. apply H in Hn. discriminate.
    + split; [|reflexivity]. intros Hin. exfalso. now apply (proj1 H).
Qed.

Lemma constructors_accept_inherited_members_witness :
  exists consumer,
    newUnaryOperand (Const (VNum 1)) "toString" =
    Return (UnaryOperand (Const (VNum 1)) "toString" consumer).
Proof.
  apply (proj1 (proj2 constructors_accept_inherited_members (Const (VNum 1)) "toString")).
  right. cbn. tauto.
Defined.

(** ** Constants under [plus] *)

Section Plus.
Variable Math_pow : float -> float -> float.
Variable foreignCall : string -> list value -> value.
Variable hasValue : string -> bool.
Variable getValue : string -> value.
Variable FunctionFactory_run : string -> value -> value.

(** X9.  Constants are read before they are added.  Two constants that
    [getCorrectValue] reads as numbers, numeric strings included, are added
    as numbers; when the left one stays a string, the result is that string
    followed by the right one printed as a string. *)
Theorem plus_adds_what_reads_as_numbers :
  (forall a b x y,
     getCorrectValue a = VNum x -> getCorrectValue b = VNum y ->
     evaluate Math_pow foreignCall hasValue getValue FunctionFactory_run
       (BinaryOperand "plus" (Some (Const a)) (Some (Const b)) (TableEntry B_plus)) =
     VNum (PrimFloat.add x y)) /\
  (forall a b s,
     getCorrectValue a = VStr s ->
     evaluate Math_pow foreignCall hasValue getValue FunctionFactory_run
       (BinaryOperand "plus" (Some (Const a)) (Some (Const b)) (TableEntry B_plus)) =
     VStr (s +:+ ToString (getCorrectValue b))).
Proof.
  split.
  - intros a b x y Ha Hb. cbn [Expressions.evaluate callConsumer callBinary].
    now rewrite Ha, Hb.
  - intros a b s Ha. cbn [Expressions.evaluate callConsumer callBinary].
    rewrite Ha. unfold plus, JS.add. cbn [ToPrimitive ToString].
    destruct (getCorrectValue b) as [| |c|n|t|l]; reflexivity.
Qed.

End Plus.

(** ["2"] plus ["3"] is the number 5. *)
Lemma plus_adds_what_reads_as_numbers_witness :
  Expressions.evaluate (fun _ _ => PrimFloat.nan) (fun _ _ => VUndefined)
    (fun _ => false) (fun _ => VUndefined) (fun _ _ => VUndefined)
    (BinaryOperand "plus" (Some (Const (VStr "2"))) (Some (Const (VStr "3")))
       (TableEntry B_plus)) =
  VNum (PrimFloat.add 2 3).
Proof.
  apply (proj1 (plus_adds_what_reads_as_numbers
                  (fun _ _ => PrimFloat.nan) (fun _ _ => VUndefined)
                  (fun _ => false) (fun _ => VUndefined) (fun _ _ => VUndefined)));
    vm_compute; reflexivity.
Defined.

End OperandSpec.

(* ===================================================================== *)
(** * More properties of validator.ts *)
(* ===================================================================== *)

Module ValidatorsSpec.
Import JS Helpers Validator.

(** ** A validator that raises *)

Section Raising.
Variables Values Properties : Type.

Lemma runLoop_raises (owner : IValidatorOwner Values Properties)
    before v after results message :
  Forall2 (fun v r => invoke owner v = Return r) before results ->
  invoke owner v = Throw message ->
  forall i res log,
    runLoop owner (before ++ v :: after)%list i res log = Throw message.
Proof.
  intros H Hv. induction H as [|w r before results Hw _ IH]; intros i res log.
  - cbn [app runLoop]. unfold runStep. unfold invoke in Hv.
    destruct (isValidateAllValues v); cbn [negb] in Hv |- *; now rewrite Hv.
  - cbn [app runLoop].
    assert (Hstep : exists res' log', runStep owner i w res log = Return (res', log')).
    { unfold runStep. unfold invoke in Hw.
      destruct (isValidateAllValues w); cbn [negb] in Hw |- *; rewrite Hw;
        destruct r as [[val [e|]]|]; eauto. }
    destruct Hstep as (res' & log' & ->). apply IH.
Qed.

(** X10.  [run] has no handler: when a validator raises, after the
    validators before it have returned, [run] raises the same error.  The
    errors collected so far are lost with it, and the validators after it
    are not called, whatever they would report. *)
Theorem run_raises_what_a_validator_raises
    (owner : IValidatorOwner Values Properties) before v after results message :
  validators owner = (before ++ v :: after)%list ->
  Forall2 (fun v r => invoke owner v = Return r) before results ->
  invoke owner v = Throw message ->
  run owner = Throw message /\ runTraced owner = Throw message.
Proof.
  intros Hvs H Hv. unfold run, runTraced. rewrite Hvs.
  now rewrite (runLoop_raises owner before v after results message H Hv).
Qed.

End Raising.

(** A validator that raises, between two that report an error. *)
Lemma run_raises_what_a_validator_raises_witness :
  let raising : SurveyValidator unit unit :=
    {| isValidateAllValues := false;
       validate := fun _ _ => Throw "TypeError";
       validateAllValues := fun _ _ _ _ => Return None |} in
  let owner : IValidatorOwner unit unit :=
    {| validators := [failing "first"; raising; failing "second"];
       validatedValue := VStr "x"; getValidatorTitle := "q";
       getDataFilteredValues := tt; getDataFilteredProperties := tt |} in
  run owner = Throw "TypeError" /\ runTraced owner = Throw "TypeError".
Proof.
  cbv zeta.
  eapply (run_raises_what_a_validator_raises unit unit _ [failing "first"] _
            [failing "second"]
            [Some {| result_value := VStr "x";
                     result_error := Some (CustomError "first") |}]).
  - reflexivity.
  - repeat constructor.
  - reflexivity.
Defined.

(** ** RegexValidator: the pattern is compiled late *)

Section RegexMore.
Variable RegExp : string -> completion (string -> bool).

(** X11.  [RegexValidator.validate] compiles its pattern only for a value it
    is going to test.  Without a pattern, or for an empty value, it returns
    [null] and the pattern is not looked at, so a malformed pattern goes
    unnoticed; for any other value a malformed pattern makes [validate]
    raise.  A value that is not an array is tested as the string it prints
    to, and reported, with itself as the result's value, when the pattern
    rejects that string. *)
Theorem regexValidate_compiles_late :
  (forall v value name,
     regex v = None \/ regex v = Some "" \/ isValueEmpty value = true ->
     regexValidate RegExp v value name = Return None) /\
  (forall v pattern value name message,
     regex v = Some pattern -> pattern <> "" -> isValueEmpty value = false ->
     RegExp pattern = Throw message ->
     regexValidate RegExp v value name = Throw message) /\
  (forall v pattern re value name,
     regex v = Some pattern -> pattern <> "" -> isValueEmpty value = false ->
     isArray value = false ->
     RegExp pattern = Return re ->
     regexValidate RegExp v value name =
     Return (if re (ToString value) then None
             else Some {| result_value := value;
                          result_error := Some (createCustomError v name) |})).
Proof.
  repeat match goal with |- _ /\ _ => split end.
  - intros v value name H. unfold regexValidate.
    destruct H as [-> | [-> | H]]; try reflexivity.
    rewrite H. now rewrite orb_true_r.
  - intros v pattern value name message Hv Hp He Hre. unfold regexValidate.
    rewrite Hv, He, Hre. destruct pattern; [contradiction|reflexivity].
  - intros v pattern re value name Hv Hp He Ha Hre. unfold regexValidate.
    rewrite Hv, He, Hre. destruct pattern; [contradiction|].
    cbn [truthy negb orb]. destruct value; try discriminate; reflexivity.
Qed.

End RegexMore.

(** A compiler that refuses every pattern: no error for an empty answer. *)
Lemma regexValidate_compiles_late_witness :
  regexValidate (fun _ => Throw "SyntaxError") {| text := ""; regex := Some "(" |}
                (VStr "") "q" = Return None.
Proof.
  apply (proj1 (regexValidate_compiles_late (fun _ => Throw "SyntaxError"))).
  right. right. reflexivity.
Defined.

(** ** NumericValidator *)

Section NumericSpec.
Variable getString : string -> string.
Variable format : string -> list value -> string.

(** X12.  What a numeric validator lets through.  It returns [null] only for
    an empty value or for a number within the bounds, and a result without
    error only for a value that is not a number but reads as one within the
    bounds; that result carries the number [parseFloat] reads.  A value that
    is not empty and does not pass [isNumber] is reported as not numeric,
    whatever the bounds are. *)
Theorem numeric_validate_lets_through :
  (forall v value name,
     Numeric.validate getString format v value name = None ->
     isValueEmpty value = true \/
     ((exists n, value = VNum n) /\ Numeric.isNumber value = true /\
      Numeric.inRange v (parseFloat (ToString value)))) /\
  (forall v value name x,
     Numeric.validate getString format v value name =
       Some {| Numeric.numeric_value := x; Numeric.numeric_error := None |} ->
     (forall n, value <> VNum n) /\ Numeric.isNumber value = true /\
     x = VNum (parseFloat (ToString value)) /\
     Numeric.inRange v (parseFloat (ToString value))) /\
  (forall v value name,
     isValueEmpty value = false -> Numeric.isNumber value = false ->
     Numeric.validate getString format v value name =
       Some {| Numeric.numeric_value := VNull;
               Numeric.numeric_error := Some Numeric.RequreNumericError |}).
Proof.
  assert (Hrange : forall v x,
            match Numeric.minValue v with
            | Some lo => PrimFloat.ltb x lo
            | None => false
            end = false ->
            match Numeric.maxValue v with
            | Some hi => PrimFloat.ltb hi x
            | None => false
            end = false ->
            Numeric.inRange v x).
  { intros v x H1 H2. split; intros b Hb; rewrite Hb in *; assumption. }
  repeat match goal with |- _ /\ _ => split end.
  - intros v value name. unfold Numeric.validate.
    destruct (isValueEmpty value); [now left|].
    destruct (Numeric.isNumber value); cbn [negb]; [|discriminate]. cbv zeta.
    destruct (match Numeric.minValue v with Some _ => _ | None => _ end) eqn:H1;
      [discriminate|].
    destruct (match Numeric.maxValue v with Some _ => _ | None => _ end) eqn:H2;
      [discriminate|].
    intros H. right. split; [|split; [reflexivity | now apply Hrange]].
    destruct value; try discriminate. eauto.
  - intros v value name x. unfold Numeric.validate.
    destruct (isValueEmpty value); [discriminate|].
    destruct (Numeric.isNumber value); cbn [negb]; [|discriminate]. cbv zeta.
    destruct (match Numeric.minValue v with Some _ => _ | None => _ end) eqn:H1;
      [discriminate|].
    destruct (match Numeric.maxValue v with Some _ => _ | None => _ end) eqn:H2;
      [discriminate|].
    intros H. split; [|split; [reflexivity | split; [|now apply Hrange]]].
    + intros n ->. discriminate.
    + destruct value; congruence.
  - intros v value name He Hn. unfold Numeric.validate. now rewrite He, Hn.
Qed.

End NumericSpec.

(** ["12px"] begins with a number, and is reported as not numeric. *)
Lemma numeric_validate_lets_through_witness :
  Numeric.validate (fun _ => "") (fun _ _ => "")
    {| Numeric.text := ""; Numeric.minValue := None; Numeric.maxValue := None |}
    (VStr "12px") "q" =
  Some {| Numeric.numeric_value := VNull;
          Numeric.numeric_error := Some Numeric.RequreNumericError |}.
Proof.
  apply (proj2 (proj2 (numeric_validate_lets_through (fun _ => "") (fun _ _ => ""))));
    vm_compute; reflexivity.
Defined.

(** ** TextValidator *)

Section TextSpec.
Variable getString : string -> string.
Variable format : string -> list value -> string.

(** X13.  A text validator skips [null], [undefined] and the empty array,
    but not the empty string: an answer that was typed and erased is
    checked, and fails exactly when a minimal length is set. *)
Theorem text_validate_checks_the_empty_string :
  (forall v name,
     Text.validate getString format v VNull name = None /\
     Text.validate getString format v VUndefined name = None /\
     Text.validate getString format v (VArr []) name = None) /\
  (forall v name,
     Text.validate getString format v (VStr "") name =
     if PrimFloat.ltb 0 (Text.minLength v)
     then Some {| result_value := VNull;
                  result_error :=
                    Some (Text.createCustomError getString format v name) |}
     else None).
Proof.
  split; [intros v name; repeat split; reflexivity|].
  intros v name. unfold Text.validate.
  cbn [negb andb ToString]. change (Text.reg_test "") with true.
  rewrite andb_false_r.
  unfold Text.lengthBelow, Text.lengthAbove.
  cbn [Expressions.lengthOf String.length].
  change (Text.numberOfNat 0) with 0%float.
  destruct (PrimFloat.ltb 0 (Text.minLength v)) eqn:Hmin; [reflexivity|].
  cbn [andb].
  destruct (PrimFloat.ltb 0 (Text.maxLength v)) eqn:Hmax; [|reflexivity].
  now rewrite (OperandSpec.ltb_asym _ _ Hmax).
Qed.

(** X14.  A text validator never rejects for its length a value that has
    none: when digits are allowed, a number or a boolean passes whatever the
    bounds are, however long it prints. *)
Theorem text_validate_ignores_the_length_of_numbers :
  forall v value name,
    Text.allowDigits v = true ->
    (exists n, value = VNum n) \/ (exists b, value = VBool b) ->
    Text.validate getString format v value name = None.
Proof.
  intros v value name Ha [[n ->] | [b ->]]; unfold Text.validate;
    rewrite Ha; cbn; now rewrite !andb_false_r.
Qed.

End TextSpec.

(** The number 123456 passes a validator of at most three characters. *)
Lemma text_validate_ignores_the_length_of_numbers_witness :
  Text.validate (fun _ => "") (fun _ _ => "")
    {| Text.text := ""; Text.minLength := 0; Text.maxLength := 3;
       Text.allowDigits := true |} (VNum 123456) "q" = None.
Proof.
  apply text_validate_ignores_the_length_of_numbers; [reflexivity|].
  left. eexists. reflexivity.
Defined.

(** ** AnswerCountValidator *)

Section AnswerCountSpec.
Variable getString : string -> string.
Variable format : string -> list value -> string.

(** X15.  An answer count validator counts arrays only: any other value
    passes, whatever the bounds.  It does not use the name it is given: the
    text of the error it reports is the validator's own text when one is
    set, and otherwise the localized message for the bound that was missed,
    which names the bound and not the question. *)
Theorem answerCount_validate_ignores_the_name :
  (forall v value name,
     isArray value = false ->
     AnswerCount.validate getString format v value name = None) /\
  (forall v value name name',
     AnswerCount.validate getString format v value name =
     AnswerCount.validate getString format v value name') /\
  (forall v value name result,
     AnswerCount.validate getString format v value name = Some result ->
     result_value result = VNull /\
     exists key bound,
       (key = "minSelectError" /\ AnswerCount.minCount v = Some bound \/
        key = "maxSelectError" /\ AnswerCount.maxCount v = Some bound) /\
       result_error result =
       Some (CustomError (if truthy (VStr (AnswerCount.text v))
                          then AnswerCount.text v
                          else format (getString key) [VNum bound]))).
Proof.
  repeat match goal with |- _ /\ _ => split end.
  - intros v value name H. destruct value; try reflexivity. discriminate.
  - intros v value name name'. reflexivity.
  - intros v value name result. unfold AnswerCount.validate.
    destruct value as [| |b|n|str|items]; try discriminate. cbv zeta.
    destruct (AnswerCount.minCount v) as [lo|] eqn:Hlo; cbn [AnswerCount.isSet andb].
    + destruct (truthy (VNum lo) && _).
      * intros [= <-]. cbn [result_value result_error]. split; [reflexivity|].
        exists "minSelectError", lo. split; [now left | reflexivity].
      * destruct (AnswerCount.maxCount v) as [hi|] eqn:Hhi;
          cbn [AnswerCount.isSet andb]; [|discriminate].
        destruct (truthy (VNum hi) && _); [|discriminate].
        intros [= <-]. cbn [result_value result_error]. split; [reflexivity|].
        exists "maxSelectError", hi. split; [now right | reflexivity].
    + destruct (AnswerCount.maxCount v) as [hi|] eqn:Hhi;
        cbn [AnswerCount.isSet andb]; [|discriminate].
      destruct (truthy (VNum hi) && _); [|discriminate].
      intros [= <-]. cbn [result_value result_error]. split; [reflexivity|].
      exists "maxSelectError", hi. split; [now right | reflexivity].
Qed.

End AnswerCountSpec.

(** A single answer, not an array, passes a validator that asks for two. *)
Lemma answerCount_validate_ignores_the_name_witness :
  AnswerCount.validate (fun _ => "") (fun _ _ => "")
    {| AnswerCount.text := ""; AnswerCount.minCount := Some 2%float;
       AnswerCount.maxCount := None |} (VStr "one") "q" = None.
Proof.
  apply (proj1 (answerCount_validate_ignores_the_name (fun _ => "") (fun _ _ => ""))).
  reflexivity.
Defined.

End ValidatorsSpec.

(* ===================================================================== *)
(** * More properties of survey.ts *)
(* ===================================================================== *)

Module StoreSpec.
Import JS Helpers Survey.

(** ** The snapshot of values and variables *)

Lemma getFilteredValues_lookup (s : SurveyModel) (key : string) :
  key <> "conditionVersion" ->
  fst (getFilteredValues s) !! key =
  match valuesHash s !! key with
  | Some v => Some v
  | None => variablesHash s !! key
  end.
Proof.
  intros Hk. unfold getFilteredValues. cbn [fst].
  rewrite lookup_insert_ne by congruence. rewrite lookup_union.
  destruct (valuesHash s !! key), (variablesHash s !! key); reflexivity.
Qed.

(** X16.  In the snapshot that [getFilteredValues] hands to triggers and
    conditions a value shadows the variable of the same name, and the key
    [conditionVersion] holds the version counter, whatever value or variable
    bears that name.  The call increments the counter and changes nothing
    else of the survey. *)
Theorem getFilteredValues_shadowing (s : SurveyModel) :
  let version := PrimFloat.add (conditionVersion s) PrimFloat.one in
  fst (getFilteredValues s) !! "conditionVersion" = Some (VNum version) /\
  (forall key, key <> "conditionVersion" ->
     fst (getFilteredValues s) !! key =
     match valuesHash s !! key with
     | Some v => Some v
     | None => variablesHash s !! key
     end) /\
  snd (getFilteredValues s) = set_conditionVersion version s.
Proof.
  cbv zeta. unfold getFilteredValues. cbn [fst snd]. repeat split.
  - apply lookup_insert_eq.
  - intros key Hk. now apply getFilteredValues_lookup.
Qed.

(** ** With collaborators that leave the survey alone

    The statements below are about what the methods of [SurveyModel] do
    themselves.  They are made for the collaborators [inert]: no handler
    changes a value or vetoes a page change or the completion, and the
    calls a method makes to triggers, pages and questions, and to the
    methods of the survey that are recorded as external calls
    ([tryGoNextPageAutomatic], [clearUnusedValues], ...), return without
    changing the survey. *)

Lemma fold_external_inert {A : Type} (f : A -> ExternalCall) (p : A -> bool)
    (l : list A) (s : SurveyModel) :
  fold_left (fun (st : SurveyModel) x => if p x then external inert (f x) st else st) l s =
  set_calls (calls s ++ map f (List.filter p l))%list s.
Proof.
  revert s. induction l as [|x l IH]; intros s; cbn [fold_left List.filter map].
  - rewrite app_nil_r. symmetry. apply SurveySpec.set_calls_id.
  - destruct (p x); [|apply IH].
    rewrite IH. cbn [external inert effect calls set_calls map].
    now rewrite <- app_assoc.
Qed.

Lemma checkTriggers_inert key b s :
  checkTriggers inert key b s =
  if isCompleted s || (List.length (triggers s) =? 0)%nat then s
  else set_calls (calls s ++ triggerCalls key (fst (getFilteredValues s)) b s)%list
                 (snd (getFilteredValues s)).
Proof.
  unfold checkTriggers.
  destruct (isCompleted s || (List.length (triggers s) =? 0)%nat); [reflexivity|].
  unfold getFilteredValues. cbn [fst snd].
  exact (fold_external_inert
           (fun trigger => Trigger_checkExpression trigger key
              (<["conditionVersion" := VNum (conditionVersion s + 1)]>
                 (valuesHash s ∪ variablesHash s)))
           (fun trigger => Bool.eqb (trigger_isOnNextPage trigger) b)
           (triggers s)
           (set_conditionVersion (conditionVersion s + 1) s)).
Qed.

Lemma runConditions_inert s :
  runConditions inert s =
  if isCompleted s ||
     match isEndLoadingFromJson s with
     | Some state => String.eqb state "processing"
     | None => false
     end
  then s
  else set_calls (calls s ++ conditionCalls (fst (getFilteredValues s)) s)%list
                 (snd (getFilteredValues s)).
Proof.
  unfold runConditions.
  destruct (isCompleted s || _); [reflexivity|].
  unfold getFilteredValues. cbn [fst snd].
  pose proof (fold_external_inert (fun i => Page_runCondition i
                 (<["conditionVersion" := VNum (conditionVersion s + 1)]>
                    (valuesHash s ∪ variablesHash s)))
                (fun _ => true)) as H.
  cbv beta in H. rewrite H. unfold conditionCalls.
  cbn [pages set_conditionVersion].
  replace (List.filter (fun _ : nat => true) (seq 0 (List.length (pages s))))
    with (seq 0 (List.length (pages s))); [reflexivity|].
  induction (seq 0 (List.length (pages s))) as [|x l IH]; cbn; congruence.
Qed.

(** X17.  [checkTriggers] takes one snapshot and hands it to every trigger
    of the phase it is called for, once each and in the order of
    declaration; the triggers of the other phase are not evaluated, and
    [checkTriggers] itself writes no value (the triggers being [inert]).  A
    survey without triggers takes no snapshot: its version counter stays. *)
Theorem checkTriggers_evaluates_each_trigger_once :
  (forall key isOnNextPage s,
     isCompleted s = false -> triggers s <> [] ->
     let values := fst (getFilteredValues s) in
     calls (checkTriggers inert key isOnNextPage s) =
       (calls s ++ triggerCalls key values isOnNextPage s)%list /\
     conditionVersion (checkTriggers inert key isOnNextPage s) =
       PrimFloat.add (conditionVersion s) PrimFloat.one /\
     valuesHash (checkTriggers inert key isOnNextPage s) = valuesHash s) /\
  (forall E key isOnNextPage s,
     triggers s = [] -> checkTriggers E key isOnNextPage s = s).
Proof.
  split.
  - intros key b s Hc Ht. cbv zeta. rewrite checkTriggers_inert, Hc.
    destruct (triggers s) as [|t ts] eqn:E; [contradiction|].
    cbn [List.length Nat.eqb orb]. repeat split.
  - intros E key b s Ht. unfold checkTriggers. rewrite Ht. cbn.
    now rewrite orb_true_r.
Qed.

Lemma checkTriggers_evaluates_each_trigger_once_witness :
  calls (checkTriggers inert {[ "q1" := VStr "no" ]} false runningSurvey) =
    [Trigger_checkExpression {| trigger_id := 0; trigger_isOnNextPage := false |}
       {[ "q1" := VStr "no" ]} (fst (getFilteredValues runningSurvey))] /\
  conditionVersion (checkTriggers inert {[ "q1" := VStr "no" ]} false runningSurvey) =
    PrimFloat.add PrimFloat.zero PrimFloat.one /\
  valuesHash (checkTriggers inert {[ "q1" := VStr "no" ]} false runningSurvey) =
    valuesHash runningSurvey.
Proof.
  apply (proj1 checkTriggers_evaluates_each_trigger_once
           {[ "q1" := VStr "no" ]} false runningSurvey); [reflexivity | discriminate].
Defined.

(** X18.  [runConditions] takes one snapshot and hands it to every page,
    once each and in order (the pages being [inert]).  While the survey is
    being loaded (the state [processing]) it does nothing, whatever the
    collaborators. *)
Theorem runConditions_runs_each_page_once :
  (forall s,
     isCompleted s = false -> isEndLoadingFromJson s <> Some "processing" ->
     let values := fst (getFilteredValues s) in
     calls (runConditions inert s) = (calls s ++ conditionCalls values s)%list /\
     conditionVersion (runConditions inert s) =
       PrimFloat.add (conditionVersion s) PrimFloat.one /\
     valuesHash (runConditions inert s) = valuesHash s) /\
  (forall E s,
     isEndLoadingFromJson s = Some "processing" -> runConditions E s = s).
Proof.
  split.
  - intros s Hc Hl. cbv zeta. rewrite runConditions_inert, Hc.
    replace (match isEndLoadingFromJson s with
             | Some state => String.eqb state "processing"
             | None => false
             end) with false; [repeat split|].
    destruct (isEndLoadingFromJson s) as [state|]; [|reflexivity].
    symmetry. apply String.eqb_neq. congruence.
  - intros E s Hl. unfold runConditions. rewrite Hl. cbn. now rewrite orb_true_r.
Qed.

Lemma runConditions_runs_each_page_once_witness :
  calls (runConditions inert runningSurvey) =
    [Page_runCondition 0 (fst (getFilteredValues runningSurvey))] /\
  conditionVersion (runConditions inert runningSurvey) =
    PrimFloat.add PrimFloat.zero PrimFloat.one /\
  valuesHash (runConditions inert runningSurvey) = valuesHash runningSurvey.
Proof.
  apply (proj1 runConditions_runs_each_page_once runningSurvey);
    [reflexivity | discriminate].
Defined.

(** ** Writing a value *)

Lemma sameRest_refl s : sameRest s s.
Proof. repeat split. Qed.

Lemma sameRest_trans s1 s2 s3 : sameRest s1 s2 -> sameRest s2 s3 -> sameRest s1 s3.
Proof. unfold sameRest. intuition congruence. Qed.

Lemma external_inert_keeps c s :
  valuesHash (external inert c s) = valuesHash s /\ sameRest s (external inert c s).
Proof. repeat split. Qed.

Lemma checkTriggers_inert_keeps key b s :
  valuesHash (checkTriggers inert key b s) = valuesHash s /\
  sameRest s (checkTriggers inert key b s).
Proof.
  rewrite checkTriggers_inert. destruct (isCompleted s || _); repeat split.
Qed.

Lemma runConditions_inert_keeps s :
  valuesHash (runConditions inert s) = valuesHash s /\
  sameRest s (runConditions inert s).
Proof.
  rewrite runConditions_inert. destruct (isCompleted s || _); repeat split.
Qed.

Lemma setValue_inert name v loc s :
  setValue inert name v loc s =
  if isValueEqual name v s then s
  else
    let s2 := external inert (UpdateQuestionValue name v) (written name v s) in
    if loc then s2
    else external inert (TryGoNextPageAutomatic name)
           (external inert (NotifyQuestionOnValueChanged name v)
              (runConditions inert (checkTriggers inert {[ name := v ]} false s2))).
Proof.
  unfold setValue, questionOnValueChanging, written. cbn [inert onValueChanging].
  destruct (isValueEqual name v s) eqn:He.
  - now rewrite (SurveySpec.isValueEqual_self _ _ _ He).
  - cbn [andb]. unfold getUnbindValue. destruct (isValueEmpty v); reflexivity.
Qed.

Lemma setValue_inert_keeps name v loc s :
  valuesHash (setValue inert name v loc s) =
    (if isValueEqual name v s then valuesHash s
     else if isValueEmpty v then delete name (valuesHash s)
          else <[name := v]> (valuesHash s)) /\
  sameRest s (setValue inert name v loc s).
Proof.
  rewrite setValue_inert. destruct (isValueEqual name v s); [repeat split|].
  cbv zeta.
  set (s2 := external inert (UpdateQuestionValue name v) (written name v s)).
  assert (H2 : valuesHash s2 =
               (if isValueEmpty v then delete name (valuesHash s)
                else <[name := v]> (valuesHash s)) /\ sameRest s s2).
  { unfold s2, written. destruct (isValueEmpty v); repeat split. }
  destruct loc; [exact H2|].
  destruct H2 as [Hv Hr].
  destruct (checkTriggers_inert_keeps {[ name := v ]} false s2) as [Hv3 Hr3].
  destruct (runConditions_inert_keeps (checkTriggers inert {[ name := v ]} false s2))
    as [Hv4 Hr4].
  split.
  - cbn [external inert effect valuesHash set_calls]. congruence.
  - eapply sameRest_trans; [exact Hr|]. eapply sameRest_trans; [exact Hr3|].
    eapply sameRest_trans; [exact Hr4|]. repeat split.
Qed.

Lemma getValue_store name s s' :
  valuesHash s' = valuesHash s -> getValue name s' = getValue name s.
Proof. intros H. unfold getValue. now rewrite H. Qed.

Lemma getValue_named (name : string) (s : SurveyModel) :
  name <> "" ->
  getValue name s = match valuesHash s !! name with Some v => v | None => VUndefined end.
Proof.
  intros H. unfold getValue. destruct name; [contradiction|reflexivity].
Qed.

(** X19.  [setValue] then [getValue], with [inert] collaborators.  After an
    empty value was set, the name reads as empty.  After any other value was
    set, the name reads as that value, unless the store already held a value
    equal to it, which then stays as it was (the string ["5"] is not
    replaced by the number 5). *)
Theorem setValue_then_getValue :
  forall name v locNotification s,
    name <> "" -> ownKey name ->
    let s' := setValue inert name v locNotification s in
    (isValueEmpty v = true -> isValueEmpty (getValue name s') = true) /\
    (isValueEmpty v = false ->
     getValue name s' = v \/
     (getValue name s' = getValue name s /\
      isTwoValueEquals v (getValue name s) = true)).
Proof.
  intros name v loc s Hn _. cbv zeta.
  destruct (setValue_inert_keeps name v loc s) as [Hv _].
  rewrite (getValue_named name _ Hn), Hv.
  destruct (isValueEqual name v s) eqn:He.
  - rewrite <- (getValue_named name s Hn).
    unfold isValueEqual in He. split; intros Hemp.
    + destruct v as [| |b|n|[|c str]|[|x l]]; try discriminate Hemp;
        cbn [blankToNull] in He;
        destruct (getValue name s) as [| |b'|n'|[|c' str']|[|x' l']];
        try reflexivity; discriminate He.
    + right. split; [reflexivity|].
      destruct v as [| |b|n|[|c str]|l]; try discriminate Hemp;
        cbn [blankToNull] in He;
        destruct (getValue name s) as [| |b'|n'|[|c' str']|l'];
        cbn [blankToNull] in He; try discriminate He; exact He.
  - split; intros Hemp; rewrite Hemp.
    + now rewrite lookup_delete_eq.
    + left. now rewrite lookup_insert_eq.
Qed.

Lemma setValue_then_getValue_witness :
  getValue "q2" (setValue inert "q2" (VNum 5) false threePages) = VNum 5 \/
  (getValue "q2" (setValue inert "q2" (VNum 5) false threePages) =
     getValue "q2" threePages /\
   isTwoValueEquals (VNum 5) (getValue "q2" threePages) = true).
Proof.
  apply (setValue_then_getValue "q2" (VNum 5) false threePages).
  - discriminate.
  - unfold ownKey. cbn. intuition discriminate.
  - reflexivity.
Defined.






End StoreSpec.

Module NavigationSpec.
Import JS Helpers Survey.

(** ** The current page *)

Lemma indexOfFrom_absent (l : list nat) (p : nat) (i : Z) :
  existsb (Nat.eqb p) l = false -> Survey.indexOfFrom l p i = -1.
Proof.
  revert i. induction l as [|y l IH]; intros i H; cbn in *; [reflexivity|].
  apply orb_false_iff in H as [H1 H2].
  rewrite Nat.eqb_sym, H1. now apply IH.
Qed.

Lemma indexOfFrom_present (l : list nat) (p : nat) (i : Z) :
  existsb (Nat.eqb p) l = true -> i <= Survey.indexOfFrom l p i < i + Z.of_nat (List.length l).
Proof.
  revert i. induction l as [|y l IH]; intros i H; cbn [existsb] in H; [discriminate|].
  cbn [Survey.indexOfFrom List.length]. rewrite Nat.eqb_sym.
  destruct (Nat.eqb p y); [lia|]. cbn [orb] in H. specialize (IH (i + 1) H). lia.
Qed.

Lemma indexOf_negative (l : list nat) (p : nat) :
  (Survey.indexOf l (Some p) <? 0) = negb (existsb (Nat.eqb p) l).
Proof.
  unfold Survey.indexOf. destruct (existsb (Nat.eqb p) l) eqn:H.
  - pose proof (indexOfFrom_present l p 0 H). cbn [negb]. apply Z.ltb_ge. lia.
  - now rewrite (indexOfFrom_absent l p 0 H).
Qed.

Lemma samePage_true a b : samePage a b = true -> a = b.
Proof.
  destruct a, b; cbn; try discriminate; try reflexivity.
  intros H. apply Nat.eqb_eq in H. now subst.
Qed.

(** What [set currentPage] does for a page it accepts, with [inert]
    collaborators. *)
Lemma set_currentPage_inert (v : option nat) (s : SurveyModel) :
  match v with
  | Some p => existsb (Nat.eqb p) (visiblePages s) = true
  | None => True
  end ->
  currentPageValue (set_currentPage inert v s) = v /\
  sameSurvey s (set_currentPage inert v s) /\
  isCompleted (set_currentPage inert v s) = isCompleted s.
Proof.
  intros Hv. unfold set_currentPage.
  replace (match v with
           | Some _ => Survey.indexOf (visiblePages s) v <? 0
           | None => false
           end) with false.
  2:{ destruct v as [p|]; [|reflexivity]. now rewrite indexOf_negative, Hv. }
  destruct (samePage v (currentPageValue s)) eqn:Hs.
  - apply samePage_true in Hs. repeat split. now symmetry.
  - cbn [inert onCurrentPageChanging negb]. destruct v; repeat split.
Qed.

Lemma head_visible (s : SurveyModel) (q : nat) :
  head (visiblePages s) = Some q -> existsb (Nat.eqb q) (visiblePages s) = true.
Proof.
  destruct (visiblePages s) as [|x l]; [discriminate|].
  intros [= ->]. cbn. now rewrite Nat.eqb_refl.
Qed.

Lemma get_currentPage_inert (s : SurveyModel) :
  fst (get_currentPage inert s) =
    (if currentIsVisible s then currentPageValue s else head (visiblePages s)) /\
  currentPageValue (snd (get_currentPage inert s)) = fst (get_currentPage inert s) /\
  sameSurvey s (snd (get_currentPage inert s)) /\
  isCompleted (snd (get_currentPage inert s)) = isCompleted s.
Proof.
  unfold get_currentPage, currentIsVisible. cbn [fst snd].
  set (s1 := match currentPageValue s with
             | Some _ => if Survey.indexOf (visiblePages s) (currentPageValue s) <? 0
                         then set_currentPage inert None s else s
             | None => s
             end).
  assert (H1 : currentPageValue s1 =
               (if match currentPageValue s with
                   | Some p => existsb (Nat.eqb p) (visiblePages s)
                   | None => false
                   end then currentPageValue s else None) /\
               sameSurvey s s1 /\ isCompleted s1 = isCompleted s).
  { unfold s1. destruct (currentPageValue s) as [p|] eqn:Hc.
    - rewrite indexOf_negative. destruct (existsb (Nat.eqb p) (visiblePages s)); cbn [negb].
      + rewrite Hc. repeat split.
      + apply (set_currentPage_inert None s I).
    - rewrite Hc. repeat split. }
  destruct H1 as (Hc1 & Hs1 & Hd1).
  destruct (match currentPageValue s with
            | Some p => existsb (Nat.eqb p) (visiblePages s)
            | None => false
            end) eqn:Hvis.
  - destruct (currentPageValue s) as [p|] eqn:Hc; [|discriminate].
    rewrite Hc1. auto.
  - rewrite Hc1.
    destruct (visiblePages s) as [|q l] eqn:Hl.
    + cbn [List.length Nat.ltb Nat.leb head]. rewrite Hc1. auto.
    + cbn [List.length head]. change (0 <? S (List.length l))%nat with true.
      cbv iota.
      assert (Hq : existsb (Nat.eqb q) (visiblePages s1) = true).
      { rewrite (SurveySpec.sameSurvey_visiblePages _ _ Hs1), Hl. cbn.
        now rewrite Nat.eqb_refl. }
      destruct (set_currentPage_inert (Some q) s1 Hq) as (G1 & G2 & G3).
      change (at_ (q :: l) 0) with (Some q).
      split; [exact G1|]. split; [reflexivity|]. split; [|congruence].
      destruct Hs1 as (A1 & A2 & A3 & A4), G2 as (B1 & B2 & B3 & B4).
      repeat split; congruence.
Qed.

(** X22.  The getter of [currentPage] repairs the page it holds.  With
    [inert] collaborators it returns the page held if that page is visible,
    and the first visible page otherwise (a page that was hidden, or none
    yet); the page returned is the one held from then on.  So the current
    page is always a visible page, and it is [null] only when no page is
    visible; [currentPageNo] is then [-1], and otherwise it is the position
    of the current page among the visible ones. *)
Theorem currentPage_is_a_visible_page (s : SurveyModel) :
  let page := fst (get_currentPage inert s) in
  page = (if currentIsVisible s then currentPageValue s else head (visiblePages s)) /\
  currentPageValue (snd (get_currentPage inert s)) = page /\
  match page with
  | Some p => In p (visiblePages s) /\
              0 <= fst (get_currentPageNo inert s)
                < Z.of_nat (List.length (visiblePages s))
  | None => visiblePages s = [] /\ fst (get_currentPageNo inert s) = -1
  end.
Proof.
  cbv zeta. destruct (get_currentPage_inert s) as (H1 & H2 & _).
  split; [exact H1|]. split; [exact H2|].
  unfold get_currentPageNo.
  destruct (get_currentPage inert s) as [page s1]. cbn [fst snd] in *.
  assert (Hin : match page with
                | Some p => existsb (Nat.eqb p) (visiblePages s) = true
                | None => visiblePages s = []
                end).
  { rewrite H1. unfold currentIsVisible.
    destruct (currentPageValue s) as [p|].
    - destruct (existsb (Nat.eqb p) (visiblePages s)) eqn:He; [exact He|].
      destruct (visiblePages s) as [|q l]; [reflexivity|]. cbn.
      now rewrite Nat.eqb_refl.
    - destruct (visiblePages s) as [|q l]; [reflexivity|]. cbn.
      now rewrite Nat.eqb_refl. }
  destruct page as [p|].
  - split.
    + apply existsb_exists in Hin as (x & Hx & He). apply Nat.eqb_eq in He. now subst.
    + unfold Survey.indexOf. pose proof (indexOfFrom_present _ p 0 Hin). lia.
  - split; [exact Hin | reflexivity].
Qed.

(** ** Going back *)

Lemma nth_error_visible (s : SurveyModel) (k p : nat) :
  nth_error (visiblePages s) k = Some p -> existsb (Nat.eqb p) (visiblePages s) = true.
Proof.
  intros H. apply existsb_exists. exists p. split; [|apply Nat.eqb_refl].
  eapply nth_error_In; eauto.
Qed.

Lemma isFirstPage_visible (s : SurveyModel) (k p : nat) :
  currentPageValue s = Some p ->
  nth_error (visiblePages s) k = Some p ->
  isFirstPage inert s = (Nat.eqb k 0, s).
Proof.
  intros Hc Hk. unfold isFirstPage.
  rewrite !(SurveySpec.get_currentPage_visible s k p Hc Hk),
          (SurveySpec.indexOf_visible s k p Hk).
  f_equal. destruct k; [reflexivity|]. apply Z.eqb_neq. lia.
Qed.

Lemma prevPage_visible (s : SurveyModel) (k p q : nat) :
  currentPageValue s = Some p ->
  nth_error (visiblePages s) (S k) = Some p ->
  nth_error (visiblePages s) k = Some q ->
  prevPage inert s = (VUndefined, set_currentPage inert (Some q) s).
Proof.
  intros Hc Hk Hq. unfold prevPage.
  rewrite (isFirstPage_visible s (S k) p Hc Hk). cbn [Nat.eqb].
  rewrite (SurveySpec.get_currentPage_visible s (S k) p Hc Hk),
          (SurveySpec.indexOf_visible s (S k) p Hk).
  unfold at_. replace (Z.of_nat (S k) - 1) with (Z.of_nat k) by lia.
  replace (Z.of_nat k <? 0) with false by (symmetry; apply Z.ltb_ge; lia).
  now rewrite Nat2Z.id, Hq.
Qed.

(** X23.  [prevPage].  With [inert] collaborators, on a page that is not
    the first visible one it makes the visible page before it current, and
    on the first visible page it changes nothing and returns [false]; after
    [doNextPage] has advanced, it leads back to the page left.  Whatever the
    collaborators, its result is never [true]: where it moves, the method
    ends without a value. *)
Theorem prevPage_goes_back :
  (forall s k p q,
     currentPageValue s = Some p ->
     nth_error (visiblePages s) (S k) = Some p ->
     nth_error (visiblePages s) k = Some q ->
     fst (prevPage inert s) = VUndefined /\
     currentPageValue (snd (prevPage inert s)) = Some q) /\
  (forall s p,
     currentPageValue s = Some p ->
     nth_error (visiblePages s) 0 = Some p ->
     prevPage inert s = (VBool false, s)) /\
  (forall s k p q,
     isCompleted s = false -> triggers s = [] ->
     currentPageValue s = Some p ->
     nth_error (visiblePages s) k = Some p ->
     nth_error (visiblePages s) (S k) = Some q ->
     currentPageValue (snd (prevPage inert (doNextPage inert s))) = Some p) /\
  (forall E s, fst (prevPage E s) <> VBool true).
Proof.
  assert (Hback : forall s k p q,
     currentPageValue s = Some p ->
     nth_error (visiblePages s) (S k) = Some p ->
     nth_error (visiblePages s) k = Some q ->
     fst (prevPage inert s) = VUndefined /\
     currentPageValue (snd (prevPage inert s)) = Some q).
  { intros s k p q Hc Hk Hq. rewrite (prevPage_visible s k p q Hc Hk Hq). cbn [fst snd].
    split; [reflexivity|].
    apply (set_currentPage_inert (Some q) s). eapply nth_error_visible; eauto. }
  repeat match goal with |- _ /\ _ => split end.
  - exact Hback.
  - intros s p Hc Hk. unfold prevPage. now rewrite (isFirstPage_visible s 0 p Hc Hk).
  - intros s k p q Hcomp Ht Hc Hk Hq.
    destruct (SurveySpec.doNextPage_advances s k p q Hcomp Ht Hc Hk Hq)
      as (G1 & _ & _ & Hsame).
    pose proof (SurveySpec.sameSurvey_visiblePages _ _ Hsame) as Hvis.
    apply (Hback (doNextPage inert s) k q p); congruence.
  - intros E s. unfold prevPage. destruct (isFirstPage E s) as [[|] s1].
    + discriminate.
    + destruct (get_currentPage E s1). discriminate.
Qed.

Lemma prevPage_goes_back_witness :
  currentPageValue (snd (prevPage inert (doNextPage inert threePages))) = Some 0%nat.
Proof.
  apply (proj1 (proj2 (proj2 prevPage_goes_back)) threePages 0%nat 0%nat 1%nat);
    reflexivity.
Defined.

(** ** Completing *)

(** X24.  [doComplete] can be vetoed: when a handler of [onCompleting]
    withdraws [allowComplete], nothing is done beyond what the handlers did.
    With [inert] collaborators the survey is completed and the calls are
    made in this order: the timer is stopped, unused values are cleared, the
    cookie is set, [onComplete] is fired, and the result is sent if a post
    id is set. *)
Theorem doComplete_can_be_vetoed :
  (forall E s, fst (onCompleting E s) = false -> doComplete E s = snd (onCompleting E s)) /\
  (forall s,
     isCompleted (doComplete inert s) = true /\
     calls (doComplete inert s) =
       (calls s ++ [StopTimer; ClearUnusedValues; SetCookie; OnComplete_fire] ++
        if truthy (VStr (surveyPostId s)) then [SendResult false] else [])%list).
Proof.
  split.
  - intros E s H. unfold doComplete. destruct (onCompleting E s) as [allow s1].
    cbn [fst snd] in *. now rewrite H.
  - intros s. unfold doComplete. cbn [inert onCompleting hasCookie negb andb].
    cbn [external inert effect setCompleted set_isCompleted set_calls calls surveyPostId].
    destruct (truthy (VStr (surveyPostId s))); cbn; rewrite <- ?app_assoc; repeat split.
Qed.

Lemma doComplete_can_be_vetoed_witness :
  let vetoing :=
    {| onValueChanging := [];
       onServerValidateQuestions_isEmpty := true;
       onCurrentPageChanging := fun _ _ s => (true, s);
       onCompleting := fun s => (false, s);
       hasCookie := fun _ => false;
       effect := fun _ s => s |} in
  doComplete vetoing threePages = threePages.
Proof.
  cbv zeta. apply (proj1 doComplete_can_be_vetoed). reflexivity.
Defined.

(** ** The data sent for validation on the server *)

Lemma collected_lookup (s : SurveyModel) (questions : list Question)
    (data0 : gmap string value) (key : string) :
  fold_left (fun (data : gmap string value) question =>
               if negb (question_visible question) then data
               else
                 let value := getValue (question_valueName question) s in
                 if negb (isValueEmpty value)
                 then <[question_valueName question := value]> data
                 else data)
            questions data0 !! key =
  if existsb (fun question => question_visible question &&
                              String.eqb (question_valueName question) key &&
                              negb (isValueEmpty (getValue key s))) questions
  then Some (getValue key s)
  else data0 !! key.
Proof.
  revert data0. induction questions as [|q questions IH]; intros data0;
    cbn [fold_left existsb]; [reflexivity|].
  rewrite IH. destruct (existsb _ questions); [now rewrite orb_true_r|].
  rewrite orb_false_r. destruct (question_visible q); cbn [negb andb]; [|reflexivity].
  cbv zeta. destruct (String.eqb_spec (question_valueName q) key) as [He|He].
  - subst key. cbn [andb].
    destruct (isValueEmpty (getValue (question_valueName q) s)); cbn [negb];
      [reflexivity | apply lookup_insert_eq].
  - cbn [andb].
    destruct (isValueEmpty (getValue (question_valueName q) s)); cbn [negb];
      [reflexivity | now apply lookup_insert_ne].
Qed.

(** X25.  [doServerValidation].  Without a handler it returns [false] and
    leaves the survey as it is.  With a handler and no visible page it
    raises: there is no current page to read the questions of.  Otherwise
    (the collaborators being [inert]) it marks the survey as validating,
    calls the handlers once and returns [true]; the data it hands them
    holds, under the value name of each visible question of the current
    page, the answer of that question, and holds nothing for an answer that
    is empty, for a hidden question or for a question of another page. *)
Theorem doServerValidation_collects_answers :
  (forall E s,
     onServerValidateQuestions_isEmpty E = true ->
     doServerValidation E s = Return (false, s)) /\
  (forall s,
     visiblePages s = [] ->
     doServerValidation inert s =
     Throw "TypeError: Cannot read property 'questions' of null") /\
  (forall s k p,
     currentPageValue s = Some p ->
     nth_error (visiblePages s) k = Some p ->
     exists data,
       doServerValidation inert s =
       Return (true, external inert (OnServerValidateQuestions_fire data)
                       (setIsValidatingOnServer true s)) /\
       forall key v,
         data !! key = Some v <->
         v = getValue key s /\ isValueEmpty v = false /\
         exists question,
           In question (questionsOfPage p s) /\
           question_visible question = true /\
           question_valueName question = key).
Proof.
  repeat match goal with |- _ /\ _ => split end.
  - intros E s H. unfold doServerValidation. now rewrite H.
  - intros s Hv. unfold doServerValidation.
    cbn [inert onServerValidateQuestions_isEmpty].
    destruct (get_currentPage_inert s) as (H1 & _).
    destruct (get_currentPage inert s) as [page s1]. cbn [fst] in H1.
    rewrite H1. unfold currentIsVisible. rewrite Hv.
    destruct (currentPageValue s); reflexivity.
  - intros s k p Hc Hk. unfold doServerValidation.
    cbn [inert onServerValidateQuestions_isEmpty].
    rewrite (SurveySpec.get_currentPage_visible s k p Hc Hk).
    eexists. split; [reflexivity|].
    intros key v. rewrite collected_lookup, lookup_empty.
    destruct (existsb _ (questionsOfPage p s)) eqn:He.
    + apply existsb_exists in He as (q & Hq & Hb).
      apply andb_true_iff in Hb as [Hb Hemp]. apply andb_true_iff in Hb as [Hvis Hname].
      apply String.eqb_eq in Hname. apply negb_true_iff in Hemp.
      split.
      * intros [= <-]. split; [reflexivity|]. split; [exact Hemp|]. eauto.
      * intros (-> & _). reflexivity.
    + split; [discriminate|].
      intros (-> & Hemp & q & Hq & Hvis & Hname). exfalso.
      assert (existsb (fun question => question_visible question &&
                         String.eqb (question_valueName question) key &&
                         negb (isValueEmpty (getValue key s)))
                      (questionsOfPage p s) = true); [|congruence].
      apply existsb_exists. exists q. split; [exact Hq|].
      rewrite Hvis, Hemp. cbn. rewrite andb_true_r. apply String.eqb_eq. exact Hname.
Qed.

Lemma doServerValidation_collects_answers_witness :
  exists data,
    doServerValidation inert threePages =
    Return (true, external inert (OnServerValidateQuestions_fire data)
                    (setIsValidatingOnServer true threePages)) /\
    forall key v,
      data !! key = Some v <->
      v = getValue key threePages /\ isValueEmpty v = false /\
      exists question,
        In question (questionsOfPage 0 threePages) /\
        question_visible question = true /\
        question_valueName question = key.
Proof.
  apply (proj2 (proj2 doServerValidation_collects_answers) threePages 0%nat 0%nat);
    reflexivity.
Defined.

(** ** Variables *)

Section VariablesSpec.
Variable Page_onAnyValueChanged : nat -> string -> SurveyModel -> SurveyModel.
Variable E : Collaborators.
Hypothesis keeps : keepVariables E Page_onAnyValueChanged.

Lemma fold_keeps_variables {A : Type} (f : SurveyModel -> A -> SurveyModel)
    (l : list A) (s : SurveyModel) :
  (forall st x, variablesHash (f st x) = variablesHash st) ->
  variablesHash (fold_left f l s) = variablesHash s.
Proof.
  intros Hf. revert s. induction l as [|x l IH]; intros s; cbn [fold_left];
    [reflexivity|]. now rewrite IH, Hf.
Qed.

Lemma external_keeps_variables c s :
  variablesHash (external E c s) = variablesHash s.
Proof. unfold external. now rewrite (proj1 keeps). Qed.

Lemma runConditions_keeps_variables s :
  variablesHash (runConditions E s) = variablesHash s.
Proof.
  unfold runConditions. destruct (isCompleted s || _); [reflexivity|].
  unfold getFilteredValues. rewrite fold_keeps_variables; [reflexivity|].
  intros st x. apply external_keeps_variables.
Qed.

Lemma notify_keeps_variables name s :
  variablesHash (notifyElementsOnAnyValueOrVariableChanged Page_onAnyValueChanged E name s) =
  variablesHash s.
Proof.
  unfold notifyElementsOnAnyValueOrVariableChanged.
  destruct (match isEndLoadingFromJson s with Some _ => _ | None => _ end);
    [reflexivity|].
  cbv zeta.
  match goal with
  | |- variablesHash (if ?c then _ else _) = _ => destruct c
  end; rewrite ?external_keeps_variables; apply fold_keeps_variables;
    intros st x; apply (proj2 keeps).
Qed.

Lemma toLowerCase_empty (name : string) : toLowerCase name = "" -> name = "".
Proof. destruct name; [reflexivity | discriminate]. Qed.

(** X26.  Variables are kept under their name in lower case.  With
    collaborators that do not write variables themselves, a variable that
    was set is read back under any spelling of its name that differs in case
    only; setting a variable leaves every variable of another name as it
    was; and an empty name is refused: nothing is set, and [null] is read. *)
Theorem variables_are_case_insensitive :
  (forall name name' v s,
     name <> "" -> toLowerCase name' = toLowerCase name ->
     toLowerCase name <> "__proto__" ->
     getVariable name' (setVariable Page_onAnyValueChanged E name v s) = v) /\
  (forall name other v s,
     toLowerCase other <> toLowerCase name ->
     toLowerCase name <> "__proto__" ->
     getVariable other (setVariable Page_onAnyValueChanged E name v s) =
     getVariable other s) /\
  (forall v s,
     setVariable Page_onAnyValueChanged E "" v s = s /\ getVariable "" s = VNull).
Proof.
  assert (Hset : forall name v s, name <> "" ->
            variablesHash (setVariable Page_onAnyValueChanged E name v s) =
            <[toLowerCase name := v]> (variablesHash s)).
  { intros name v s Hn. unfold setVariable.
    destruct name as [|c name]; [contradiction|]. cbn [truthy negb]. cbv zeta.
    now rewrite runConditions_keeps_variables, notify_keeps_variables. }
  repeat match goal with |- _ /\ _ => split end.
  - intros name name' v s Hn Hl _. unfold getVariable.
    assert (Hn' : name' <> "").
    { intros ->. apply Hn, toLowerCase_empty. now rewrite <- Hl. }
    destruct name' as [|c' name']; [contradiction|]. cbn [truthy negb].
    unfold getDataValueCore. rewrite (Hset name v s Hn), Hl.
    now rewrite lookup_insert_eq.
  - intros name other v s Hl _. unfold getVariable.
    destruct other as [|c' other]; [reflexivity|]. cbn [truthy negb].
    unfold getDataValueCore. destruct name as [|c name]; [reflexivity|].
    rewrite (Hset (String c name) v s) by discriminate.
    rewrite lookup_insert_ne by congruence. reflexivity.
  - intros v s. split; reflexivity.
Qed.

End VariablesSpec.

Lemma variables_are_case_insensitive_witness :
  getVariable "USERNAME"
    (setVariable (fun _ _ s => s) inert "userName" (VStr "Ann") threePages) = VStr "Ann".
Proof.
  apply (proj1 (variables_are_case_insensitive (fun _ _ s => s) inert
                  (conj (fun _ _ => eq_refl) (fun _ _ _ => eq_refl)))
               "userName" "USERNAME" (VStr "Ann") threePages);
    [discriminate | reflexivity | discriminate].
Defined.

(** ** Past the last page *)



End NavigationSpec.
